(** * Portfolio manager: FIFO gain/loss calculator and French tax engine

    A shallow embedding of the financial core of the portfolio manager:

    - [models]         src/portfolio_manager/database/models.py
                       ([Transaction], [Position])
    - [calculator]     src/project_snapshot/portfolio_manager/core/calculator.py
                       ([FinancialCalculator])
    - [db_manager]     src/project_snapshot/portfolio_manager/database/db_manager.py
                       ([DatabaseManager._calculate_position_cost],
                       [get_current_positions])
    - [tax_calculator] src/project_snapshot/portfolio_manager/core/tax_calculator.py
                       ([TaxCalculator])
    - [portfolio]      src/project_snapshot/portfolio_manager/core/portfolio.py
                       ([Portfolio.get_portfolio_snapshot])
    - [transactions_tab] src/portfolio_manager/ui/transactions_tab.py
                       ([_calculate_realized_pnl])

    Numbers.  The Python code computes on [float] (and on [int] where the
    caller passes integers).  Amounts are embedded as exact rationals [Q]:
    every arithmetic operator is the exact one, Python's [==], [<], [<=]
    on numbers are [Qeq_bool] and [Qle_bool], and rounding of binary64 is
    not modelled.  Equality of amounts in the statements is [Qeq] ([==]).

    Exceptions.  Python's true division raises [ZeroDivisionError] on a zero
    divisor and [d[k]] raises [KeyError] on a missing key; functions that
    can reach one of them return in the [result] monad of module [Py].

    Data.  The [transactions] table has [CHECK(quantity > 0)] and
    [CHECK(price_per_share > 0)], and every [Transaction] object goes
    through [__post_init__]; statements about lots take these as
    hypotheses ([positive_quantity], [initialised], [nonneg_cost]).

    Module [binary64] repeats, on primitive floats, the functions that the
    statements evaluate at given inputs, and module [binary64_ledger] the
    FIFO ledger of the calculator: a statement that holds on exact
    rationals only says so, and the inputs at which binary64 departs from
    it are replayed. *)

From Stdlib Require Import QArith Qabs Lqa ZArith Lia.
From Stdlib Require Import List String Bool Permutation Sorted.
From Stdlib Require Import Floats.
Import ListNotations.

Open Scope string_scope.
Open Scope list_scope.
Open Scope Q_scope.

(* ================================================================== *)
(** * The Python run time used by the source *)
(* ================================================================== *)

Module Py.

Inductive exn : Type :=
| ZeroDivisionError
| KeyError (key : string)
| TypeError.

Inductive result (A : Type) : Type :=
| Ok (a : A)
| Raise (e : exn).
Arguments Ok {A} a.
Arguments Raise {A} e.

Definition bind {A B : Type} (c : result A) (k : A -> result B) : result B :=
  match c with
  | Ok a => k a
  | Raise e => Raise e
  end.

(** Comparisons on numbers. *)
Definition le (a b : Q) : bool := Qle_bool a b.
Definition lt (a b : Q) : bool := negb (Qle_bool b a).
Definition ge (a b : Q) : bool := le b a.
Definition gt (a b : Q) : bool := lt b a.
Definition eq (a b : Q) : bool := Qeq_bool a b.

(** [a / b]: true division, raising on a zero divisor. *)
Definition truediv (a b : Q) : result Q :=
  if eq b 0 then Raise ZeroDivisionError else Ok (a / b).

(** [min(a, b)] and [max(a, b)] keep the first argument unless the second
    is strictly smaller (resp. larger). *)
Definition min (a b : Q) : Q := if lt b a then b else a.
Definition max (a b : Q) : Q := if gt b a then b else a.

Definition abs (a : Q) : Q := Qabs a.

(** [sum(xs)]: left fold from [0]. *)
Definition sum (xs : list Q) : Q := fold_left Qplus xs 0.

(** [sorted(xs, key=...)] on string keys: the stable sort. *)
Section Sorted.
Context {A : Type} (key : A -> string).

Fixpoint insert (x : A) (xs : list A) : list A :=
  match xs with
  | [] => [x]
  | y :: ys =>
      if String.leb (key x) (key y) then x :: y :: ys
      else y :: insert x ys
  end.

Definition sorted (xs : list A) : list A := fold_right insert [] xs.
End Sorted.

(** Dictionaries with string keys, in insertion order. *)
Section Dict.
Context {V : Type}.

Fixpoint getitem (d : list (string * V)) (k : string) : result V :=
  match d with
  | [] => Raise (KeyError k)
  | (k', v) :: d' => if String.eqb k' k then Ok v else getitem d' k
  end.

Fixpoint setitem (d : list (string * V)) (k : string) (v : V)
  : list (string * V) :=
  match d with
  | [] => [(k, v)]
  | (k', v') :: d' =>
      if String.eqb k' k then (k', v) :: d' else (k', v') :: setitem d' k v
  end.
End Dict.

End Py.

Notation "x <- c ;; k" := (Py.bind c (fun x => k))
  (at level 61, c at next level, right associativity).

Import Py (Ok, Raise, ZeroDivisionError, KeyError).

(* ================================================================== *)
(** * config.py: tax rates and the flat order fee *)
(* ================================================================== *)

Module config.
Definition TRANSACTION_FEE : Q := 1.0.
Definition FLAT_TAX_RATE : Q := 0.30.
Definition INCOME_TAX_RATE : Q := 0.128.
Definition SOCIAL_TAX_RATE : Q := 0.172.
Definition CSG_DEDUCTIBLE_RATE : Q := 0.068.
Definition DIVIDEND_ALLOWANCE_RATE : Q := 0.40.
End config.

(* ================================================================== *)
(** * models.py: Transaction and Position *)
(* ================================================================== *)

Module models.

(** [transaction_type] is a string that [__post_init__] checks to be
    ['ACHAT'] or ['VENTE'] (anything else raises [ValueError] at
    construction), so a constructed transaction carries one of the two. *)
Inductive TransactionType : Type := ACHAT | VENTE.

Definition is_achat (t : TransactionType) : bool :=
  match t with ACHAT => true | VENTE => false end.

Module Transaction.
Record t : Type := mk {
  ticker : string;
  company_name : string;
  transaction_type : TransactionType;
  quantity : Q;
  price_per_share : Q;
  transaction_date : string;
  total_cost : Q;
  fees : Q;
  notes : option string;
  id : option Z;
  created_at : option string;
  updated_at : option string
}.

(** What [__post_init__] puts in [total_cost] when it was left at 0. *)
Definition derived_cost (tx : t) : Q :=
  match transaction_type tx with
  | ACHAT => (quantity tx * price_per_share tx) + fees tx
  | VENTE => (quantity tx * price_per_share tx) - fees tx
  end.

Definition post_init (tx : t) : t :=
  if Py.eq (total_cost tx) 0 then
    mk (ticker tx) (company_name tx) (transaction_type tx) (quantity tx)
       (price_per_share tx) (transaction_date tx) (derived_cost tx)
       (fees tx) (notes tx) (id tx) (created_at tx) (updated_at tx)
  else tx.

(** The constructor call [Transaction(...)]: the generated [__init__]
    stores the fields, then runs [__post_init__]. *)
Definition new (ticker company_name : string)
    (transaction_type : TransactionType) (quantity price_per_share : Q)
    (transaction_date : string) (total_cost : Q) (fees : Q)
    (notes : option string) (id : option Z)
    (created_at updated_at : option string) : t :=
  post_init (mk ticker company_name transaction_type quantity
                price_per_share transaction_date total_cost fees notes id
                created_at updated_at).
End Transaction.

Module Position.
Record t : Type := mk {
  ticker : string;
  company_name : string;
  quantity : Q;
  average_buy_price : Q;
  total_invested : Q;
  current_price : Q;
  current_value : Q;
  unrealized_pnl : Q;
  unrealized_pnl_percent : Q
}.

(** [update_current_values] assigns four fields of [self] in turn; the
    object after the call is returned. *)
Definition update_current_values (self : t) (current_price : Q)
  : Py.result t :=
  let current_value := quantity self * current_price in
  let unrealized_pnl := current_value - total_invested self in
  unrealized_pnl_percent <-
    (if Py.gt (total_invested self) 0 then
       r <- Py.truediv unrealized_pnl (total_invested self) ;;
       Ok (r * 100)
     else Ok 0) ;;
  Ok (mk (ticker self) (company_name self) (quantity self)
         (average_buy_price self) (total_invested self)
         current_price current_value unrealized_pnl
         unrealized_pnl_percent).
End Position.

End models.

Import models.

(* ================================================================== *)
(** * calculator.py: FinancialCalculator *)
(* ================================================================== *)

Module calculator.

Module RealizedGainLoss.
Record t : Type := mk {
  ticker : string;
  quantity_sold : Q;
  sell_price : Q;
  average_buy_price : Q;
  total_gain_loss : Q;
  gain_loss_percent : Q;
  sell_date : string;
  buy_transactions_used : list (option Z)
}.
End RealizedGainLoss.

(** The three accumulators of the FIFO loop of
    [calculate_realized_pv_fifo]. *)
Record fifo_acc : Type := mk_fifo_acc {
  total_buy_cost : Q;
  quantity_sold : Q;
  transactions_used : list (option Z)
}.

(** [for buy_tx in buy_transactions: ...], with its [break]. *)
Fixpoint fifo_loop (quantity_to_sell : Q) (buy_transactions : list Transaction.t)
    (acc : fifo_acc) : Py.result fifo_acc :=
  match buy_transactions with
  | [] => Ok acc
  | buy_tx :: rest =>
      if Py.ge (quantity_sold acc) quantity_to_sell then Ok acc
      else
        let quantity_from_this_buy :=
          Py.min (Transaction.quantity buy_tx)
                 (quantity_to_sell - quantity_sold acc) in
        cost_per_share <-
          Py.truediv (Transaction.total_cost buy_tx)
                     (Transaction.quantity buy_tx) ;;
        fifo_loop quantity_to_sell rest
          (mk_fifo_acc
             (total_buy_cost acc + quantity_from_this_buy * cost_per_share)
             (quantity_sold acc + quantity_from_this_buy)
             (transactions_used acc ++ [Transaction.id buy_tx]))
  end.

Definition calculate_realized_pv_fifo
    (buy_transactions : list Transaction.t)
    (sell_transaction : Transaction.t) : Py.result RealizedGainLoss.t :=
  let quantity_to_sell := Transaction.quantity sell_transaction in
  acc <- fifo_loop quantity_to_sell buy_transactions (mk_fifo_acc 0 0 []) ;;
  average_buy_price <-
    (if Py.gt (quantity_sold acc) 0
     then Py.truediv (total_buy_cost acc) (quantity_sold acc)
     else Ok 0) ;;
  let sell_amount := Transaction.total_cost sell_transaction in
  let total_pv := sell_amount - total_buy_cost acc in
  pv_percent <-
    (if Py.gt (total_buy_cost acc) 0
     then r <- Py.truediv total_pv (total_buy_cost acc) ;; Ok (r * 100)
     else Ok 0) ;;
  Ok (RealizedGainLoss.mk
        (Transaction.ticker sell_transaction)
        (quantity_sold acc)
        (Transaction.price_per_share sell_transaction)
        average_buy_price
        total_pv
        pv_percent
        (Transaction.transaction_date sell_transaction)
        (transactions_used acc)).

(** The loop of [_update_remaining_buys]: [remaining] is the list being
    appended to, [quantity_to_remove] the running counter. *)
Fixpoint update_loop (buy_transactions : list Transaction.t)
    (quantity_to_remove : Q) (remaining : list Transaction.t)
    : Py.result (list Transaction.t) :=
  match buy_transactions with
  | [] => Ok remaining
  | buy_tx :: rest =>
      if Py.le quantity_to_remove 0 then
        update_loop rest quantity_to_remove (remaining ++ [buy_tx])
      else if Py.gt (Transaction.quantity buy_tx) quantity_to_remove then
        let left := Transaction.quantity buy_tx - quantity_to_remove in
        cost <- Py.truediv (Transaction.total_cost buy_tx * left)
                           (Transaction.quantity buy_tx) ;;
        fee <- Py.truediv (Transaction.fees buy_tx * left)
                          (Transaction.quantity buy_tx) ;;
        let updated_tx :=
          Transaction.new
            (Transaction.ticker buy_tx)
            (Transaction.company_name buy_tx)
            (Transaction.transaction_type buy_tx)
            left
            (Transaction.price_per_share buy_tx)
            (Transaction.transaction_date buy_tx)
            cost
            fee
            (Transaction.notes buy_tx)
            (Transaction.id buy_tx)
            None None in
        update_loop rest 0 (remaining ++ [updated_tx])
      else
        update_loop rest (quantity_to_remove - Transaction.quantity buy_tx)
                    remaining
  end.

Definition _update_remaining_buys (buy_transactions : list Transaction.t)
    (quantity_sold : Q) : Py.result (list Transaction.t) :=
  update_loop buy_transactions quantity_sold [].

(** The loop of [calculate_all_realized_pv] over the sorted transactions;
    its state is the pair ([realized_pvs], [remaining_buys]). *)
Fixpoint replay_loop (sorted_tx : list Transaction.t)
    (realized_pvs : list RealizedGainLoss.t)
    (remaining_buys : list Transaction.t)
    : Py.result (list RealizedGainLoss.t * list Transaction.t) :=
  match sorted_tx with
  | [] => Ok (realized_pvs, remaining_buys)
  | tx :: rest =>
      match Transaction.transaction_type tx with
      | ACHAT => replay_loop rest realized_pvs (remaining_buys ++ [tx])
      | VENTE =>
          pv <- calculate_realized_pv_fifo remaining_buys tx ;;
          remaining_buys' <-
            _update_remaining_buys remaining_buys (Transaction.quantity tx) ;;
          replay_loop rest (realized_pvs ++ [pv]) remaining_buys'
      end
  end.

(** The state of [calculate_all_realized_pv] when it reaches its
    [return]: the realized gains and the lots still open. *)
Definition replay (transactions : list Transaction.t)
    : Py.result (list RealizedGainLoss.t * list Transaction.t) :=
  let sorted_tx := Py.sorted Transaction.transaction_date transactions in
  replay_loop sorted_tx [] [].

Definition calculate_all_realized_pv (transactions : list Transaction.t)
    : Py.result (list RealizedGainLoss.t) :=
  st <- replay transactions ;;
  Ok (fst st).

(** [calculate_average_buy_price]: the same replay without the gains. *)
Fixpoint average_loop (sorted_transactions : list Transaction.t)
    (remaining_buys : list Transaction.t) : Py.result (list Transaction.t) :=
  match sorted_transactions with
  | [] => Ok remaining_buys
  | tx :: rest =>
      match Transaction.transaction_type tx with
      | ACHAT => average_loop rest (remaining_buys ++ [tx])
      | VENTE =>
          remaining_buys' <-
            _update_remaining_buys remaining_buys (Transaction.quantity tx) ;;
          average_loop rest remaining_buys'
      end
  end.

Definition calculate_average_buy_price (transactions : list Transaction.t)
    : Py.result Q :=
  let sorted_transactions :=
    Py.sorted Transaction.transaction_date transactions in
  remaining_buys <- average_loop sorted_transactions [] ;;
  let total_cost := Py.sum (map Transaction.total_cost remaining_buys) in
  let total_quantity := Py.sum (map Transaction.quantity remaining_buys) in
  if Py.le total_quantity 0 then Ok 0
  else Py.truediv total_cost total_quantity.

Definition calculate_unrealized_pnl (position : Position.t)
    (current_price : Q) : Py.result (Q * Q) :=
  let current_value := Position.quantity position * current_price in
  let pnl_amount := current_value - Position.total_invested position in
  pnl_percent <-
    (if Py.gt (Position.total_invested position) 0 then
       r <- Py.truediv pnl_amount (Position.total_invested position) ;;
       Ok (r * 100)
     else Ok 0) ;;
  Ok (pnl_amount, pnl_percent).

(** The dictionary of [calculate_portfolio_performance] holds numbers only;
    its entries are built in the order of the literal, so the guarded
    quotient of ['unrealized_gain_percent'] is computed after
    [performance_percent]. *)
Definition calculate_portfolio_performance
    (total_invested current_value total_dividends_received : Q)
    : Py.result (list (string * Q)) :=
  let unrealized_gain := current_value - total_invested in
  let total_gain := unrealized_gain + total_dividends_received in
  performance_percent <-
    (if Py.gt total_invested 0 then
       r <- Py.truediv total_gain total_invested ;; Ok (r * 100)
     else Ok 0) ;;
  unrealized_gain_percent <-
    (if Py.gt total_invested 0 then
       r <- Py.truediv unrealized_gain total_invested ;; Ok (r * 100)
     else Ok 0) ;;
  Ok [ ("total_invested", total_invested);
       ("current_value", current_value);
       ("unrealized_gain", unrealized_gain);
       ("unrealized_gain_percent", unrealized_gain_percent);
       ("total_dividends", total_dividends_received);
       ("total_gain", total_gain);
       ("total_performance_percent", performance_percent) ].

Definition calculate_dividend_yield (annual_dividend_per_share current_price : Q)
    : Py.result Q :=
  if Py.le current_price 0 then Ok 0
  else r <- Py.truediv annual_dividend_per_share current_price ;; Ok (r * 100).

(** [annual_dividends_by_ticker.values()] is the list of the second
    components. *)
Definition calculate_portfolio_dividend_yield (positions : list Position.t)
    (annual_dividends_by_ticker : list (string * Q)) : Py.result Q :=
  let total_value := Py.sum (map Position.current_value positions) in
  let total_annual_dividends := Py.sum (map snd annual_dividends_by_ticker) in
  if Py.le total_value 0 then Ok 0
  else r <- Py.truediv total_annual_dividends total_value ;; Ok (r * 100).

Definition calculate_position_weight (position : Position.t)
    (total_portfolio_value : Q) : Py.result Q :=
  if Py.le total_portfolio_value 0 then Ok 0
  else
    r <- Py.truediv (Position.current_value position) total_portfolio_value ;;
    Ok (r * 100).

(** The message of a refused sale is an f-string that prints the two
    quantities; [str] is the text Python gives for a number. *)
Section Validate.
Variable str : Q -> string.

Definition validate_sell_transaction (current_quantity quantity_to_sell : Q)
    : bool * string :=
  if Py.le quantity_to_sell 0 then
    (false, "La quantité à vendre doit être positive")
  else if Py.gt quantity_to_sell current_quantity then
    (false,
     "Quantité insuffisante. Vous détenez " ++ str current_quantity
     ++ " actions, vous voulez en vendre " ++ str quantity_to_sell)%string
  else (true, "").
End Validate.

Definition calculate_fees_total (num_transactions : Z) : Q :=
  inject_Z num_transactions * config.TRANSACTION_FEE.

Definition calculate_roi (initial_investment final_value : Q) : Py.result Q :=
  if Py.le initial_investment 0 then Ok 0
  else
    r <- Py.truediv (final_value - initial_investment) initial_investment ;;
    Ok (r * 100).

Definition calculate_break_even_price (buy_price buy_fees sell_fees quantity : Q)
    : Py.result Q :=
  if Py.le quantity 0 then Ok 0
  else
    let total_cost := (buy_price * quantity) + buy_fees + sell_fees in
    Py.truediv total_cost quantity.

End calculator.

Import calculator.

(* ================================================================== *)
(** * db_manager.py: the lot ledger of DatabaseManager *)
(* ================================================================== *)

Module db_manager.

(** A lot is the dictionary [{'quantity': ..., 'cost': ...}]. *)
Module Lot.
Record t : Type := mk { quantity : Q; cost : Q }.
End Lot.

(** [while quantity_to_sell > 0 and lots: ...] of a VENTE: each turn pops
    the head lot, or shrinks it in place and sets [quantity_to_sell = 0]. *)
Fixpoint sell_loop (quantity_to_sell : Q) (lots : list Lot.t)
    : Py.result (list Lot.t) :=
  match lots with
  | [] => Ok []
  | lot :: rest =>
      if Py.gt quantity_to_sell 0 then
        if Py.le (Lot.quantity lot) (quantity_to_sell + 1e-9) then
          sell_loop (quantity_to_sell - Lot.quantity lot) rest
        else
          proportion <- Py.truediv quantity_to_sell (Lot.quantity lot) ;;
          Ok (Lot.mk (Lot.quantity lot - quantity_to_sell)
                     (Lot.cost lot - Lot.cost lot * proportion) :: rest)
      else Ok (lot :: rest)
  end.

Fixpoint position_loop (transactions : list Transaction.t)
    (lots : list Lot.t) : Py.result (list Lot.t) :=
  match transactions with
  | [] => Ok lots
  | tx :: rest =>
      match Transaction.transaction_type tx with
      | ACHAT =>
          position_loop rest
            (lots ++ [Lot.mk (Transaction.quantity tx)
                             (Transaction.total_cost tx)])
      | VENTE =>
          lots' <- sell_loop (Transaction.quantity tx) lots ;;
          position_loop rest lots'
      end
  end.

(** The lots at the end of the replay, before they are summed. *)
Definition remaining_lots (transactions : list Transaction.t)
    : Py.result (list Lot.t) :=
  position_loop transactions [].

Definition _calculate_position_cost (transactions : list Transaction.t)
    : Py.result (Q * Q) :=
  lots <- remaining_lots transactions ;;
  let total_quantity := Py.sum (map Lot.quantity lots) in
  let total_cost := Py.sum (map Lot.cost lots) in
  Ok (total_quantity, total_cost).

(** [get_current_positions] reads the database twice: the rows of the
    query [GET_CURRENT_POSITIONS], of which it uses the columns [ticker]
    and [company_name], and, for each row, the transactions of the ticker.
    Both answers are what the database holds when the method runs. *)
Section Database.
Variable rows : list (string * string).
Variable get_transactions_by_ticker : string -> list Transaction.t.

(** [for row in rows: ...], appending to [positions]. *)
Fixpoint positions_loop (rows : list (string * string))
    (positions : list Position.t) : Py.result (list Position.t) :=
  match rows with
  | [] => Ok positions
  | (ticker, company_name) :: rest =>
      let transactions := get_transactions_by_ticker ticker in
      position_cost <- _calculate_position_cost transactions ;;
      let quantity := fst position_cost in
      let total_cost := snd position_cost in
      if Py.le quantity 0 then positions_loop rest positions
      else
        avg_price <-
          (if Py.gt quantity 0 then Py.truediv total_cost quantity
           else Ok 0) ;;
        positions_loop rest
          (positions
           ++ [Position.mk ticker company_name quantity avg_price total_cost
                           0 0 0 0])
  end.

Definition get_current_positions : Py.result (list Position.t) :=
  positions_loop rows [].

Definition get_total_invested : Py.result Q :=
  positions <- get_current_positions ;;
  Ok (Py.sum (map Position.total_invested positions)).

Definition get_unique_tickers : Py.result (list string) :=
  positions <- get_current_positions ;;
  Ok (map Position.ticker positions).
End Database.

(** [get_realized_gains_total] does not read the database. *)
Definition get_realized_gains_total : Q := 0.0.

End db_manager.

(* ================================================================== *)
(** * tax_calculator.py: TaxCalculator *)
(* ================================================================== *)

Module tax_calculator.

Import config.

Module TaxResult.
Record t : Type := mk {
  gross_amount : Q;
  tax_amount : Q;
  net_amount : Q;
  breakdown : list (string * Q)
}.
End TaxResult.

(** The dictionaries returned by the comparison and summary functions mix
    numbers, strings and nested dictionaries. *)
#[warnings="-register-all"]
Inductive value : Type :=
| Num (q : Q)
| Str (s : string)
| Dict (d : list (string * value)).

(** [v[k]] on such a value. *)
Definition item (v : value) (k : string) : Py.result value :=
  match v with
  | Dict d => Py.getitem d k
  | _ => Raise Py.TypeError
  end.

Definition calculate_pfu_dividend (gross_dividend : Q) : TaxResult.t :=
  let income_tax := gross_dividend * INCOME_TAX_RATE in
  let social_tax := gross_dividend * SOCIAL_TAX_RATE in
  let total_tax := income_tax + social_tax in
  let net_amount := gross_dividend - total_tax in
  let csg_deductible := gross_dividend * CSG_DEDUCTIBLE_RATE in
  TaxResult.mk gross_dividend total_tax net_amount
    [ ("impot_revenu", income_tax);
      ("prelevements_sociaux", social_tax);
      ("csg_deductible", csg_deductible);
      ("taux_effectif", FLAT_TAX_RATE) ].

Definition calculate_pfu_capital_gain (capital_gain : Q) : TaxResult.t :=
  calculate_pfu_dividend capital_gain.

(** The divisor of [marginal_tax_rate / 100] is the literal 100; the one of
    [total_tax / gross_dividend] is an argument. *)
Definition calculate_progressive_tax_dividend
    (gross_dividend marginal_tax_rate : Q) : Py.result TaxResult.t :=
  let taxable_amount := gross_dividend * (1 - DIVIDEND_ALLOWANCE_RATE) in
  let income_tax := taxable_amount * (marginal_tax_rate / 100) in
  let social_tax := gross_dividend * SOCIAL_TAX_RATE in
  let total_tax := income_tax + social_tax in
  let net_amount := gross_dividend - total_tax in
  let csg_deductible := gross_dividend * CSG_DEDUCTIBLE_RATE in
  ratio <- Py.truediv total_tax gross_dividend ;;
  Ok (TaxResult.mk gross_dividend total_tax net_amount
        [ ("abattement_40pct", gross_dividend * DIVIDEND_ALLOWANCE_RATE);
          ("base_imposable", taxable_amount);
          ("impot_revenu", income_tax);
          ("prelevements_sociaux", social_tax);
          ("csg_deductible", csg_deductible);
          ("taux_marginal", marginal_tax_rate);
          ("taux_effectif", ratio * 100) ]).

Definition compare_pfu_vs_progressive (gross_dividend marginal_tax_rate : Q)
    : Py.result value :=
  let pfu_result := calculate_pfu_dividend gross_dividend in
  progressive_result <-
    calculate_progressive_tax_dividend gross_dividend marginal_tax_rate ;;
  let diff :=
    TaxResult.tax_amount pfu_result
    - TaxResult.tax_amount progressive_result in
  let better_option :=
    if Py.gt diff 0 then "PFU" else "Barème progressif" in
  rate <- Py.getitem (TaxResult.breakdown progressive_result) "taux_effectif" ;;
  Ok (Dict
        [ ("pfu", Dict [ ("net", Num (TaxResult.net_amount pfu_result));
                         ("tax", Num (TaxResult.tax_amount pfu_result));
                         ("rate", Num 30.0) ]);
          ("progressive",
           Dict [ ("net", Num (TaxResult.net_amount progressive_result));
                  ("tax", Num (TaxResult.tax_amount progressive_result));
                  ("rate", Num rate) ]);
          ("difference", Num (Py.abs diff));
          ("best_option", Str better_option);
          ("savings", Num (if negb (Py.eq diff 0) then Py.abs diff else 0)) ]).

Definition calculate_annual_tax_summary
    (total_dividends total_capital_gains total_capital_losses : Q)
    (marginal_tax_rate : option Q) : Py.result value :=
  let net_capital_gains :=
    Py.max 0 (total_capital_gains - total_capital_losses) in
  let dividend_tax := calculate_pfu_dividend total_dividends in
  let capital_gain_tax := calculate_pfu_capital_gain net_capital_gains in
  let total_tax_pfu :=
    TaxResult.tax_amount dividend_tax + TaxResult.tax_amount capital_gain_tax in
  let total_net_pfu :=
    TaxResult.net_amount dividend_tax + TaxResult.net_amount capital_gain_tax in
  csg_div <- Py.getitem (TaxResult.breakdown dividend_tax) "csg_deductible" ;;
  csg_pv <- Py.getitem (TaxResult.breakdown capital_gain_tax) "csg_deductible" ;;
  let summary :=
    [ ("revenus",
       Dict [ ("dividendes_bruts", Num total_dividends);
              ("plus_values", Num total_capital_gains);
              ("moins_values", Num total_capital_losses);
              ("plus_values_nettes", Num net_capital_gains);
              ("total_brut", Num (total_dividends + net_capital_gains)) ]);
      ("pfu",
       Dict [ ("impot_dividendes", Num (TaxResult.tax_amount dividend_tax));
              ("impot_pv", Num (TaxResult.tax_amount capital_gain_tax));
              ("total_impot", Num total_tax_pfu);
              ("total_net", Num total_net_pfu);
              ("csg_deductible", Num (csg_div + csg_pv)) ]) ] in
  match marginal_tax_rate with
  | Some marginal_tax_rate =>
      progressive_div <-
        calculate_progressive_tax_dividend total_dividends marginal_tax_rate ;;
      let progressive_pv := calculate_pfu_capital_gain net_capital_gains in
      let total_tax_progressive :=
        TaxResult.tax_amount progressive_div
        + TaxResult.tax_amount progressive_pv in
      let summary :=
        Py.setitem summary "bareme_progressif"
          (Dict [ ("impot_dividendes",
                   Num (TaxResult.tax_amount progressive_div));
                  ("impot_pv", Num (TaxResult.tax_amount progressive_pv));
                  ("total_impot", Num total_tax_progressive);
                  ("total_net",
                   Num ((total_dividends + net_capital_gains)
                        - total_tax_progressive));
                  ("tmi", Num marginal_tax_rate) ]) in
      let summary :=
        Py.setitem summary "comparaison"
          (Dict [ ("difference", Num (total_tax_pfu - total_tax_progressive));
                  ("meilleure_option",
                   Str (if Py.lt total_tax_pfu total_tax_progressive
                        then "PFU" else "Barème"));
                  ("economie",
                   Num (Py.abs (total_tax_pfu - total_tax_progressive))) ]) in
      Ok (Dict summary)
  | None => Ok (Dict summary)
  end.

(** An upper bound of a bracket: a number or [float('inf')]. *)
Inductive bound : Type :=
| fin (q : Q)
| inf.

Definition le_bound (x : Q) (b : bound) : bool :=
  match b with
  | fin q => Py.le x q
  | inf => true
  end.

Definition brackets : list (Q * bound * Z * string) :=
  [ (0, fin 11294, 0%Z, "0%");
    (11295, fin 28797, 11%Z, "11%");
    (28798, fin 82341, 30%Z, "30%");
    (82342, fin 177106, 41%Z, "41%");
    (177107, inf, 45%Z, "45%") ].

(** [for min_income, max_income, rate, name in brackets: if ...: return]. *)
Fixpoint first_bracket (bs : list (Q * bound * Z * string))
    (income_per_part : Q) : option (Z * string) :=
  match bs with
  | [] => None
  | (min_income, max_income, rate, name) :: rest =>
      if Py.le min_income income_per_part && le_bound income_per_part max_income
      then Some (rate, name)
      else first_bracket rest income_per_part
  end.

Definition calculate_tax_bracket (annual_income family_quotient : Q)
    : Py.result (Z * string) :=
  income_per_part <- Py.truediv annual_income family_quotient ;;
  match first_bracket brackets income_per_part with
  | Some r => Ok r
  | None => Ok (45%Z, "45%")
  end.

(** The bracket rate is the integer of the table; it is passed on as the
    marginal rate, the losses being the literal 0. *)
Definition estimate_total_tax
    (annual_income dividends capital_gains family_quotient : Q)
    : Py.result value :=
  bracket <- calculate_tax_bracket annual_income family_quotient ;;
  let tmi := fst bracket in
  let bracket_name := snd bracket in
  summary <-
    calculate_annual_tax_summary dividends capital_gains 0
                                 (Some (inject_Z tmi)) ;;
  Ok (Dict [ ("revenus_annuels", Num annual_income);
             ("tmi", Num (inject_Z tmi));
             ("tranche", Str bracket_name);
             ("parts", Num family_quotient);
             ("fiscal_summary", summary) ]).

Definition calculate_ifu_data
    (dividends_fr dividends_foreign capital_gains capital_losses : Q)
    : Py.result value :=
  let div_fr_tax := calculate_pfu_dividend dividends_fr in
  let div_foreign_tax := calculate_pfu_dividend dividends_foreign in
  let net_gains := Py.max 0 (capital_gains - capital_losses) in
  let pv_tax := calculate_pfu_capital_gain net_gains in
  csg_fr <- Py.getitem (TaxResult.breakdown div_fr_tax) "csg_deductible" ;;
  csg_foreign <-
    Py.getitem (TaxResult.breakdown div_foreign_tax) "csg_deductible" ;;
  csg_pv <- Py.getitem (TaxResult.breakdown pv_tax) "csg_deductible" ;;
  case_6DE <- Py.getitem (TaxResult.breakdown div_fr_tax) "csg_deductible" ;;
  Ok (Dict
        [ ("case_2DC", Num dividends_fr);
          ("case_2AB", Num dividends_foreign);
          ("case_2CG", Num capital_gains);
          ("case_2BH", Num net_gains);
          ("prelevement_forfaitaire",
           Dict [ ("dividendes_fr", Num (TaxResult.tax_amount div_fr_tax));
                  ("dividendes_etranger",
                   Num (TaxResult.tax_amount div_foreign_tax));
                  ("plus_values", Num (TaxResult.tax_amount pv_tax));
                  ("total",
                   Num (TaxResult.tax_amount div_fr_tax
                        + TaxResult.tax_amount div_foreign_tax
                        + TaxResult.tax_amount pv_tax)) ]);
          ("csg_deductible",
           Dict [ ("montant", Num (csg_fr + csg_foreign + csg_pv));
                  ("case_6DE", Num case_6DE) ]) ]).

End tax_calculator.

Import tax_calculator.

(* ================================================================== *)
(** * portfolio.py: the snapshot of Portfolio *)
(* ================================================================== *)

Module portfolio.

(** An entry of [positions_data]: a dictionary with these nine keys. *)
Module PositionData.
Record t : Type := mk {
  ticker : string;
  company_name : string;
  quantity : Q;
  pru : Q;
  current_price : Q;
  current_value : Q;
  gain_loss : Q;
  gain_loss_percent : Q;
  weight : Q
}.
End PositionData.

Module PortfolioSnapshot.
Record t : Type := mk {
  date : string;
  total_invested : Q;
  current_value : Q;
  total_gain_loss : Q;
  total_gain_loss_percent : Q;
  realized_gains : Q;
  unrealized_gains : Q;
  dividend_income : Q;
  positions_count : nat;
  positions : list PositionData.t
}.
End PortfolioSnapshot.

(** [for p in positions: positions_data.append({...})]; [p.pru],
    [p.unrealized_gain_loss] and [p.unrealized_gain_loss_percent] are the
    aliases of [average_buy_price], [unrealized_pnl] and
    [unrealized_pnl_percent]. *)
Fixpoint positions_data_loop (positions : list Position.t) (current_value : Q)
    (positions_data : list PositionData.t)
    : Py.result (list PositionData.t) :=
  match positions with
  | [] => Ok positions_data
  | p :: rest =>
      weight <-
        (if Py.gt current_value 0 then
           r <- Py.truediv (Position.current_value p) current_value ;;
           Ok (r * 100)
         else Ok 0) ;;
      positions_data_loop rest current_value
        (positions_data
         ++ [PositionData.mk (Position.ticker p) (Position.company_name p)
               (Position.quantity p) (Position.average_buy_price p)
               (Position.current_price p) (Position.current_value p)
               (Position.unrealized_pnl p) (Position.unrealized_pnl_percent p)
               weight])
  end.

(** [get_portfolio_snapshot], from what its three reads return: the
    positions of [self.get_current_positions()], the amount of
    [self.db.get_total_dividends_received()] and the text of
    [datetime.now().strftime(...)]. *)
Definition get_portfolio_snapshot (positions : list Position.t)
    (dividend_income : Q) (now : string)
    : Py.result PortfolioSnapshot.t :=
  let total_invested := Py.sum (map Position.total_invested positions) in
  let current_value := Py.sum (map Position.current_value positions) in
  let unrealized_gains := Py.sum (map Position.unrealized_pnl positions) in
  let realized_gains := db_manager.get_realized_gains_total in
  let total_gain_loss := realized_gains + unrealized_gains in
  total_gain_loss_percent <-
    (if Py.gt total_invested 0 then
       r <- Py.truediv total_gain_loss total_invested ;; Ok (r * 100)
     else Ok 0) ;;
  positions_data <- positions_data_loop positions current_value [] ;;
  Ok (PortfolioSnapshot.mk now total_invested current_value total_gain_loss
        total_gain_loss_percent realized_gains unrealized_gains
        dividend_income (List.length positions) positions_data).

End portfolio.

(* ================================================================== *)
(** * ui/transactions_tab.py: the gain shown on a sale row *)
(* ================================================================== *)

Module transactions_tab.

(** What [_calculate_realized_pnl] can raise: an exception of the
    functions it calls, or its own [ValueError]. *)
Inductive raised : Type :=
| Builtin (e : Py.exn)
| ValueError (message : string).

(** The sort key [(t.transaction_date, t.id or 0)]. *)
Definition sort_key (t : Transaction.t) : string * Z :=
  (Transaction.transaction_date t,
   match Transaction.id t with
   | Some i => i
   | None => 0%Z
   end).

(** [a <= b] on such tuples: by date, then by id. *)
Definition tuple_le (a b : string * Z) : bool :=
  match String.compare (fst a) (fst b) with
  | Lt => true
  | Eq => Z.leb (snd a) (snd b)
  | Gt => false
  end.

(** [sorted(transactions, key=...)] with this key: the stable sort. *)
Fixpoint insert (x : Transaction.t) (xs : list Transaction.t)
    : list Transaction.t :=
  match xs with
  | [] => [x]
  | y :: ys =>
      if tuple_le (sort_key x) (sort_key y) then x :: y :: ys
      else y :: insert x ys
  end.

Definition sorted (xs : list Transaction.t) : list Transaction.t :=
  fold_right insert [] xs.

(** [tx.id == sale_tx.id], on ids that may be [None]. *)
Definition id_eq (a b : option Z) : bool :=
  match a, b with
  | Some i, Some j => Z.eqb i j
  | None, None => true
  | _, _ => false
  end.

(** [for tx in transactions: ...] with its [return]; falling out of the
    loop reaches the [raise]. *)
Fixpoint realized_pnl_loop (transactions : list Transaction.t)
    (sale_tx : Transaction.t) (remaining_buys : list Transaction.t)
    : (Q * Q) + raised :=
  match transactions with
  | [] =>
      inr (ValueError "Transaction de vente introuvable pour le calcul du P&L")
  | tx :: rest =>
      match Transaction.transaction_type tx with
      | ACHAT => realized_pnl_loop rest sale_tx (remaining_buys ++ [tx])
      | VENTE =>
          if id_eq (Transaction.id tx) (Transaction.id sale_tx) then
            match calculate_realized_pv_fifo remaining_buys sale_tx with
            | Ok result =>
                inl (RealizedGainLoss.total_gain_loss result,
                     RealizedGainLoss.gain_loss_percent result)
            | Raise e => inr (Builtin e)
            end
          else
            match _update_remaining_buys remaining_buys
                                         (Transaction.quantity tx) with
            | Ok remaining_buys' =>
                realized_pnl_loop rest sale_tx remaining_buys'
            | Raise e => inr (Builtin e)
            end
      end
  end.

(** [self.portfolio.get_transactions_by_ticker] is the read of the
    database. *)
Definition _calculate_realized_pnl
    (get_transactions_by_ticker : string -> list Transaction.t)
    (sale_tx : Transaction.t) : (Q * Q) + raised :=
  let transactions :=
    get_transactions_by_ticker (Transaction.ticker sale_tx) in
  let transactions := sorted transactions in
  realized_pnl_loop transactions sale_tx [].

End transactions_tab.

(* ================================================================== *)
(** * The same computations on binary64 *)
(* ================================================================== *)

(** Python runs the code above on IEEE binary64.  The functions whose
    values are evaluated at given inputs in the statements are written here
    a second time on [float], operation for operation, so that those
    evaluations can be replayed with the rounding Python performs.  A lot is
    reduced to the pair of its [quantity] and [total_cost], a [TaxResult]
    to the five amounts [(taxable, income_tax, social_tax, total_tax,
    net_amount)], and the comparison to [(diff, best_option)]. *)
Module binary64.

#[local] Set Warnings "-inexact-float".
#[local] Open Scope float_scope.

Definition truediv (a b : float) : Py.result float :=
  if PrimFloat.eqb b 0 then Raise ZeroDivisionError else Ok (a / b).

Definition min (a b : float) : float := if PrimFloat.ltb b a then b else a.

Fixpoint fifo_loop (quantity_to_sell : float)
    (buy_transactions : list (float * float))
    (total_buy_cost quantity_sold : float) : Py.result (float * float) :=
  match buy_transactions with
  | [] => Ok (total_buy_cost, quantity_sold)
  | (quantity, total_cost) :: rest =>
      if PrimFloat.leb quantity_to_sell quantity_sold
      then Ok (total_buy_cost, quantity_sold)
      else
        let quantity_from_this_buy :=
          min quantity (quantity_to_sell - quantity_sold) in
        cost_per_share <- truediv total_cost quantity ;;
        fifo_loop quantity_to_sell rest
          (total_buy_cost + quantity_from_this_buy * cost_per_share)
          (quantity_sold + quantity_from_this_buy)
  end.

(** [(quantity_sold, average_buy_price, total_gain_loss,
    gain_loss_percent)] of [calculate_realized_pv_fifo]. *)
Definition calculate_realized_pv_fifo (buy_transactions : list (float * float))
    (sell_quantity sell_total_cost : float)
    : Py.result (float * float * float * float) :=
  acc <- fifo_loop sell_quantity buy_transactions 0 0 ;;
  let total_buy_cost := fst acc in
  let quantity_sold := snd acc in
  average_buy_price <-
    (if PrimFloat.ltb 0 quantity_sold
     then truediv total_buy_cost quantity_sold
     else Ok 0) ;;
  let total_pv := sell_total_cost - total_buy_cost in
  pv_percent <-
    (if PrimFloat.ltb 0 total_buy_cost
     then r <- truediv total_pv total_buy_cost ;; Ok (r * 100)
     else Ok 0) ;;
  Ok (quantity_sold, average_buy_price, total_pv, pv_percent).

(** [tax_amount] of [calculate_pfu_dividend]. *)
Definition pfu_tax_amount (gross_dividend : float) : float :=
  let income_tax := gross_dividend * 0.128 in
  let social_tax := gross_dividend * 0.172 in
  income_tax + social_tax.

Definition calculate_progressive_tax_dividend
    (gross_dividend marginal_tax_rate : float)
    : Py.result (float * float * float * float * float) :=
  let taxable_amount := gross_dividend * (1 - 0.40) in
  let income_tax := taxable_amount * (marginal_tax_rate / 100) in
  let social_tax := gross_dividend * 0.172 in
  let total_tax := income_tax + social_tax in
  let net_amount := gross_dividend - total_tax in
  ratio <- truediv total_tax gross_dividend ;;
  Ok (taxable_amount, income_tax, social_tax, total_tax, net_amount).

Definition compare_pfu_vs_progressive (gross_dividend marginal_tax_rate : float)
    : Py.result (float * string) :=
  progressive_result <-
    calculate_progressive_tax_dividend gross_dividend marginal_tax_rate ;;
  let '(_, _, _, progressive_tax_amount, _) := progressive_result in
  let diff := pfu_tax_amount gross_dividend - progressive_tax_amount in
  let better_option :=
    if PrimFloat.ltb 0 diff then "PFU" else "Barème progressif" in
  Ok (diff, better_option).

Definition brackets : list (float * float * Z * string) :=
  [ (0, 11294, 0%Z, "0%");
    (11295, 28797, 11%Z, "11%");
    (28798, 82341, 30%Z, "30%");
    (82342, 177106, 41%Z, "41%");
    (177107, infinity, 45%Z, "45%") ].

Fixpoint first_bracket (bs : list (float * float * Z * string))
    (income_per_part : float) : option (Z * string) :=
  match bs with
  | [] => None
  | (min_income, max_income, rate, name) :: rest =>
      if PrimFloat.leb min_income income_per_part
         && PrimFloat.leb income_per_part max_income
      then Some (rate, name)
      else first_bracket rest income_per_part
  end.

Definition calculate_tax_bracket (annual_income family_quotient : float)
    : Py.result (Z * string) :=
  income_per_part <- truediv annual_income family_quotient ;;
  match first_bracket brackets income_per_part with
  | Some r => Ok r
  | None => Ok (45%Z, "45%")
  end.

End binary64.

(* ================================================================== *)
(** * The ledger of the calculator on binary64 *)
(* ================================================================== *)

(** [calculate_realized_pv_fifo], [_update_remaining_buys] and
    [calculate_all_realized_pv] written a second time on [float],
    operation for operation, on transactions that carry the fields these
    functions read.  The statements on quantities, lots and costs are
    replayed here with the rounding Python performs. *)
Module binary64_ledger.

#[local] Set Warnings "-inexact-float".
#[local] Open Scope float_scope.

Module Transaction.
Record t : Type := mk {
  id : option Z;
  transaction_type : TransactionType;
  transaction_date : string;
  quantity : float;
  price_per_share : float;
  total_cost : float;
  fees : float
}.

Definition derived_cost (tx : t) : float :=
  match transaction_type tx with
  | ACHAT => (quantity tx * price_per_share tx) + fees tx
  | VENTE => (quantity tx * price_per_share tx) - fees tx
  end.

Definition post_init (tx : t) : t :=
  if PrimFloat.eqb (total_cost tx) 0 then
    mk (id tx) (transaction_type tx) (transaction_date tx) (quantity tx)
       (price_per_share tx) (derived_cost tx) (fees tx)
  else tx.

Definition new (id : option Z) (transaction_type : TransactionType)
    (transaction_date : string)
    (quantity price_per_share total_cost fees : float) : t :=
  post_init (mk id transaction_type transaction_date quantity
                price_per_share total_cost fees).
End Transaction.

Module RealizedGainLoss.
Record t : Type := mk {
  quantity_sold : float;
  average_buy_price : float;
  total_gain_loss : float;
  gain_loss_percent : float;
  buy_transactions_used : list (option Z)
}.
End RealizedGainLoss.

(** [sum(xs)]: left fold from [0]. *)
Definition sum (xs : list float) : float := fold_left PrimFloat.add xs 0.

Record fifo_acc : Type := mk_fifo_acc {
  total_buy_cost : float;
  quantity_sold : float;
  transactions_used : list (option Z)
}.

Fixpoint fifo_loop (quantity_to_sell : float)
    (buy_transactions : list Transaction.t) (acc : fifo_acc)
    : Py.result fifo_acc :=
  match buy_transactions with
  | [] => Ok acc
  | buy_tx :: rest =>
      if PrimFloat.leb quantity_to_sell (quantity_sold acc) then Ok acc
      else
        let quantity_from_this_buy :=
          binary64.min (Transaction.quantity buy_tx)
                       (quantity_to_sell - quantity_sold acc) in
        cost_per_share <-
          binary64.truediv (Transaction.total_cost buy_tx)
                           (Transaction.quantity buy_tx) ;;
        fifo_loop quantity_to_sell rest
          (mk_fifo_acc
             (total_buy_cost acc + quantity_from_this_buy * cost_per_share)
             (quantity_sold acc + quantity_from_this_buy)
             (transactions_used acc ++ [Transaction.id buy_tx]))
  end.

Definition calculate_realized_pv_fifo
    (buy_transactions : list Transaction.t)
    (sell_transaction : Transaction.t) : Py.result RealizedGainLoss.t :=
  let quantity_to_sell := Transaction.quantity sell_transaction in
  acc <- fifo_loop quantity_to_sell buy_transactions (mk_fifo_acc 0 0 []) ;;
  average_buy_price <-
    (if PrimFloat.ltb 0 (quantity_sold acc)
     then binary64.truediv (total_buy_cost acc) (quantity_sold acc)
     else Ok 0) ;;
  let sell_amount := Transaction.total_cost sell_transaction in
  let total_pv := sell_amount - total_buy_cost acc in
  pv_percent <-
    (if PrimFloat.ltb 0 (total_buy_cost acc)
     then r <- binary64.truediv total_pv (total_buy_cost acc) ;; Ok (r * 100)
     else Ok 0) ;;
  Ok (RealizedGainLoss.mk (quantity_sold acc) average_buy_price total_pv
                          pv_percent (transactions_used acc)).

Fixpoint update_loop (buy_transactions : list Transaction.t)
    (quantity_to_remove : float) (remaining : list Transaction.t)
    : Py.result (list Transaction.t) :=
  match buy_transactions with
  | [] => Ok remaining
  | buy_tx :: rest =>
      if PrimFloat.leb quantity_to_remove 0 then
        update_loop rest quantity_to_remove (remaining ++ [buy_tx])
      else if PrimFloat.ltb quantity_to_remove (Transaction.quantity buy_tx)
      then
        let left := Transaction.quantity buy_tx - quantity_to_remove in
        cost <- binary64.truediv (Transaction.total_cost buy_tx * left)
                                 (Transaction.quantity buy_tx) ;;
        fee <- binary64.truediv (Transaction.fees buy_tx * left)
                                (Transaction.quantity buy_tx) ;;
        let updated_tx :=
          Transaction.new
            (Transaction.id buy_tx)
            (Transaction.transaction_type buy_tx)
            (Transaction.transaction_date buy_tx)
            left
            (Transaction.price_per_share buy_tx)
            cost
            fee in
        update_loop rest 0 (remaining ++ [updated_tx])
      else
        update_loop rest (quantity_to_remove - Transaction.quantity buy_tx)
                    remaining
  end.

Definition _update_remaining_buys (buy_transactions : list Transaction.t)
    (quantity_sold : float) : Py.result (list Transaction.t) :=
  update_loop buy_transactions quantity_sold [].

Fixpoint replay_loop (sorted_tx : list Transaction.t)
    (realized_pvs : list RealizedGainLoss.t)
    (remaining_buys : list Transaction.t)
    : Py.result (list RealizedGainLoss.t * list Transaction.t) :=
  match sorted_tx with
  | [] => Ok (realized_pvs, remaining_buys)
  | tx :: rest =>
      match Transaction.transaction_type tx with
      | ACHAT => replay_loop rest realized_pvs (remaining_buys ++ [tx])
      | VENTE =>
          pv <- calculate_realized_pv_fifo remaining_buys tx ;;
          remaining_buys' <-
            _update_remaining_buys remaining_buys (Transaction.quantity tx) ;;
          replay_loop rest (realized_pvs ++ [pv]) remaining_buys'
      end
  end.

Definition replay (transactions : list Transaction.t)
    : Py.result (list RealizedGainLoss.t * list Transaction.t) :=
  let sorted_tx := Py.sorted Transaction.transaction_date transactions in
  replay_loop sorted_tx [] [].

Definition calculate_all_realized_pv (transactions : list Transaction.t)
    : Py.result (list RealizedGainLoss.t) :=
  st <- replay transactions ;;
  Ok (fst st).

(** The decision of [validate_sell_transaction], without its message. *)
Definition validate_sell_transaction (current_quantity quantity_to_sell : float)
    : bool :=
  if PrimFloat.leb quantity_to_sell 0 then false
  else if PrimFloat.ltb current_quantity quantity_to_sell then false
  else true.

(** Quantity held in lots, bought in a history, sold over the gains. *)
Definition held (lots : list Transaction.t) : float :=
  sum (map Transaction.quantity lots).

Definition bought (txs : list Transaction.t) : float :=
  sum (map Transaction.quantity
           (filter (fun tx => is_achat (Transaction.transaction_type tx)) txs)).

Definition sold (pvs : list RealizedGainLoss.t) : float :=
  sum (map RealizedGainLoss.quantity_sold pvs).

(** The [CHECK(quantity > 0)] of the table, on [float]. *)
Definition positive_quantity (tx : Transaction.t) : Prop :=
  PrimFloat.ltb 0 (Transaction.quantity tx) = true.

End binary64_ledger.

(* ================================================================== *)
(** * Fractional lots, on binary64 *)
(* ================================================================== *)

Module binary64_example.

#[local] Set Warnings "-inexact-float".
#[local] Open Scope float_scope.

Definition buy (i : Z) (date : string) (quantity total_cost : float)
    : binary64_ledger.Transaction.t :=
  binary64_ledger.Transaction.new (Some i) ACHAT date quantity 160 total_cost 1.

Definition sale (i : Z) (date : string) (quantity total_cost : float)
    : binary64_ledger.Transaction.t :=
  binary64_ledger.Transaction.new (Some i) VENTE date quantity 180 total_cost 1.

(** Purchases of 0.1, 0.2 and 0.3 share, then a sale of 0.4. *)
Definition F1 := buy 1 "2024-01-01" 0.1 17.
Definition F2 := buy 2 "2024-01-02" 0.2 33.
Definition F3 := buy 3 "2024-01-03" 0.3 49.
Definition FS := sale 4 "2024-02-01" 0.4 71.

(** Purchases of 0.1, 0.7 and 3 shares, the last for 480.6. *)
Definition G1 := buy 1 "2024-01-01" 0.1 17.
Definition G2 := buy 2 "2024-01-02" 0.7 113.
Definition G3 := buy 3 "2024-01-03" 3 480.6.

(** Purchases of 0.2, 0.8 and 5 shares, then a sale of 0.9. *)
Definition K1 := buy 1 "2024-01-01" 0.2 33.
Definition K2 := buy 2 "2024-01-02" 0.8 129.
Definition K3 := buy 3 "2024-01-03" 5 801.
Definition KS := sale 4 "2024-02-01" 0.9 161.

End binary64_example.

(* ================================================================== *)
(** * The worked FIFO example of the test suite *)
(* ================================================================== *)

Module fifo_example.

Definition B1 : Transaction.t :=
  Transaction.new "AI.PA" "Air Liquide" ACHAT 10 150 "2024-01-01" 0 1
                  None (Some 1%Z) None None.

Definition B2 : Transaction.t :=
  Transaction.new "AI.PA" "Air Liquide" ACHAT 5 160 "2024-02-01" 0 1
                  None (Some 2%Z) None None.

Definition S : Transaction.t :=
  Transaction.new "AI.PA" "Air Liquide" VENTE 12 180 "2024-03-01" 0 1
                  None (Some 3%Z) None None.

(** A sale of more than the 15 shares bought. *)
Definition S20 : Transaction.t :=
  Transaction.new "AI.PA" "Air Liquide" VENTE 20 180 "2024-03-01" 0 1
                  None (Some 4%Z) None None.

(** A holding that cost nothing. *)
Definition free_position : Position.t :=
  Position.mk "AI.PA" "Air Liquide" 10 0 0 0 0 0 0.

End fifo_example.

(* ================================================================== *)
(** * Predicates used in the statements *)
(* ================================================================== *)

(** The [CHECK(quantity > 0)] of the [transactions] table. *)
Definition positive_quantity (tx : Transaction.t) : Prop :=
  0 < Transaction.quantity tx.

(** What [__post_init__] leaves true of every constructed transaction: a
    [total_cost] of 0 is the derived cost. *)
Definition initialised (tx : Transaction.t) : Prop :=
  Transaction.total_cost tx == 0 -> Transaction.derived_cost tx == 0.

(** Quantity held in a list of open lots. *)
Definition held (lots : list Transaction.t) : Q :=
  Py.sum (map Transaction.quantity lots).

(** Quantity bought in a transaction list. *)
Definition bought (txs : list Transaction.t) : Q :=
  Py.sum (map Transaction.quantity
              (filter (fun tx => is_achat (Transaction.transaction_type tx)) txs)).

(** Quantity sold in a transaction list. *)
Definition sales (txs : list Transaction.t) : Q :=
  Py.sum (map Transaction.quantity
              (filter (fun tx => negb (is_achat (Transaction.transaction_type tx)))
                      txs)).

(** Along a transaction list taken in processing order, starting with
    [stock] shares, no sale asks for more than what is held: the sales so
    far never exceed the purchases so far. *)
Fixpoint covered (stock : Q) (txs : list Transaction.t) : bool :=
  match txs with
  | [] => true
  | tx :: rest =>
      match Transaction.transaction_type tx with
      | ACHAT => covered (stock + Transaction.quantity tx) rest
      | VENTE =>
          Py.le (Transaction.quantity tx) stock
          && covered (stock - Transaction.quantity tx) rest
      end
  end.

(** Quantity sold over a list of realized gains. *)
Definition sold (pvs : list RealizedGainLoss.t) : Q :=
  Py.sum (map RealizedGainLoss.quantity_sold pvs).

(** The cost of a purchase is not negative: quantity, price and fee of a
    stored purchase are not. *)
Definition nonneg_cost (tx : Transaction.t) : Prop :=
  0 <= Transaction.total_cost tx.


(** An open lot of the calculator: a constructed purchase. *)
Definition open_lot (tx : Transaction.t) : Prop :=
  positive_quantity tx /\ initialised tx /\ nonneg_cost tx.

(** A lot of quantity [q] and cost [c] has become one of quantity [q'] and
    cost [c']: some [taken] shares left it, the cost went down by the same
    proportion [taken / q], so the cost per share is unchanged, and neither
    the quantity nor the cost went up. *)
Definition reduced (q c q' c' : Q) : Prop :=
  exists taken,
    0 <= taken /\ taken < q
    /\ q' == q - taken
    /\ c' == c - c * (taken / q)
    /\ c' / q' == c / q
    /\ q' <= q
    /\ c' <= c.

Definition reduced_tx (i o : Transaction.t) : Prop :=
  reduced (Transaction.quantity i) (Transaction.total_cost i)
          (Transaction.quantity o) (Transaction.total_cost o).

Definition reduced_lot (i o : db_manager.Lot.t) : Prop :=
  reduced (db_manager.Lot.quantity i) (db_manager.Lot.cost i)
          (db_manager.Lot.quantity o) (db_manager.Lot.cost o).

(** Quantity held in the lots of the ledger. *)
Definition lot_held (lots : list db_manager.Lot.t) : Q :=
  Py.sum (map db_manager.Lot.quantity lots).

Definition positive_lot (l : db_manager.Lot.t) : Prop :=
  0 < db_manager.Lot.quantity l.

Definition sound_lot (l : db_manager.Lot.t) : Prop :=
  0 < db_manager.Lot.quantity l /\ 0 <= db_manager.Lot.cost l.

(** [v[k1][k2]] on the nested dictionaries of the tax engine. *)
Definition item2 (v : value) (k1 k2 : string) : Py.result value :=
  d <- item v k1 ;; item d k2.

(* ================================================================== *)
(** * Positions used as examples *)
(* ================================================================== *)

Module portfolio_example.

(** Ten shares bought for 1501 and quoted 160. *)
Definition P1 : Position.t :=
  Position.mk "AI.PA" "Air Liquide" 10 150.1 1501 160 1600 99 (99 / 1501 * 100).

(** Two shares bought for 1401 and quoted 650. *)
Definition P2 : Position.t :=
  Position.mk "MC.PA" "LVMH" 2 700.5 1401 650 1300 (-101) (-101 / 1401 * 100).

End portfolio_example.

(* ================================================================== *)
(** * Quantities used in the statements on accounting and valuation *)
(* ================================================================== *)

(** Cost carried by a list of open lots. *)
Definition cost_of (lots : list Transaction.t) : Q :=
  Py.sum (map Transaction.total_cost lots).

(** Cost of the purchases of a transaction list. *)
Definition purchases_cost (txs : list Transaction.t) : Q :=
  Py.sum (map Transaction.total_cost
              (filter (fun tx => is_achat (Transaction.transaction_type tx)) txs)).

(** Proceeds of the sales of a transaction list: the [total_cost] of a
    sale is what it brought in, net of the fee. *)
Definition proceeds (txs : list Transaction.t) : Q :=
  Py.sum (map Transaction.total_cost
              (filter (fun tx => negb (is_achat (Transaction.transaction_type tx)))
                      txs)).

(** Gains summed over a list of realized gains. *)
Definition realized (pvs : list RealizedGainLoss.t) : Q :=
  Py.sum (map RealizedGainLoss.total_gain_loss pvs).

(** The cost per share of a purchase lies between [lo] and [hi]. *)
Definition priced (lo hi : Q) (tx : Transaction.t) : Prop :=
  lo * Transaction.quantity tx <= Transaction.total_cost tx
  /\ Transaction.total_cost tx <= hi * Transaction.quantity tx.

(** The lot that the ledger of the database opens for a purchase. *)
Definition lot_of (tx : Transaction.t) : db_manager.Lot.t :=
  db_manager.Lot.mk (Transaction.quantity tx) (Transaction.total_cost tx).

(** Cost carried by the lots of the ledger. *)
Definition lot_cost (lots : list db_manager.Lot.t) : Q :=
  Py.sum (map db_manager.Lot.cost lots).

(** What [get_current_positions] of the database stores in a position:
    the quantity and cost that the ledger computes for the ticker, their
    quotient, and no market value yet.  The quotient times the quantity is
    the cost on exact rationals; on binary64 it can be a rounding away. *)
Definition stored_position
    (get_transactions_by_ticker : string -> list Transaction.t)
    (p : Position.t) : Prop :=
  0 < Position.quantity p
  /\ db_manager._calculate_position_cost
       (get_transactions_by_ticker (Position.ticker p))
     = Ok (Position.quantity p, Position.total_invested p)
  /\ Position.average_buy_price p * Position.quantity p
     == Position.total_invested p
  /\ Position.current_price p = 0
  /\ Position.current_value p = 0
  /\ Position.unrealized_pnl p = 0
  /\ Position.unrealized_pnl_percent p = 0
  /\ Position.average_buy_price p
     = Position.total_invested p / Position.quantity p.

(** A position whose gain is its value minus its cost, as
    [update_current_values] leaves it. *)
Definition valued (p : Position.t) : Prop :=
  Position.unrealized_pnl p
  == Position.current_value p - Position.total_invested p.

(** A position valued at a positive price. *)
Definition quoted (p : Position.t) : Prop :=
  0 < Position.current_price p
  /\ Position.current_value p
     == Position.quantity p * Position.current_price p.

(** What an entry of the snapshot holds for its position. *)
Definition entry_of (total_value : Q) (p : Position.t)
    (d : portfolio.PositionData.t) : Prop :=
  portfolio.PositionData.ticker d = Position.ticker p
  /\ portfolio.PositionData.quantity d = Position.quantity p
  /\ portfolio.PositionData.pru d = Position.average_buy_price p
  /\ portfolio.PositionData.current_value d = Position.current_value p
  /\ portfolio.PositionData.gain_loss d = Position.unrealized_pnl p
  /\ calculate_position_weight p total_value
     = Ok (portfolio.PositionData.weight d).

(** Sum of the weights of the entries of a snapshot. *)
Definition weights (ds : list portfolio.PositionData.t) : Q :=
  Py.sum (map portfolio.PositionData.weight ds).

(** The yearly dividend of each holding, by ticker: the dividend per
    share times the quantity held. *)
Definition annual_dividends (per_share : Position.t -> Q)
    (positions : list Position.t) : list (string * Q) :=
  map (fun p => (Position.ticker p, per_share p * Position.quantity p))
      positions.

(** Yields of the positions, each multiplied by the value of its
    position. *)
Definition weighted_yields (positions : list Position.t) (yields : list Q)
    : Q :=
  Py.sum (map (fun py => snd py * Position.current_value (fst py))
              (combine positions yields)).

(** The rates and labels of the bracket table. *)
Definition bracket_labels : list (Z * string) :=
  [ (0%Z, "0%"); (11%Z, "11%"); (30%Z, "30%"); (41%Z, "41%"); (45%Z, "45%") ].

(** No sale of the list has the id of [sale_tx]. *)
Definition other_sale (sale_tx tx : Transaction.t) : Prop :=
  Transaction.transaction_type tx = VENTE ->
  transactions_tab.id_eq (Transaction.id tx) (Transaction.id sale_tx) = false.

(** The order in which [sorted] leaves two elements. *)
Definition key_le {A : Type} (key : A -> string) (x y : A) : Prop :=
  String.leb (key x) (key y) = true.

(* ================================================================== *)
(** * Basic facts about the run time *)
(* ================================================================== *)

Lemma le_spec (a b : Q) : reflect (a <= b) (Py.le a b).
Proof.
  unfold Py.le. destruct (Qle_bool a b) eqn:E; constructor.
  - now apply Qle_bool_iff.
  - intro H. apply Qle_bool_iff in H. congruence.
Qed.

Lemma lt_spec (a b : Q) : reflect (a < b) (Py.lt a b).
Proof.
  unfold Py.lt. destruct (Qle_bool b a) eqn:E; constructor.
  - apply Qle_bool_iff in E. lra.
  - assert (Hle : ~ b <= a) by (rewrite <- Qle_bool_iff; congruence).
    lra.
Qed.

Lemma eq_spec (a b : Q) : reflect (a == b) (Py.eq a b).
Proof.
  unfold Py.eq. destruct (Qeq_bool a b) eqn:E; constructor.
  - now apply Qeq_bool_iff.
  - now apply Qeq_bool_neq.
Qed.

Lemma truediv_ok (a b : Q) : ~ b == 0 -> Py.truediv a b = Ok (a / b).
Proof.
  intro H. unfold Py.truediv. destruct (eq_spec b 0); [contradiction | reflexivity].
Qed.

Lemma truediv_zero (a b : Q) : b == 0 -> Py.truediv a b = Raise ZeroDivisionError.
Proof.
  intro H. unfold Py.truediv. destruct (eq_spec b 0); [reflexivity | contradiction].
Qed.

Lemma fold_plus_shift (xs : list Q) (a : Q) :
  fold_left Qplus xs a == a + fold_left Qplus xs 0.
Proof.
  revert a. induction xs as [|x xs IH]; intro a; simpl.
  - lra.
  - rewrite (IH (a + x)), (IH (0 + x)). lra.
Qed.

Lemma sum_cons (x : Q) (xs : list Q) : Py.sum (x :: xs) == x + Py.sum xs.
Proof.
  unfold Py.sum. simpl. rewrite fold_plus_shift. lra.
Qed.

Lemma sum_app (xs ys : list Q) : Py.sum (xs ++ ys) == Py.sum xs + Py.sum ys.
Proof.
  induction xs as [|x xs IH]; simpl.
  - unfold Py.sum at 2. simpl. lra.
  - rewrite !sum_cons, IH. lra.
Qed.

Lemma held_cons (tx : Transaction.t) (lots : list Transaction.t) :
  held (tx :: lots) == Transaction.quantity tx + held lots.
Proof. unfold held. simpl. apply sum_cons. Qed.

Lemma held_app (l1 l2 : list Transaction.t) :
  held (l1 ++ l2) == held l1 + held l2.
Proof. unfold held. rewrite map_app. apply sum_app. Qed.

Lemma held_nonneg (lots : list Transaction.t) :
  Forall positive_quantity lots -> 0 <= held lots.
Proof.
  induction 1 as [|tx lots Htx _ IH].
  - unfold held, Py.sum. simpl. lra.
  - rewrite held_cons. unfold positive_quantity in Htx. lra.
Qed.

Lemma min_spec (a b : Q) :
  (b < a /\ Py.min a b = b) \/ (a <= b /\ Py.min a b = a).
Proof.
  unfold Py.min. destruct (lt_spec b a); [left | right]; split; auto; lra.
Qed.

Lemma max0_spec (x : Q) :
  (0 < x /\ Py.max 0 x = x) \/ (x <= 0 /\ Py.max 0 x = 0).
Proof.
  unfold Py.max, Py.gt. destruct (lt_spec 0 x); [left | right]; split; auto; lra.
Qed.

Lemma sum_nonneg (xs : list Q) : Forall (fun x => 0 <= x) xs -> 0 <= Py.sum xs.
Proof.
  induction 1 as [|x xs Hx _ IH].
  - unfold Py.sum; simpl. lra.
  - rewrite sum_cons. lra.
Qed.

Lemma sum_perm (xs ys : list Q) : Permutation xs ys -> Py.sum xs == Py.sum ys.
Proof.
  induction 1 as [|x xs ys _ IH|x y xs|xs ys zs _ IH1 _ IH2].
  - reflexivity.
  - rewrite !sum_cons, IH. reflexivity.
  - rewrite !sum_cons. lra.
  - now rewrite IH1.
Qed.

Lemma Forall2_same {A : Type} (P : A -> Prop) (R : A -> A -> Prop) (l : list A) :
  (forall x, P x -> R x x) -> Forall P l -> Forall2 R l l.
Proof. intros HR. induction 1; constructor; auto. Qed.

Section SortedFacts.
Context {A : Type} (key : A -> string).

Lemma insert_perm (x : A) (xs : list A) :
  Permutation (Py.insert key x xs) (x :: xs).
Proof.
  induction xs as [|y ys IH]; simpl; [reflexivity|].
  destruct (String.leb (key x) (key y)); [reflexivity|].
  rewrite IH. apply perm_swap.
Qed.

Lemma sorted_perm (xs : list A) : Permutation (Py.sorted key xs) xs.
Proof.
  induction xs as [|x xs IH]; simpl; [reflexivity|].
  rewrite insert_perm. now constructor.
Qed.

End SortedFacts.

(* ================================================================== *)
(** * Sums of quantities *)
(* ================================================================== *)

Lemma held_nil : held [] == 0.
Proof. unfold held, Py.sum; simpl. lra. Qed.

Lemma held_snoc (lots : list Transaction.t) (tx : Transaction.t) :
  held (lots ++ [tx]) == held lots + Transaction.quantity tx.
Proof. rewrite held_app, held_cons, held_nil. lra. Qed.

Lemma sold_nil : sold [] == 0.
Proof. unfold sold, Py.sum; simpl. lra. Qed.

Lemma sold_snoc (pvs : list RealizedGainLoss.t) (pv : RealizedGainLoss.t) :
  sold (pvs ++ [pv]) == sold pvs + RealizedGainLoss.quantity_sold pv.
Proof.
  unfold sold. rewrite map_app, sum_app. simpl. rewrite sum_cons.
  assert (Hnil : Py.sum [] == 0) by reflexivity. rewrite Hnil. lra.
Qed.

Lemma bought_nil : bought [] == 0.
Proof. unfold bought, Py.sum; simpl. lra. Qed.

Lemma bought_cons (tx : Transaction.t) (txs : list Transaction.t) :
  bought (tx :: txs)
  == (if is_achat (Transaction.transaction_type tx)
      then Transaction.quantity tx else 0) + bought txs.
Proof.
  unfold bought. simpl.
  destruct (is_achat (Transaction.transaction_type tx)); simpl.
  - apply sum_cons.
  - lra.
Qed.

Lemma bought_perm (xs ys : list Transaction.t) :
  Permutation xs ys -> bought xs == bought ys.
Proof.
  intro H. unfold bought. apply sum_perm, Permutation_map.
  induction H as [|x xs ys _ IH|x y xs|xs ys zs _ IH1 _ IH2]; simpl.
  - reflexivity.
  - destruct (is_achat _); [constructor|]; exact IH.
  - destruct (is_achat (Transaction.transaction_type x)),
             (is_achat (Transaction.transaction_type y));
      try reflexivity. apply perm_swap.
  - etransitivity; eassumption.
Qed.

Lemma covered_eq (txs : list Transaction.t) :
  forall s s', s == s' -> covered s txs = true -> covered s' txs = true.
Proof.
  induction txs as [|tx rest IH]; intros s s' Hs; simpl; [trivial|].
  destruct (Transaction.transaction_type tx).
  - apply IH. lra.
  - rewrite !andb_true_iff. intros [Hle Hc]. split.
    + destruct (le_spec (Transaction.quantity tx) s); [|discriminate].
      destruct (le_spec (Transaction.quantity tx) s'); [reflexivity|lra].
    + revert Hc. apply IH. lra.
Qed.

Lemma sales_nil : sales [] == 0.
Proof. unfold sales, Py.sum; simpl. lra. Qed.

Lemma sales_cons (tx : Transaction.t) (txs : list Transaction.t) :
  sales (tx :: txs)
  == (if is_achat (Transaction.transaction_type tx)
      then 0 else Transaction.quantity tx) + sales txs.
Proof.
  unfold sales. simpl.
  destruct (is_achat (Transaction.transaction_type tx)); simpl.
  - lra.
  - apply sum_cons.
Qed.

(** [covered] says that in every prefix of the list the quantity sold does
    not exceed the stock plus the quantity bought. *)
Lemma covered_prefixes (txs : list Transaction.t) :
  Forall positive_quantity txs ->
  forall s, 0 <= s ->
    covered s txs = true
    <-> forall n, sales (firstn n txs) <= s + bought (firstn n txs).
Proof.
  induction 1 as [|tx rest Htx _ IH]; intros s Hs.
  - simpl. split; [|reflexivity]. intros _ n. rewrite firstn_nil.
    pose proof sales_nil. pose proof bought_nil. lra.
  - unfold positive_quantity in Htx. simpl.
    assert (Hstep : forall n,
               sales (firstn (S n) (tx :: rest))
               == (if is_achat (Transaction.transaction_type tx)
                   then 0 else Transaction.quantity tx)
                  + sales (firstn n rest)
               /\ bought (firstn (S n) (tx :: rest))
                  == (if is_achat (Transaction.transaction_type tx)
                      then Transaction.quantity tx else 0)
                     + bought (firstn n rest)).
    { intro n. simpl. split; [apply sales_cons | apply bought_cons]. }
    assert (H0 : sales (firstn 0 (tx :: rest))
                 <= s + bought (firstn 0 (tx :: rest))).
    { simpl. pose proof sales_nil. pose proof bought_nil. lra. }
    destruct (Transaction.transaction_type tx) eqn:Hty; simpl in Hstep.
    + rewrite (IH (s + Transaction.quantity tx)) by lra. split.
      * intros Hall [|n]; [exact H0|].
        destruct (Hstep n) as [-> ->]. specialize (Hall n). lra.
      * intros Hall n. specialize (Hall (S n)).
        destruct (Hstep n) as [Hs1 Hs2]. rewrite Hs1, Hs2 in Hall. lra.
    + rewrite andb_true_iff. split.
      * intros [Hle Hcov] [|n]; [exact H0|].
        destruct (le_spec (Transaction.quantity tx) s) as [Hq|]; [|discriminate].
        apply (IH (s - Transaction.quantity tx)) with (n := n) in Hcov; [|lra].
        destruct (Hstep n) as [-> ->]. lra.
      * intros Hall.
        assert (Hq : Transaction.quantity tx <= s).
        { specialize (Hall 1%nat). destruct (Hstep 0%nat) as [Hs1 Hs2].
          rewrite Hs1, Hs2 in Hall. simpl in Hall.
          pose proof sales_nil. pose proof bought_nil. lra. }
        split.
        -- destruct (le_spec (Transaction.quantity tx) s); [reflexivity|lra].
        -- apply (IH (s - Transaction.quantity tx)); [lra|].
           intro n. specialize (Hall (S n)).
           destruct (Hstep n) as [Hs1 Hs2]. rewrite Hs1, Hs2 in Hall. lra.
Qed.

(* ================================================================== *)
(** * The FIFO loop of calculate_realized_pv_fifo *)
(* ================================================================== *)

(** With lots of positive quantity the loop never divides by zero, and it
    stops at the asked quantity or at the end of the lots. *)
Lemma fifo_loop_sold (need : Q) (lots : list Transaction.t) :
  Forall positive_quantity lots ->
  forall acc, quantity_sold acc <= need ->
  exists acc',
    fifo_loop need lots acc = Ok acc'
    /\ (need <= quantity_sold acc + held lots -> quantity_sold acc' == need)
    /\ (quantity_sold acc + held lots <= need ->
        quantity_sold acc' == quantity_sold acc + held lots).
Proof.
  induction 1 as [|b rest Hb Hrest IH]; intros acc Hacc.
  - exists acc. pose proof held_nil. repeat split; intros; lra.
  - pose proof (held_nonneg rest Hrest) as Hnn.
    pose proof (held_cons b rest) as Hc.
    unfold positive_quantity in Hb.
    simpl. unfold Py.ge. destruct (le_spec need (quantity_sold acc)) as [Hge|Hlt].
    + exists acc. repeat split; intros; lra.
    + rewrite truediv_ok by lra. simpl.
      destruct (min_spec (Transaction.quantity b) (need - quantity_sold acc))
        as [[Hm ->]|[Hm ->]].
      * edestruct IH as (acc' & Hrun & H1 & H2); [|rewrite Hrun].
        { simpl. lra. }
        exists acc'. simpl in H1, H2. repeat split; intros; lra.
      * edestruct IH as (acc' & Hrun & H1 & H2); [|rewrite Hrun].
        { simpl. lra. }
        exists acc'. simpl in H1, H2. repeat split; intros; lra.
Qed.

(** What [calculate_realized_pv_fifo] builds from the accumulators the loop
    ends with: both divisions are guarded. *)
Lemma fifo_result (lots : list Transaction.t) (sell : Transaction.t)
    (acc : fifo_acc) :
  fifo_loop (Transaction.quantity sell) lots (mk_fifo_acc 0 0 []) = Ok acc ->
  exists r,
    calculate_realized_pv_fifo lots sell = Ok r
    /\ RealizedGainLoss.quantity_sold r = quantity_sold acc
    /\ RealizedGainLoss.total_gain_loss r
       = Transaction.total_cost sell - total_buy_cost acc
    /\ (quantity_sold acc <= 0 -> RealizedGainLoss.average_buy_price r = 0)
    /\ (total_buy_cost acc <= 0 -> RealizedGainLoss.gain_loss_percent r = 0)
    /\ (0 < quantity_sold acc ->
        RealizedGainLoss.average_buy_price r
        = total_buy_cost acc / quantity_sold acc)
    /\ (0 < total_buy_cost acc ->
        RealizedGainLoss.gain_loss_percent r
        = (Transaction.total_cost sell - total_buy_cost acc)
          / total_buy_cost acc * 100).
Proof.
  intro Hrun. unfold calculate_realized_pv_fifo. rewrite Hrun. simpl.
  unfold Py.gt.
  destruct (lt_spec 0 (quantity_sold acc)) as [Hq|Hq];
    destruct (lt_spec 0 (total_buy_cost acc)) as [Hc|Hc];
    rewrite ?truediv_ok by lra; simpl;
    eexists; (split; [reflexivity|]); simpl;
    repeat split; intros; try reflexivity; lra.
Qed.

(** The loop can only raise on a lot of quantity 0, and nothing else in
    [calculate_realized_pv_fifo] raises. *)
Lemma fifo_loop_raise (need : Q) (lots : list Transaction.t) :
  forall acc e,
    fifo_loop need lots acc = Raise e ->
    e = ZeroDivisionError
    /\ Exists (fun b => Transaction.quantity b == 0) lots.
Proof.
  induction lots as [|b rest IH]; intros acc e; simpl; [discriminate|].
  destruct (Py.ge _ _); [discriminate|].
  unfold Py.truediv at 1.
  destruct (eq_spec (Transaction.quantity b) 0) as [Hz|Hz]; simpl.
  - intros [= <-]. split; [reflexivity|]. now left.
  - intro Hrun. destruct (IH _ _ Hrun) as [He Hex].
    split; [exact He|]. now right.
Qed.

Lemma fifo_raise_needs_zero_lot (lots : list Transaction.t)
    (sell : Transaction.t) (e : Py.exn) :
  calculate_realized_pv_fifo lots sell = Raise e ->
  e = ZeroDivisionError
  /\ Exists (fun b => Transaction.quantity b == 0) lots.
Proof.
  unfold calculate_realized_pv_fifo.
  destruct (fifo_loop _ lots _) as [acc|e'] eqn:Hrun; simpl.
  - unfold Py.gt.
    destruct (lt_spec 0 (quantity_sold acc)) as [Hq|Hq];
      destruct (lt_spec 0 (total_buy_cost acc)) as [Hc|Hc];
      rewrite ?truediv_ok by lra; simpl; discriminate.
  - intros [= <-]. exact (fifo_loop_raise _ _ _ _ Hrun).
Qed.

(* ================================================================== *)
(** * _update_remaining_buys *)
(* ================================================================== *)

Lemma quantity_new tk cn ty q p d c f n i ca ua :
  Transaction.quantity (Transaction.new tk cn ty q p d c f n i ca ua) = q.
Proof.
  unfold Transaction.new, Transaction.post_init. simpl.
  destruct (Py.eq c 0); reflexivity.
Qed.

(** [__post_init__] does not change the cost given to the lot that
    replaces a constructed one: if that cost is 0, so is the derived one. *)
Lemma total_cost_new (b : Transaction.t) (left : Q) :
  initialised b -> 0 < Transaction.quantity b -> 0 < left ->
  Transaction.total_cost
    (Transaction.new (Transaction.ticker b) (Transaction.company_name b)
       (Transaction.transaction_type b) left (Transaction.price_per_share b)
       (Transaction.transaction_date b)
       (Transaction.total_cost b * left / Transaction.quantity b)
       (Transaction.fees b * left / Transaction.quantity b)
       (Transaction.notes b) (Transaction.id b) None None)
  == Transaction.total_cost b * left / Transaction.quantity b.
Proof.
  intros Hinit Hq Hleft.
  unfold Transaction.new, Transaction.post_init. simpl.
  destruct (eq_spec (Transaction.total_cost b * left / Transaction.quantity b) 0)
    as [Hz|Hz]; simpl; [|reflexivity].
  transitivity 0; [|symmetry; exact Hz].
  assert (Hc : Transaction.total_cost b == 0).
  { assert (Transaction.total_cost b
            == Transaction.total_cost b * left / Transaction.quantity b
               * (Transaction.quantity b / left)) as -> by (field; split; lra).
    rewrite Hz. lra. }
  specialize (Hinit Hc). revert Hinit.
  unfold Transaction.derived_cost. simpl.
  destruct (Transaction.transaction_type b); intro Hd.
  - assert (left * Transaction.price_per_share b
            + Transaction.fees b * left / Transaction.quantity b
            == (Transaction.quantity b * Transaction.price_per_share b
                + Transaction.fees b) * (left / Transaction.quantity b))
      as -> by (field; lra).
    rewrite Hd. lra.
  - assert (left * Transaction.price_per_share b
            - Transaction.fees b * left / Transaction.quantity b
            == (Transaction.quantity b * Transaction.price_per_share b
                - Transaction.fees b) * (left / Transaction.quantity b))
      as -> by (field; lra).
    rewrite Hd. lra.
Qed.

(** Every transaction that went through the constructor is [initialised]. *)
Lemma post_init_initialised (tx : Transaction.t) :
  initialised (Transaction.post_init tx).
Proof.
  unfold initialised, Transaction.post_init.
  destruct (eq_spec (Transaction.total_cost tx) 0) as [Hz|Hz]; simpl.
  - unfold Transaction.derived_cost. simpl. trivial.
  - intro H. contradiction.
Qed.

Lemma update_loop_keep (lots : list Transaction.t) (r : Q)
    (rem : list Transaction.t) :
  r <= 0 -> update_loop lots r rem = Ok (rem ++ lots).
Proof.
  intro Hr. revert rem. induction lots as [|b rest IH]; intro rem; simpl.
  - now rewrite app_nil_r.
  - destruct (le_spec r 0); [|contradiction].
    rewrite IH, <- app_assoc. reflexivity.
Qed.

Lemma reduced_intro (q c q' c' taken : Q) :
  0 < q -> 0 <= c -> 0 <= taken -> taken < q ->
  q' == q - taken -> c' == c - c * (taken / q) ->
  reduced q c q' c'.
Proof.
  intros Hq Hc Ht Htq Hq' Hc'. exists taken.
  assert (Hfrac : 0 <= c * (taken / q)).
  { apply Qmult_le_0_compat; [exact Hc|]. apply Qle_shift_div_l; lra. }
  repeat split; try assumption; try lra.
  rewrite Hq', Hc'. field. split; lra.
Qed.

Lemma reduced_refl (q c : Q) : 0 < q -> 0 <= c -> reduced q c q c.
Proof.
  intros Hq Hc. apply (reduced_intro q c q c 0); try lra.
  field. lra.
Qed.

(** The sale ends inside [lot], after a prefix of lots sold in full. *)
Lemma update_partial (pre : list Transaction.t) :
  Forall positive_quantity pre ->
  forall lot rest r,
    open_lot lot ->
    held pre < r -> r < held pre + Transaction.quantity lot ->
    exists lot',
      _update_remaining_buys (pre ++ lot :: rest) r = Ok (lot' :: rest)
      /\ Transaction.quantity lot'
         == Transaction.quantity lot - (r - held pre)
      /\ Transaction.total_cost lot'
         == Transaction.total_cost lot
            - Transaction.total_cost lot
              * ((r - held pre) / Transaction.quantity lot)
      /\ reduced_tx lot lot'.
Proof.
  unfold _update_remaining_buys, reduced_tx.
  induction 1 as [|p pre Hp Hpre IH];
    intros lot rest r (Hlot & Hinit & Hcost) Hlo Hhi.
  - pose proof held_nil as Hn. unfold positive_quantity in Hlot.
    simpl. destruct (le_spec r 0) as [Hr|Hr]; [lra|].
    unfold Py.gt.
    destruct (lt_spec r (Transaction.quantity lot)) as [Hlt|Hge]; [|lra].
    rewrite !truediv_ok by lra. simpl.
    rewrite update_loop_keep by lra. simpl.
    eexists. split; [reflexivity|].
    match goal with |- context [Transaction.quantity ?t == _] => set (lot' := t) end.
    assert (Hq' : Transaction.quantity lot'
                  == Transaction.quantity lot - (r - held [])).
    { unfold lot'. rewrite quantity_new. lra. }
    assert (Hc' : Transaction.total_cost lot'
                  == Transaction.total_cost lot
                     - Transaction.total_cost lot
                       * ((r - held []) / Transaction.quantity lot)).
    { unfold lot'. rewrite total_cost_new by (try assumption; lra).
      rewrite Hn. field. lra. }
    repeat split; [exact Hq' | exact Hc' |].
    apply (reduced_intro _ _ _ _ (r - held [])); auto; lra.
  - pose proof (held_cons p pre) as Hc. pose proof (held_nonneg pre Hpre) as Hnn.
    unfold positive_quantity in Hp.
    simpl. destruct (le_spec r 0) as [Hr|Hr]; [lra|].
    unfold Py.gt.
    destruct (lt_spec r (Transaction.quantity p)) as [Hlt|Hge]; [lra|].
    destruct (IH lot rest (r - Transaction.quantity p)
                (conj Hlot (conj Hinit Hcost)))
      as (lot' & Hrun & Hq & Hct & Hred); [lra|lra|].
    exists lot'. split; [exact Hrun|].
    assert (Hr' : r - Transaction.quantity p - held pre == r - held (p :: pre))
      by lra.
    rewrite Hr' in Hq, Hct. auto.
Qed.

(** Every lot that survives a sale is a lot of the input, possibly reduced. *)
Lemma update_never_grows (lots : list Transaction.t) :
  Forall open_lot lots ->
  forall r, exists out k,
    _update_remaining_buys lots r = Ok out
    /\ Forall2 reduced_tx (skipn k lots) out.
Proof.
  assert (Hrefl : forall l, Forall open_lot l -> Forall2 reduced_tx l l).
  { intros l Hl. apply (Forall2_same open_lot); [|exact Hl].
    intros x (Hq & _ & Hc). apply reduced_refl; assumption. }
  induction 1 as [|b rest Hb Hrest IH]; intro r.
  - exists [], 0%nat. split; [reflexivity|constructor].
  - destruct (Qlt_le_dec 0 r) as [Hr|Hr].
    + destruct (Qlt_le_dec r (Transaction.quantity b)) as [Hlt|Hge].
      * pose proof held_nil as Hn.
        destruct (update_partial [] (Forall_nil _) b rest r Hb)
          as (lot' & Hrun & _ & _ & Hred); [lra|lra|].
        exists (lot' :: rest), 0%nat. split; [exact Hrun|].
        simpl. constructor; [exact Hred | apply Hrefl; exact Hrest].
      * destruct (IH (r - Transaction.quantity b)) as (out & k & Hrun & HF).
        exists out, (S k). split; [|exact HF].
        unfold _update_remaining_buys in *. simpl.
        destruct (le_spec r 0); [lra|].
        unfold Py.gt. destruct (lt_spec r (Transaction.quantity b)); [lra|].
        exact Hrun.
    + exists (b :: rest), 0%nat. unfold _update_remaining_buys.
      rewrite update_loop_keep by exact Hr. split; [reflexivity|].
      simpl. apply Hrefl. now constructor.
Qed.

(** The lots left by a sale are open lots again, so the statements on open
    lots apply after any number of sales. *)
Lemma update_keeps_open_lots (lots : list Transaction.t) :
  Forall open_lot lots ->
  forall r out,
    _update_remaining_buys lots r = Ok out -> Forall open_lot out.
Proof.
  unfold _update_remaining_buys.
  induction 1 as [|b rest Hb Hrest IH]; intros r out; simpl.
  - intros [= <-]. constructor.
  - destruct (le_spec r 0) as [Hr|Hr].
    + rewrite update_loop_keep by exact Hr. intros [= <-]. now constructor.
    + pose proof Hb as (Hq & Hinit & Hcost).
      unfold positive_quantity, nonneg_cost in Hq, Hcost.
      unfold Py.gt. destruct (lt_spec r (Transaction.quantity b)) as [Hlt|Hge].
      * rewrite !truediv_ok by lra. simpl.
        rewrite update_loop_keep by lra. simpl. intros [= <-].
        constructor; [|exact Hrest]. split; [|split].
        -- unfold positive_quantity. rewrite quantity_new. lra.
        -- apply post_init_initialised.
        -- unfold nonneg_cost. rewrite total_cost_new by (try assumption; lra).
           apply Qle_shift_div_l; [lra|].
           assert (0 <= Transaction.total_cost b
                        * (Transaction.quantity b - r)).
           { apply Qmult_le_0_compat; lra. }
           lra.
      * apply IH.
Qed.

(** The quantity held after a sale. *)
Lemma update_remaining_held (lots : list Transaction.t) :
  Forall positive_quantity lots ->
  forall r, 0 <= r ->
  exists out,
    _update_remaining_buys lots r = Ok out
    /\ Forall positive_quantity out
    /\ (r <= held lots -> held out == held lots - r)
    /\ (held lots <= r -> out = []).
Proof.
  unfold _update_remaining_buys.
  induction 1 as [|b rest Hb Hrest IH]; intros r Hr.
  - exists []. pose proof held_nil. simpl. repeat split; auto. intros; lra.
  - pose proof (held_nonneg rest Hrest) as Hnn.
    pose proof (held_cons b rest) as Hc. unfold positive_quantity in Hb.
    simpl. destruct (le_spec r 0) as [Hr0|Hr0].
    + rewrite update_loop_keep by exact Hr0. simpl. exists (b :: rest).
      repeat split.
      * constructor; assumption.
      * intros _. lra.
      * intros; lra.
    + unfold Py.gt. destruct (lt_spec r (Transaction.quantity b)) as [Hlt|Hge].
      * rewrite !truediv_ok by lra. simpl.
        rewrite update_loop_keep by lra. simpl.
        eexists. split; [reflexivity|]. repeat split.
        -- constructor; [|assumption]. unfold positive_quantity.
           rewrite quantity_new. lra.
        -- intros _. rewrite held_cons, quantity_new. lra.
        -- intros; lra.
      * destruct (IH (r - Transaction.quantity b))
          as (out & Hrun & Hpos & H1 & H2); [lra|].
        exists out. repeat split; auto.
        -- intros. rewrite H1; lra.
        -- intros. apply H2. lra.
Qed.

(* ================================================================== *)
(** * The replay of calculate_all_realized_pv *)
(* ================================================================== *)

Lemma replay_loop_conservation (txs : list Transaction.t) :
  Forall positive_quantity txs ->
  forall pvs rem,
    Forall positive_quantity rem ->
    covered (held rem) txs = true ->
    exists pvs' rem',
      replay_loop txs pvs rem = Ok (pvs', rem')
      /\ held rem' + sold pvs' == held rem + sold pvs + bought txs.
Proof.
  induction 1 as [|tx rest Htx Hrest IH]; intros pvs rem Hrem Hcov.
  - exists pvs, rem. split; [reflexivity|]. rewrite bought_nil. lra.
  - pose proof (bought_cons tx rest) as Hb.
    simpl in Hcov |- *.
    destruct (Transaction.transaction_type tx); simpl in Hb |- *.
    + pose proof (held_snoc rem tx) as Hs.
      destruct (IH pvs (rem ++ [tx])) as (pvs' & rem' & Hrun & Hsum).
      * apply Forall_app. split; [assumption|].
        constructor; [assumption|constructor].
      * revert Hcov. apply covered_eq. lra.
      * exists pvs', rem'. split; [exact Hrun|]. lra.
    + apply andb_true_iff in Hcov. destruct Hcov as [Hle Hcov].
      destruct (le_spec (Transaction.quantity tx) (held rem)) as [Hle'|];
        [clear Hle; rename Hle' into Hle | discriminate].
      unfold positive_quantity in Htx.
      destruct (fifo_loop_sold (Transaction.quantity tx) rem Hrem
                  (mk_fifo_acc 0 0 [])) as (acc & Hfifo & Hs1 & _).
      { simpl. lra. }
      destruct (fifo_result rem tx acc Hfifo) as (pv & Hpv & Hq & _).
      rewrite Hpv. simpl.
      destruct (update_remaining_held rem Hrem (Transaction.quantity tx))
        as (rem1 & Hupd & Hpos1 & Hheld & _); [lra|].
      rewrite Hupd. simpl.
      simpl in Hs1. specialize (Hs1 ltac:(lra)). specialize (Hheld Hle).
      pose proof (sold_snoc pvs pv) as Hsn. rewrite Hq in Hsn.
      destruct (IH (pvs ++ [pv]) rem1 Hpos1) as (pvs' & rem' & Hrun & Hsum).
      * revert Hcov. apply covered_eq. lra.
      * exists pvs', rem'. split; [exact Hrun|]. lra.
Qed.

(* ================================================================== *)
(** * The lot ledger of _calculate_position_cost *)
(* ================================================================== *)

Import db_manager.

Lemma tolerance_pos : 0 < 1e-9.
Proof. reflexivity. Qed.

Lemma lot_held_nil : lot_held [] == 0.
Proof. unfold lot_held, Py.sum; simpl. lra. Qed.

Lemma lot_held_cons (l : Lot.t) (lots : list Lot.t) :
  lot_held (l :: lots) == Lot.quantity l + lot_held lots.
Proof. unfold lot_held. simpl. apply sum_cons. Qed.

Lemma sound_positive (lots : list Lot.t) :
  Forall sound_lot lots -> Forall positive_lot lots.
Proof. apply Forall_impl. now intros l [Hq _]. Qed.

Lemma lot_held_nonneg (lots : list Lot.t) :
  Forall positive_lot lots -> 0 <= lot_held lots.
Proof.
  unfold positive_lot. induction 1 as [|l lots Hq _ IH].
  - rewrite lot_held_nil. lra.
  - rewrite lot_held_cons. lra.
Qed.

(** The [while] loop of a sale never raises: it divides by the quantity of
    a lot only when that quantity exceeds the positive [quantity_to_sell]. *)
Lemma sell_loop_total (lots : list Lot.t) :
  forall qs, exists out, sell_loop qs lots = Ok out.
Proof.
  induction lots as [|l rest IH]; intro qs; simpl.
  - now exists [].
  - unfold Py.gt. destruct (lt_spec 0 qs) as [Hqs|Hqs]; [|now eexists].
    destruct (le_spec (Lot.quantity l) (qs + 1e-9)) as [Hle|Hgt]; [apply IH|].
    pose proof tolerance_pos.
    rewrite truediv_ok by lra. simpl. now eexists.
Qed.


Lemma sell_loop_sound (lots : list Lot.t) :
  Forall sound_lot lots ->
  forall qs out,
    sell_loop qs lots = Ok out ->
    Forall sound_lot out
    /\ exists k, Forall2 reduced_lot (skipn k lots) out.
Proof.
  assert (Hrefl : forall l, Forall sound_lot l -> Forall2 reduced_lot l l).
  { intros l Hl. apply (Forall2_same sound_lot); [|exact Hl].
    intros x [Hq Hc]. apply reduced_refl; assumption. }
  induction 1 as [|l rest Hl Hrest IH]; intros qs out; simpl.
  - intros [= <-]. split; [constructor | exists 0%nat; constructor].
  - pose proof tolerance_pos as Heps. destruct Hl as [Hq Hcost].
    unfold Py.gt. destruct (lt_spec 0 qs) as [Hqs|Hqs].
    + destruct (le_spec (Lot.quantity l) (qs + 1e-9)) as [Hle|Hgt].
      * intro Hrun. destruct (IH _ _ Hrun) as (Hs & k & HF).
        split; [exact Hs | exists (S k); exact HF].
      * rewrite truediv_ok by lra. simpl. intros [= <-].
        assert (Hred : reduced (Lot.quantity l) (Lot.cost l)
                         (Lot.quantity l - qs)
                         (Lot.cost l - Lot.cost l * (qs / Lot.quantity l))).
        { apply (reduced_intro _ _ _ _ qs); try lra; reflexivity. }
        assert (Hfrac : 0 <= Lot.cost l - Lot.cost l * (qs / Lot.quantity l)).
        { assert (Lot.cost l - Lot.cost l * (qs / Lot.quantity l)
                  == Lot.cost l * ((Lot.quantity l - qs) / Lot.quantity l))
            as -> by (field; lra).
          apply Qmult_le_0_compat; [exact Hcost|].
          apply Qle_shift_div_l; lra. }
        split.
        -- constructor; [|exact Hrest]. split; simpl; lra.
        -- exists 0%nat. simpl. constructor; [exact Hred|].
           apply Hrefl; exact Hrest.
    + intros [= <-]. split.
      * constructor; [split|]; assumption.
      * exists 0%nat. simpl. apply Hrefl. constructor; [split|]; assumption.
Qed.


(** The sale ends inside [lot], after a prefix of lots sold in full. *)
Lemma sell_loop_partial (pre : list Lot.t) :
  Forall positive_lot pre ->
  forall lot rest qs,
    sound_lot lot ->
    lot_held pre < qs -> qs + 1e-9 < lot_held pre + Lot.quantity lot ->
    exists lot',
      sell_loop qs (pre ++ lot :: rest) = Ok (lot' :: rest)
      /\ Lot.quantity lot' == Lot.quantity lot - (qs - lot_held pre)
      /\ Lot.cost lot'
         == Lot.cost lot
            - Lot.cost lot * ((qs - lot_held pre) / Lot.quantity lot)
      /\ reduced_lot lot lot'.
Proof.
  unfold reduced_lot.
  induction 1 as [|p pre Hp Hpre IH]; intros lot rest qs [Hq Hcost] Hlo Hhi.
  - pose proof lot_held_nil as Hn. pose proof tolerance_pos as Heps.
    simpl. unfold Py.gt. destruct (lt_spec 0 qs) as [H0|H0]; [|lra].
    destruct (le_spec (Lot.quantity lot) (qs + 1e-9)) as [Hle|Hgt]; [lra|].
    rewrite truediv_ok by lra. simpl.
    eexists. split; [reflexivity|]. simpl.
    assert (Hq' : Lot.quantity lot - qs
                  == Lot.quantity lot - (qs - lot_held [])) by lra.
    assert (Hc' : Lot.cost lot - Lot.cost lot * (qs / Lot.quantity lot)
                  == Lot.cost lot
                     - Lot.cost lot * ((qs - lot_held []) / Lot.quantity lot)).
    { rewrite Hn. field. lra. }
    repeat split; [exact Hq' | exact Hc' |].
    apply (reduced_intro _ _ _ _ (qs - lot_held [])); simpl; auto; lra.
  - pose proof (lot_held_cons p pre) as Hc. pose proof tolerance_pos as Heps.
    pose proof (lot_held_nonneg pre Hpre) as Hnn. unfold positive_lot in Hp.
    simpl. unfold Py.gt. destruct (lt_spec 0 qs) as [H0|H0]; [|lra].
    destruct (le_spec (Lot.quantity p) (qs + 1e-9)) as [Hle|Hgt]; [|lra].
    destruct (IH lot rest (qs - Lot.quantity p) (conj Hq Hcost))
      as (lot' & Hrun & Hq' & Hc' & Hred); [lra|lra|].
    exists lot'. split; [exact Hrun|].
    assert (Hr' : qs - Lot.quantity p - lot_held pre == qs - lot_held (p :: pre))
      by lra.
    rewrite Hr' in Hq', Hc'. auto.
Qed.

Lemma position_loop_total (txs : list Transaction.t) :
  forall lots, exists out, position_loop txs lots = Ok out.
Proof.
  induction txs as [|tx rest IH]; intro lots; simpl.
  - now exists lots.
  - destruct (Transaction.transaction_type tx); [apply IH|].
    destruct (sell_loop_total lots (Transaction.quantity tx)) as [lots' ->].
    simpl. apply IH.
Qed.

Lemma position_loop_app (txs1 txs2 : list Transaction.t) :
  forall lots,
    position_loop (txs1 ++ txs2) lots
    = (lots' <- position_loop txs1 lots ;; position_loop txs2 lots').
Proof.
  induction txs1 as [|tx rest IH]; intro lots; simpl; [reflexivity|].
  destruct (Transaction.transaction_type tx); [apply IH|].
  destruct (sell_loop (Transaction.quantity tx) lots); simpl;
    [apply IH|reflexivity].
Qed.

(** The lots that a history of purchases opens. *)
Lemma lot_held_map (txs : list Transaction.t) :
  lot_held (map lot_of txs) = held txs.
Proof. unfold lot_held, held. rewrite map_map. reflexivity. Qed.

Lemma lot_cost_map (txs : list Transaction.t) :
  lot_cost (map lot_of txs) = cost_of txs.
Proof. unfold lot_cost, cost_of. rewrite map_map. reflexivity. Qed.

Lemma position_loop_purchases (txs : list Transaction.t) :
  Forall (fun tx => Transaction.transaction_type tx = ACHAT) txs ->
  forall lots, position_loop txs lots = Ok (lots ++ map lot_of txs).
Proof.
  induction 1 as [|tx rest Htx _ IH]; intro lots; simpl.
  - rewrite app_nil_r. reflexivity.
  - rewrite Htx, IH, <- app_assoc. reflexivity.
Qed.



(* ================================================================== *)
(** * The tax engine *)
(* ================================================================== *)

(** The flat tax never raises; these are its amounts. *)
Lemma pfu_formula (g : Q) :
  TaxResult.tax_amount (calculate_pfu_dividend g) = g * 0.128 + g * 0.172
  /\ TaxResult.net_amount (calculate_pfu_dividend g)
     = g - TaxResult.tax_amount (calculate_pfu_dividend g)
  /\ Py.getitem (TaxResult.breakdown (calculate_pfu_dividend g)) "csg_deductible"
     = Ok (g * 0.068).
Proof. repeat split. Qed.

(** On a gross amount other than 0 the progressive computation returns,
    with these amounts. *)
Lemma progressive_formula (g m : Q) :
  ~ g == 0 ->
  exists r,
    calculate_progressive_tax_dividend g m = Ok r
    /\ TaxResult.gross_amount r = g
    /\ Py.getitem (TaxResult.breakdown r) "base_imposable" = Ok (g * (1 - 0.40))
    /\ Py.getitem (TaxResult.breakdown r) "impot_revenu"
       = Ok (g * (1 - 0.40) * (m / 100))
    /\ Py.getitem (TaxResult.breakdown r) "prelevements_sociaux" = Ok (g * 0.172)
    /\ Py.getitem (TaxResult.breakdown r) "csg_deductible" = Ok (g * 0.068)
    /\ TaxResult.tax_amount r = g * (1 - 0.40) * (m / 100) + g * 0.172
    /\ TaxResult.net_amount r = g - TaxResult.tax_amount r
    /\ exists rate,
        Py.getitem (TaxResult.breakdown r) "taux_effectif" = Ok rate.
Proof.
  intro Hg. unfold calculate_progressive_tax_dividend.
  rewrite truediv_ok by exact Hg. simpl.
  eexists. split; [reflexivity|]. simpl. repeat split. eexists. reflexivity.
Qed.

(** It raises exactly on a gross amount of 0. *)
Lemma progressive_raises_iff (g m : Q) :
  calculate_progressive_tax_dividend g m = Raise ZeroDivisionError <-> g == 0.
Proof.
  unfold calculate_progressive_tax_dividend, Py.truediv.
  destruct (eq_spec g 0) as [Hz|Hz]; simpl; split; auto.
  - discriminate.
  - contradiction.
Qed.

(** The amounts of the test suite: 5000 of dividends, marginal rate 30. *)
Lemma tax_values_5000 :
  TaxResult.tax_amount (calculate_pfu_dividend 5000) == 1500
  /\ exists r taxable income social,
      calculate_progressive_tax_dividend 5000 30 = Ok r
      /\ Py.getitem (TaxResult.breakdown r) "base_imposable" = Ok taxable
      /\ Py.getitem (TaxResult.breakdown r) "impot_revenu" = Ok income
      /\ Py.getitem (TaxResult.breakdown r) "prelevements_sociaux" = Ok social
      /\ taxable == 3000 /\ income == 900 /\ social == 860
      /\ TaxResult.tax_amount r == 1760
      /\ TaxResult.net_amount r == 3240.
Proof.
  split; [reflexivity|]. do 4 eexists.
  split; [reflexivity|]. repeat split; reflexivity.
Qed.

(** Away from the zero-dividend failure the annual summary returns, its net
    capital gains are [max(0, gains - losses)], and the progressive block
    taxes them with the flat-tax formula. *)
Lemma summary_formula (d g l : Q) (rate : option Q) :
  rate = None \/ ~ d == 0 ->
  exists s,
    calculate_annual_tax_summary d g l rate = Ok s
    /\ item2 s "revenus" "plus_values_nettes" = Ok (Num (Py.max 0 (g - l)))
    /\ 0 <= Py.max 0 (g - l)
    /\ (g <= l -> Py.max 0 (g - l) == 0)
    /\ (forall m, rate = Some m ->
        exists p,
          calculate_progressive_tax_dividend d m = Ok p
          /\ item2 s "bareme_progressif" "impot_pv"
             = Ok (Num (TaxResult.tax_amount
                          (calculate_pfu_capital_gain (Py.max 0 (g - l)))))
          /\ item2 s "bareme_progressif" "impot_dividendes"
             = Ok (Num (TaxResult.tax_amount p))).
Proof.
  intros Hok.
  assert (Hmax : 0 <= Py.max 0 (g - l) /\ (g <= l -> Py.max 0 (g - l) == 0)).
  { destruct (max0_spec (g - l)) as [[H ->]|[H ->]]; split; intros; lra. }
  destruct Hmax as [Hm1 Hm2].
  destruct rate as [m|].
  - destruct Hok as [Hn|Hd]; [discriminate|].
    destruct (progressive_formula d m Hd) as (p & Hp & _).
    unfold calculate_annual_tax_summary. simpl. rewrite Hp. simpl.
    eexists. split; [reflexivity|]. repeat split; auto.
    intros m' [= <-]. exists p. split; [exact Hp|]. split; reflexivity.
  - unfold calculate_annual_tax_summary. simpl.
    eexists. split; [reflexivity|]. repeat split; auto.
    intros m' H; discriminate.
Qed.

(** The summary raises exactly when a rate comes with no dividend. *)
Lemma summary_raises_iff (d g l : Q) (rate : option Q) :
  calculate_annual_tax_summary d g l rate = Raise ZeroDivisionError
  <-> d == 0 /\ rate <> None.
Proof.
  split.
  - intro Hr. destruct rate as [m|].
    + split; [|discriminate].
      destruct (eq_spec d 0) as [Hz|Hz]; [exact Hz|].
      destruct (summary_formula d g l (Some m) (or_intror Hz)) as (s & Hs & _).
      congruence.
    + destruct (summary_formula d g l None (or_introl eq_refl)) as (s & Hs & _).
      congruence.
  - intros [Hz Hrate]. destruct rate as [m|]; [|contradiction].
    unfold calculate_annual_tax_summary. simpl.
    apply (proj2 (progressive_raises_iff d m)) in Hz. rewrite Hz. reflexivity.
Qed.

(** What [best_option] is, on every gross amount other than 0: ['PFU'] when
    the flat tax is the larger of the two, the progressive regime
    otherwise. *)
Lemma compare_best_option (g m : Q) :
  ~ g == 0 ->
  exists p r,
    calculate_progressive_tax_dividend g m = Ok p
    /\ compare_pfu_vs_progressive g m = Ok r
    /\ (TaxResult.tax_amount p
        < TaxResult.tax_amount (calculate_pfu_dividend g) ->
        item r "best_option" = Ok (Str "PFU"))
    /\ (TaxResult.tax_amount (calculate_pfu_dividend g)
        <= TaxResult.tax_amount p ->
        item r "best_option" = Ok (Str "Barème progressif")).
Proof.
  intro Hg.
  destruct (progressive_formula g m Hg) as (p & Hp & Hrest).
  destruct Hrest as (_ & _ & _ & _ & _ & _ & _ & rate & Hrate).
  exists p. unfold compare_pfu_vs_progressive. rewrite Hp. simpl.
  rewrite Hrate. simpl.
  eexists. split; [reflexivity|]. split; [reflexivity|].
  split; intro Hcmp; simpl in Hcmp |- *; unfold Py.gt;
    match goal with |- context [Py.lt 0 ?d] => destruct (lt_spec 0 d) end;
    try reflexivity; lra.
Qed.

(** The comparison names the regime with the larger tax: with 5000 of
    dividends at a marginal rate of 30 the flat tax is 1500, the progressive
    one 1760, and [best_option] is the progressive regime.  On the same
    amounts [calculate_annual_tax_summary] answers ['PFU']. *)
Lemma compare_names_dearer_regime :
  exists p r s,
    calculate_progressive_tax_dividend 5000 30 = Ok p
    /\ TaxResult.tax_amount (calculate_pfu_dividend 5000) < TaxResult.tax_amount p
    /\ compare_pfu_vs_progressive 5000 30 = Ok r
    /\ item r "best_option" = Ok (Str "Barème progressif")
    /\ calculate_annual_tax_summary 5000 0 0 (Some 30) = Ok s
    /\ item2 s "comparaison" "meilleure_option" = Ok (Str "PFU").
Proof.
  do 3 eexists. split; [reflexivity|]. split; [reflexivity|].
  split; [reflexivity|]. split; [reflexivity|]. split; reflexivity.
Qed.

(** The rate returned for every income per part: the one of the bracket
    where the brackets cover it, 45 in the four gaps between them. *)
Lemma bracket_rates (income parts : Q) :
  1 <= parts -> 0 <= income ->
  exists rate name,
    calculate_tax_bracket income parts = Ok (rate, name)
    /\ (income / parts <= 11294 -> rate = 0%Z)
    /\ (11295 <= income / parts <= 28797 -> rate = 11%Z)
    /\ (28798 <= income / parts <= 82341 -> rate = 30%Z)
    /\ (82342 <= income / parts <= 177106 -> rate = 41%Z)
    /\ (177107 <= income / parts -> rate = 45%Z)
    /\ (11294 < income / parts < 11295 -> rate = 45%Z)
    /\ (28797 < income / parts < 28798 -> rate = 45%Z)
    /\ (82341 < income / parts < 82342 -> rate = 45%Z)
    /\ (177106 < income / parts < 177107 -> rate = 45%Z).
Proof.
  intros Hparts Hincome. unfold calculate_tax_bracket.
  rewrite truediv_ok by lra. simpl.
  assert (Hx : 0 <= income / parts) by (apply Qle_shift_div_l; lra).
  set (x := income / parts) in *.
  repeat match goal with
         | |- context [Py.le ?a ?b] => destruct (le_spec a b)
         end; simpl;
    do 2 eexists; (split; [reflexivity|]);
    repeat split; intros; try reflexivity; lra.
Qed.

#[local] Set Warnings "-inexact-float".
#[local] Open Scope float_scope.
(* ================================================================== *)
(** * The evaluations replayed on binary64 *)
(* ================================================================== *)

(** The worked FIFO example: 12 shares sold, a gain within 0.01 of 337.6
    (it is 337.59999999999991) and a percentage within 0.01 of 18.54. *)
Lemma binary64_fifo_example :
  exists average gain percent,
    binary64.calculate_realized_pv_fifo
      [(10, 10 * 150 + 1); (5, 5 * 160 + 1)] 12 (12 * 180 - 1)
    = Ok (12, average, gain, percent)
    /\ PrimFloat.ltb (PrimFloat.abs (gain - 337.6)) 0.01 = true
    /\ PrimFloat.eqb gain 337.6 = false
    /\ PrimFloat.ltb (PrimFloat.abs (percent - 18.54)) 0.01 = true.
Proof. do 3 eexists. split; [vm_compute; reflexivity|]. repeat split. Qed.

(** At the tie of C2 (the rate is the double nearest to 64/3) the two taxes
    are the same double and the answer is the progressive regime; at
    (5000, 30) the flat tax is the smaller one and the answer is still the
    progressive regime. *)
Lemma binary64_compare :
  binary64.compare_pfu_vs_progressive 100 (64 / 3)
  = Ok (0, "Barème progressif")
  /\ binary64.compare_pfu_vs_progressive 5000 30
     = Ok (-260, "Barème progressif").
Proof. split; vm_compute; reflexivity. Qed.

(** On 5000 at a marginal rate of 30: the flat tax is 1500, the taxable
    base 3000, the income tax 900, the tax 1760 and the net 3240; the social
    tax is one unit in the last place below 860. *)
Lemma binary64_tax_values_5000 :
  binary64.pfu_tax_amount 5000 = 1500
  /\ exists social,
      binary64.calculate_progressive_tax_dividend 5000 30
      = Ok (3000, 900, social, 1760, 3240)
      /\ PrimFloat.ltb (PrimFloat.abs (social - 860)) 1e-12 = true
      /\ PrimFloat.eqb social 860 = false.
Proof.
  split; [vm_compute; reflexivity|].
  eexists. split; [vm_compute; reflexivity|]. split; reflexivity.
Qed.

(** The failures of C4 and C6 are the same on binary64. *)
Lemma binary64_failures :
  binary64.calculate_progressive_tax_dividend 0 30 = Raise ZeroDivisionError
  /\ binary64.calculate_tax_bracket 11294.5 1 = Ok (45%Z, "45%")
  /\ binary64.calculate_tax_bracket 22589 2 = Ok (45%Z, "45%").
Proof. repeat split. Qed.

(* ------------------------------------------------------------------ *)
(** ** The ledger of the calculator on binary64 *)

(** A positive number is not zero. *)
Lemma binary64_positive_nonzero (x : float) :
  PrimFloat.ltb 0 x = true -> PrimFloat.eqb x 0 = false.
Proof.
  rewrite ltb_spec, eqb_spec.
  change (Prim2SF 0) with (S754_zero false).
  unfold SFltb, SFeqb.
  destruct (Prim2SF x) as [s|s| |s m e]; simpl; try discriminate;
    destruct s; simpl; intro H; try discriminate H; reflexivity.
Qed.

Lemma binary64_truediv_ok (a b : float) :
  PrimFloat.ltb 0 b = true -> binary64.truediv a b = Ok (a / b).
Proof.
  intro H. unfold binary64.truediv.
  rewrite (binary64_positive_nonzero b H). reflexivity.
Qed.

Lemma binary64_id_new i ty d q p c f :
  binary64_ledger.Transaction.id (binary64_ledger.Transaction.new i ty d q p c f)
  = i.
Proof.
  unfold binary64_ledger.Transaction.new, binary64_ledger.Transaction.post_init.
  simpl. destruct (PrimFloat.eqb c 0); reflexivity.
Qed.

(** Whatever the rounding, the lots used by a sale are a prefix of the
    lots: the loop appends an id at each turn and stops at its [break]. *)
Lemma binary64_fifo_loop_prefix (q : float)
    (lots : list binary64_ledger.Transaction.t) :
  Forall binary64_ledger.positive_quantity lots ->
  forall acc,
  exists k acc',
    binary64_ledger.fifo_loop q lots acc = Ok acc'
    /\ binary64_ledger.transactions_used acc'
       = binary64_ledger.transactions_used acc
         ++ map binary64_ledger.Transaction.id (firstn k lots).
Proof.
  induction 1 as [|b rest Hb Hrest IH]; intro acc.
  - exists 0%nat, acc. simpl. rewrite app_nil_r. split; reflexivity.
  - simpl.
    destruct (PrimFloat.leb q (binary64_ledger.quantity_sold acc)).
    + exists 0%nat, acc. simpl. rewrite app_nil_r. split; reflexivity.
    + rewrite binary64_truediv_ok by exact Hb. simpl.
      match goal with
      | |- context [binary64_ledger.fifo_loop q rest ?a] => set (acc1 := a)
      end.
      destruct (IH acc1) as (k & acc' & Hrun & Hused).
      exists (Datatypes.S k), acc'. split; [exact Hrun|].
      rewrite Hused. unfold acc1. simpl. rewrite <- app_assoc. reflexivity.
Qed.

Lemma binary64_fifo_prefix (lots : list binary64_ledger.Transaction.t)
    (sell : binary64_ledger.Transaction.t) :
  Forall binary64_ledger.positive_quantity lots ->
  exists r k,
    binary64_ledger.calculate_realized_pv_fifo lots sell = Ok r
    /\ binary64_ledger.RealizedGainLoss.buy_transactions_used r
       = map binary64_ledger.Transaction.id (firstn k lots).
Proof.
  intro Hpos.
  destruct (binary64_fifo_loop_prefix
              (binary64_ledger.Transaction.quantity sell) lots Hpos
              (binary64_ledger.mk_fifo_acc 0 0 []))
    as (k & acc & Hrun & Hused).
  simpl in Hused.
  unfold binary64_ledger.calculate_realized_pv_fifo. rewrite Hrun.
  cbn [Py.bind].
  destruct (PrimFloat.ltb 0 (binary64_ledger.quantity_sold acc)) eqn:Hs;
    [rewrite binary64_truediv_ok by exact Hs|]; cbn [Py.bind];
    (destruct (PrimFloat.ltb 0 (binary64_ledger.total_buy_cost acc)) eqn:Hc;
     [rewrite binary64_truediv_ok by exact Hc|]); cbn [Py.bind];
    eexists; exists k; (split; [reflexivity|exact Hused]).
Qed.

Lemma binary64_update_loop_keep (lots : list binary64_ledger.Transaction.t)
    (r : float) :
  PrimFloat.leb r 0 = true ->
  forall rem, binary64_ledger.update_loop lots r rem = Ok (rem ++ lots).
Proof.
  intro Hr. induction lots as [|b rest IH]; intro rem; simpl.
  - rewrite app_nil_r. reflexivity.
  - rewrite Hr, IH, <- app_assoc. reflexivity.
Qed.

(** Whatever the rounding, the lots left by a sale are a suffix of the
    lots: once a lot is kept, whole or in part, all the later ones are. *)
Lemma binary64_update_loop_suffix (lots : list binary64_ledger.Transaction.t) :
  Forall binary64_ledger.positive_quantity lots ->
  forall r rem,
  exists n out,
    binary64_ledger.update_loop lots r rem = Ok out
    /\ map binary64_ledger.Transaction.id out
       = map binary64_ledger.Transaction.id rem
         ++ map binary64_ledger.Transaction.id (skipn n lots).
Proof.
  induction 1 as [|b rest Hb Hrest IH]; intros r rem.
  - exists 0%nat, rem. simpl. rewrite app_nil_r. split; reflexivity.
  - simpl. destruct (PrimFloat.leb r 0) eqn:Hr.
    + rewrite binary64_update_loop_keep by exact Hr.
      exists 0%nat, ((rem ++ [b]) ++ rest). split; [reflexivity|].
      rewrite !map_app. simpl. rewrite <- app_assoc. reflexivity.
    + destruct (PrimFloat.ltb r (binary64_ledger.Transaction.quantity b)).
      * rewrite !binary64_truediv_ok by exact Hb. simpl.
        rewrite binary64_update_loop_keep by reflexivity.
        eexists 0%nat, _. split; [reflexivity|].
        rewrite !map_app. simpl. rewrite binary64_id_new, <- app_assoc.
        reflexivity.
      * destruct (IH (r - binary64_ledger.Transaction.quantity b) rem)
          as (n & out & Hrun & Hids).
        exists (Datatypes.S n), out. split; [exact Hrun|exact Hids].
Qed.

Lemma binary64_update_suffix (lots : list binary64_ledger.Transaction.t)
    (q : float) :
  Forall binary64_ledger.positive_quantity lots ->
  exists out n,
    binary64_ledger._update_remaining_buys lots q = Ok out
    /\ map binary64_ledger.Transaction.id out
       = map binary64_ledger.Transaction.id (skipn n lots).
Proof.
  intro Hpos. unfold binary64_ledger._update_remaining_buys.
  destruct (binary64_update_loop_suffix lots Hpos q [])
    as (n & out & Hrun & Hids).
  exists out, n. split; [exact Hrun|exact Hids].
Qed.

(** The prefix used on binary64 need not be the shortest one that holds
    the sale: with lots of 0.2, 0.8 and 5 shares and a sale of 0.9, the
    first two lots hold 1.0 and the loop still takes from the third, the
    running quantity being 0.8999999999999999 after two lots. *)
Lemma binary64_fifo_uses_a_third_lot :
  exists r,
    binary64_ledger.calculate_realized_pv_fifo
      [binary64_example.K1; binary64_example.K2; binary64_example.K3]
      binary64_example.KS
    = Ok r
    /\ binary64_ledger.RealizedGainLoss.buy_transactions_used r
       = [Some 1%Z; Some 2%Z; Some 3%Z]
    /\ PrimFloat.leb
         (binary64_ledger.Transaction.quantity binary64_example.KS)
         (binary64_ledger.held [binary64_example.K1; binary64_example.K2])
       = true.
Proof. vm_compute. eexists. repeat split. Qed.

(** The suffix left on binary64 need not start after the longest prefix
    that the sale covers in exact arithmetic: with lots of 0.1 and 0.2
    share and a sale of 0.3, a lot of less than 1e-16 share is left. *)
Lemma binary64_update_leaves_a_crumb :
  exists lot',
    binary64_ledger._update_remaining_buys
      [binary64_example.F1; binary64_example.F2] 0.3
    = Ok [lot']
    /\ binary64_ledger.Transaction.id lot' = Some 2%Z
    /\ PrimFloat.ltb 0 (binary64_ledger.Transaction.quantity lot') = true
    /\ PrimFloat.ltb (binary64_ledger.Transaction.quantity lot') 1e-16 = true.
Proof. vm_compute. eexists. repeat split. Qed.

(** A sale that [validate_sell_transaction] accepts is sold, on binary64,
    up to a rounding: 0.8999999999999999 for 0.9 out of lots of 0.2 and
    0.8. *)
Lemma binary64_validated_sale_rounds :
  exists r,
    binary64_ledger.validate_sell_transaction
      (binary64_ledger.held [binary64_example.K1; binary64_example.K2])
      (binary64_ledger.Transaction.quantity binary64_example.KS)
    = true
    /\ binary64_ledger.calculate_realized_pv_fifo
         [binary64_example.K1; binary64_example.K2] binary64_example.KS
       = Ok r
    /\ binary64_ledger.RealizedGainLoss.quantity_sold r = 0.8999999999999999
    /\ PrimFloat.ltb
         (PrimFloat.abs
            (binary64_ledger.RealizedGainLoss.quantity_sold r - 0.9))
         1e-15
       = true.
Proof. vm_compute. eexists. repeat split. Qed.

(** The average price of a position times its quantity is, on binary64,
    the amount invested up to a rounding. *)
Lemma binary64_average_times_quantity :
  exists avg_price,
    binary64.truediv 480.6 15 = Ok avg_price
    /\ avg_price * 15 = 480.59999999999997
    /\ PrimFloat.eqb (avg_price * 15) 480.6 = false.
Proof. vm_compute. eexists. repeat split. Qed.

(** C3, on binary64.  Purchases of 0.1, 0.2 and 0.3 share, then a sale of
    0.4, all of one ticker: the lot left holds 0.19999999999999996 share,
    the quantity sold is 0.4 and the two add up to 0.6, while the
    purchases add up to 0.6000000000000001. *)
Lemma C3_binary64_sum_differs :
  exists pvs remaining,
    binary64_ledger.replay
      [binary64_example.F1; binary64_example.F2; binary64_example.F3;
       binary64_example.FS]
    = Ok (pvs, remaining)
    /\ binary64_ledger.calculate_all_realized_pv
         [binary64_example.F1; binary64_example.F2; binary64_example.F3;
          binary64_example.FS]
       = Ok pvs
    /\ binary64_ledger.held remaining = 0.19999999999999996
    /\ binary64_ledger.sold pvs = 0.4
    /\ binary64_ledger.held remaining + binary64_ledger.sold pvs = 0.6
    /\ binary64_ledger.bought
         [binary64_example.F1; binary64_example.F2; binary64_example.F3;
          binary64_example.FS]
       = 0.6000000000000001
    /\ PrimFloat.eqb
         (binary64_ledger.held remaining + binary64_ledger.sold pvs)
         (binary64_ledger.bought
            [binary64_example.F1; binary64_example.F2; binary64_example.F3;
             binary64_example.FS])
       = false.
Proof. vm_compute. do 2 eexists. repeat split. Qed.

(** C8, on binary64.  Lots of 0.1, 0.7 and 3 shares, the last one bought
    for 480.6, and a sale of 0.8: the sale ends inside the third lot,
    which is left with 3 shares and a cost of 480.6000000000001, above
    the cost it had. *)
Lemma C8_binary64_cost_rises :
  exists lot',
    binary64_ledger._update_remaining_buys
      [binary64_example.G1; binary64_example.G2; binary64_example.G3] 0.8
    = Ok [lot']
    /\ binary64_ledger.Transaction.id lot' = Some 3%Z
    /\ binary64_ledger.Transaction.quantity lot' = 3
    /\ binary64_ledger.Transaction.total_cost binary64_example.G3 = 480.6
    /\ binary64_ledger.Transaction.total_cost lot' = 480.6000000000001
    /\ PrimFloat.ltb
         (binary64_ledger.Transaction.total_cost binary64_example.G3)
         (binary64_ledger.Transaction.total_cost lot')
       = true.
Proof. vm_compute. eexists. repeat split. Qed.

(** C10, on binary64.  Lots of 0.2 and 0.8 share and a sale of 0.9: the
    lots hold 1.0, the smaller of the two quantities is 0.9, and the
    [quantity_sold] returned is 0.8999999999999999. *)
Lemma C10_binary64_sold_is_not_min :
  exists r,
    binary64_ledger.calculate_realized_pv_fifo
      [binary64_example.K1; binary64_example.K2] binary64_example.KS
    = Ok r
    /\ binary64_ledger.held [binary64_example.K1; binary64_example.K2] = 1
    /\ binary64.min
         (binary64_ledger.Transaction.quantity binary64_example.KS)
         (binary64_ledger.held [binary64_example.K1; binary64_example.K2])
       = 0.9
    /\ binary64_ledger.RealizedGainLoss.quantity_sold r = 0.8999999999999999
    /\ PrimFloat.eqb
         (binary64_ledger.RealizedGainLoss.quantity_sold r)
         (binary64.min
            (binary64_ledger.Transaction.quantity binary64_example.KS)
            (binary64_ledger.held [binary64_example.K1; binary64_example.K2]))
       = false.
Proof. vm_compute. eexists. repeat split. Qed.

#[local] Close Scope float_scope.

(* ================================================================== *)
(** * The claims *)
(* ================================================================== *)

Import fifo_example.

(** C1.  The worked FIFO example.  With the purchases B1 (10 shares at 150,
    fee 1) and B2 (5 shares at 160, fee 1) in that order and the sale S
    (12 shares at 180, fee 1, proceeds 2159), [calculate_realized_pv_fifo]
    takes the 10 shares of B1 at their cost 1501, then 2 shares of B2: the
    cost consumed is 1501 + 2 * (801 / 5) = 1821.4, the gain is
    2159 - 1821.4 = 337.6 (so within 0.01 of it) and the gain in percent is
    within 0.01 of 18.54.  After the sale 3 shares of B2 stay open. *)
Theorem C1_fifo_worked_example :
  Transaction.total_cost B1 == 1501
  /\ Transaction.total_cost B2 == 801
  /\ Transaction.total_cost S == 12 * 180 - 1
  /\ Transaction.total_cost S == 2159
  /\ exists first both r left,
      fifo_loop 12 [B1] (mk_fifo_acc 0 0 []) = Ok first
      /\ quantity_sold first == 10
      /\ total_buy_cost first == 1501
      /\ fifo_loop 12 [B1; B2] (mk_fifo_acc 0 0 []) = Ok both
      /\ quantity_sold both == 10 + 2
      /\ total_buy_cost both == 1501 + 2 * (801 / 5)
      /\ total_buy_cost both == 1821.4
      /\ calculate_realized_pv_fifo [B1; B2] S = Ok r
      /\ RealizedGainLoss.quantity_sold r == 12
      /\ RealizedGainLoss.buy_transactions_used r
         = [Transaction.id B1; Transaction.id B2]
      /\ RealizedGainLoss.total_gain_loss r == 2159 - 1821.4
      /\ RealizedGainLoss.total_gain_loss r == 337.6
      /\ Qabs (RealizedGainLoss.total_gain_loss r - 337.6) < 0.01
      /\ Qabs (RealizedGainLoss.gain_loss_percent r - 18.54) < 0.01
      /\ _update_remaining_buys [B1; B2] 12 = Ok [left]
      /\ Transaction.id left = Transaction.id B2
      /\ Transaction.quantity left == 5 - 2.
Proof.
  do 4 (split; [reflexivity|]).
  do 4 eexists.
  repeat (split; [reflexivity|]). reflexivity.
Qed.

(** C2, at a tie.  With a gross amount of 100 and a marginal rate of 64/3
    the flat tax and the progressive tax are both 30, and
    [compare_pfu_vs_progressive] answers ['Barème progressif'], not
    ['PFU']. *)
Lemma C2_tie_is_not_pfu :
  exists p r,
    calculate_progressive_tax_dividend 100 (64 / 3) = Ok p
    /\ compare_pfu_vs_progressive 100 (64 / 3) = Ok r
    /\ TaxResult.tax_amount (calculate_pfu_dividend 100) == 30
    /\ TaxResult.tax_amount p == 30
    /\ item r "best_option" = Ok (Str "Barème progressif")
    /\ item r "best_option" <> Ok (Str "PFU").
Proof.
  do 2 eexists. do 5 (split; [reflexivity|]). discriminate.
Qed.

(** C2, as the comparison is written.  For every gross amount other than 0
    and every marginal rate, [compare_pfu_vs_progressive] returns, and when
    the flat tax and the progressive tax are equal its [best_option] is
    ['Barème progressif']. *)
Theorem C2_tie_reports_bareme (g m : Q) :
  ~ g == 0 ->
  exists p r,
    calculate_progressive_tax_dividend g m = Ok p
    /\ compare_pfu_vs_progressive g m = Ok r
    /\ (TaxResult.tax_amount (calculate_pfu_dividend g)
        == TaxResult.tax_amount p ->
        item r "best_option" = Ok (Str "Barème progressif")).
Proof.
  intro Hg.
  destruct (progressive_formula g m Hg) as (p & Hp & Hrest).
  destruct Hrest as (_ & _ & _ & _ & _ & _ & _ & rate & Hrate).
  exists p. unfold compare_pfu_vs_progressive. rewrite Hp. simpl.
  rewrite Hrate. simpl.
  eexists. split; [reflexivity|]. split; [reflexivity|].
  intro Htie. simpl in Htie |- *. unfold Py.gt.
  match goal with |- context [Py.lt 0 ?d] => destruct (lt_spec 0 d) end;
    [lra|reflexivity].
Qed.

Lemma C2_tie_reports_bareme_witness :
  exists p r,
    calculate_progressive_tax_dividend 100 (64 / 3) = Ok p
    /\ compare_pfu_vs_progressive 100 (64 / 3) = Ok r
    /\ (TaxResult.tax_amount (calculate_pfu_dividend 100)
        == TaxResult.tax_amount p ->
        item r "best_option" = Ok (Str "Barème progressif")).
Proof.
  apply (C2_tie_reports_bareme 100 (64 / 3)). discriminate.
Defined.

(** C3.  Conservation of shares, in exact arithmetic.  Take any
    transaction list whose quantities are positive and in which, in
    processing order (by date), the quantity sold so far never exceeds the
    quantity bought so far.  [calculate_all_realized_pv] returns, and on
    exact rationals the quantities of the lots still open plus the
    [quantity_sold] of the gains returned add up to the quantity bought.
    On binary64 the two sides can differ by a rounding
    (0.1, 0.2, 0.3 bought and 0.4 sold, replayed above): the equality is
    one of the algorithm, not of its floating-point sums. *)
Theorem C3_conservation (txs : list Transaction.t) :
  Forall positive_quantity txs ->
  (forall n,
      sales (firstn n (Py.sorted Transaction.transaction_date txs))
      <= bought (firstn n (Py.sorted Transaction.transaction_date txs))) ->
  exists pvs remaining,
    replay txs = Ok (pvs, remaining)
    /\ calculate_all_realized_pv txs = Ok pvs
    /\ held remaining + sold pvs == bought txs.
Proof.
  intros Hpos Hprefix.
  pose proof (sorted_perm Transaction.transaction_date txs) as Hperm.
  assert (Hsorted : Forall positive_quantity
                      (Py.sorted Transaction.transaction_date txs)).
  { eapply Permutation_Forall; [symmetry; exact Hperm | exact Hpos]. }
  assert (Hcov : covered 0 (Py.sorted Transaction.transaction_date txs) = true).
  { apply (covered_prefixes _ Hsorted 0); [lra|].
    intro n. specialize (Hprefix n). lra. }
  destruct (replay_loop_conservation
              (Py.sorted Transaction.transaction_date txs) Hsorted [] [])
    as (pvs & rem & Hrun & Hsum).
  - constructor.
  - revert Hcov. apply covered_eq. pose proof held_nil. lra.
  - exists pvs, rem. unfold calculate_all_realized_pv, replay. rewrite Hrun.
    simpl. repeat split.
    pose proof (bought_perm _ _ Hperm). pose proof held_nil. pose proof sold_nil.
    lra.
Qed.

Lemma C3_conservation_witness :
  exists pvs remaining,
    replay [S; B2; B1] = Ok (pvs, remaining)
    /\ calculate_all_realized_pv [S; B2; B1] = Ok pvs
    /\ held remaining + sold pvs == bought [S; B2; B1].
Proof.
  apply (C3_conservation [S; B2; B1]).
  - repeat constructor.
  - intros [|[|[|[|n]]]]; vm_compute; discriminate.
Defined.

(** C4, at a gross amount of 0.  [calculate_progressive_tax_dividend]
    divides the tax by the gross amount for its effective rate, so on a
    gross amount of 0 it raises [ZeroDivisionError] whatever the marginal
    rate; [calculate_pfu_dividend] returns there, with a tax of 0. *)
Theorem C4_progressive_raises_on_zero_gross :
  (forall m, calculate_progressive_tax_dividend 0 m = Raise ZeroDivisionError)
  /\ TaxResult.tax_amount (calculate_pfu_dividend 0) == 0.
Proof. split; [intro m|]; reflexivity. Qed.

(** C5, without dividends.  When a marginal rate is supplied and the total
    of dividends is 0, [calculate_annual_tax_summary] raises
    [ZeroDivisionError] whatever the gains and losses are: no summary is
    produced. *)
Theorem C5_summary_raises_on_zero_dividends :
  forall g l m,
    calculate_annual_tax_summary 0 g l (Some m) = Raise ZeroDivisionError.
Proof. intros g l m. reflexivity. Qed.

(** C6, between two brackets.  The bounds of the brackets are whole euros,
    so an income per part strictly between the top of one bracket and the
    bottom of the next matches none, and [calculate_tax_bracket] falls
    through to its last line: 45%. *)
Theorem C6_bracket_gap_falls_to_top_rate :
  calculate_tax_bracket 11294.5 1 = Ok (45%Z, "45%")
  /\ calculate_tax_bracket 22589 2 = Ok (45%Z, "45%")
  /\ calculate_tax_bracket 28797.5 1 = Ok (45%Z, "45%")
  /\ calculate_tax_bracket 82341.5 1 = Ok (45%Z, "45%")
  /\ calculate_tax_bracket 177106.5 1 = Ok (45%Z, "45%")
  /\ calculate_tax_bracket 11294 1 = Ok (0%Z, "0%")
  /\ calculate_tax_bracket 11295 1 = Ok (11%Z, "11%").
Proof. repeat split. Qed.

(** C7.  Zero guards.  For lots of positive quantity and any sale,
    [calculate_realized_pv_fifo] returns without raising; its
    [gain_loss_percent] is 0 when the cost consumed is not positive and its
    [average_buy_price] is 0 when the quantity consumed is not positive.
    For any position and price, [Position.update_current_values] returns
    without raising, and sets [unrealized_pnl_percent] to 0 when
    [total_invested] is not positive. *)
Theorem C7_zero_guards (lots : list Transaction.t) (sell : Transaction.t)
    (self : Position.t) (current_price : Q) :
  Forall positive_quantity lots ->
  (exists acc r,
      fifo_loop (Transaction.quantity sell) lots (mk_fifo_acc 0 0 []) = Ok acc
      /\ calculate_realized_pv_fifo lots sell = Ok r
      /\ (total_buy_cost acc <= 0 -> RealizedGainLoss.gain_loss_percent r = 0)
      /\ (quantity_sold acc <= 0 -> RealizedGainLoss.average_buy_price r = 0))
  /\ (exists p,
        Position.update_current_values self current_price = Ok p
        /\ (Position.total_invested self <= 0 ->
            Position.unrealized_pnl_percent p = 0)).
Proof.
  intro Hlots. split.
  - assert (Hrun : exists acc,
               fifo_loop (Transaction.quantity sell) lots (mk_fifo_acc 0 0 [])
               = Ok acc).
    { clear self current_price. generalize (mk_fifo_acc 0 0 []).
      induction Hlots as [|b rest Hb _ IH]; intro acc; simpl; [now eexists|].
      destruct (Py.ge _ _); [now eexists|].
      unfold positive_quantity in Hb. rewrite truediv_ok by lra. simpl.
      apply IH. }
    destruct Hrun as [acc Hacc].
    destruct (fifo_result lots sell acc Hacc) as (r & Hr & _ & _ & Ha & Hp & _).
    exists acc, r. auto.
  - unfold Position.update_current_values, Py.gt.
    destruct (lt_spec 0 (Position.total_invested self)) as [Hpos|Hneg].
    + rewrite truediv_ok by lra. simpl. eexists. split; [reflexivity|].
      simpl. intro. lra.
    + simpl. eexists. split; [reflexivity|]. reflexivity.
Qed.

Lemma C7_zero_guards_witness :
  (exists acc r,
      fifo_loop (Transaction.quantity S) [B1; B2] (mk_fifo_acc 0 0 []) = Ok acc
      /\ calculate_realized_pv_fifo [B1; B2] S = Ok r
      /\ (total_buy_cost acc <= 0 -> RealizedGainLoss.gain_loss_percent r = 0)
      /\ (quantity_sold acc <= 0 -> RealizedGainLoss.average_buy_price r = 0))
  /\ (exists p,
        Position.update_current_values free_position 180 = Ok p
        /\ (Position.total_invested free_position <= 0 ->
            Position.unrealized_pnl_percent p = 0)).
Proof.
  apply (C7_zero_guards [B1; B2] S free_position 180).
  constructor; [reflexivity|]. constructor; [reflexivity|]. constructor.
Defined.

(** C8.  Partial consumption, in exact arithmetic.  When a sale ends inside
    a lot, after lots sold in full, the lot keeps its quantity and its
    cost each minus the same proportion (the part sold over the quantity
    of the lot), so its cost per share is the one it had, and neither went
    up.  After any sale the lots left are lots of the input, each one as
    it was or reduced in that way; a purchase adds a lot at the end and
    leaves the others as they are.  This holds on exact rationals for
    [_update_remaining_buys] on constructed purchases of positive quantity
    and non-negative cost, and for the sale loop of
    [_calculate_position_cost] (where a lot is sold in part only if it
    exceeds what is left to sell by more than 1e-9) on lots of positive
    quantity and non-negative cost; the last part states it of
    [_calculate_position_cost] itself, run on purchases followed by the
    sale.  On binary64 the cost of the lot left can exceed, by a rounding,
    the cost it had (lots 0.1, 0.7 and 3, sale of 0.8, replayed above). *)
Theorem C8_partial_sale_keeps_cost_per_share :
  (forall pre lot rest r,
      Forall positive_quantity pre -> open_lot lot ->
      held pre < r -> r < held pre + Transaction.quantity lot ->
      exists lot',
        _update_remaining_buys (pre ++ lot :: rest) r = Ok (lot' :: rest)
        /\ Transaction.quantity lot'
           == Transaction.quantity lot
              - Transaction.quantity lot
                * ((r - held pre) / Transaction.quantity lot)
        /\ Transaction.total_cost lot'
           == Transaction.total_cost lot
              - Transaction.total_cost lot
                * ((r - held pre) / Transaction.quantity lot)
        /\ Transaction.quantity lot'
           == Transaction.quantity lot - (r - held pre)
        /\ Transaction.total_cost lot' / Transaction.quantity lot'
           == Transaction.total_cost lot / Transaction.quantity lot
        /\ Transaction.quantity lot' <= Transaction.quantity lot
        /\ Transaction.total_cost lot' <= Transaction.total_cost lot)
  /\ (forall lots r,
        Forall open_lot lots ->
        exists out k,
          _update_remaining_buys lots r = Ok out
          /\ Forall2 reduced_tx (skipn k lots) out)
  /\ (forall tx pvs lots,
        Transaction.transaction_type tx = ACHAT ->
        replay_loop [tx] pvs lots = Ok (pvs, lots ++ [tx]))
  /\ (forall pre lot rest qs,
        Forall positive_lot pre -> sound_lot lot ->
        lot_held pre < qs -> qs + 1e-9 < lot_held pre + Lot.quantity lot ->
        exists lot',
          sell_loop qs (pre ++ lot :: rest) = Ok (lot' :: rest)
          /\ Lot.quantity lot'
             == Lot.quantity lot
                - Lot.quantity lot * ((qs - lot_held pre) / Lot.quantity lot)
          /\ Lot.cost lot'
             == Lot.cost lot
                - Lot.cost lot * ((qs - lot_held pre) / Lot.quantity lot)
          /\ Lot.quantity lot' == Lot.quantity lot - (qs - lot_held pre)
          /\ Lot.cost lot' / Lot.quantity lot'
             == Lot.cost lot / Lot.quantity lot
          /\ Lot.quantity lot' <= Lot.quantity lot
          /\ Lot.cost lot' <= Lot.cost lot)
  /\ (forall lots qs,
        Forall sound_lot lots ->
        exists out k,
          sell_loop qs lots = Ok out
          /\ Forall2 reduced_lot (skipn k lots) out)
  /\ (forall tx lots,
        Transaction.transaction_type tx = ACHAT ->
        position_loop [tx] lots
        = Ok (lots ++ [Lot.mk (Transaction.quantity tx)
                              (Transaction.total_cost tx)]))
  /\ (forall pre lot rest sale,
        Forall (fun tx => Transaction.transaction_type tx = ACHAT)
               (pre ++ lot :: rest) ->
        Forall positive_quantity pre ->
        positive_quantity lot -> nonneg_cost lot ->
        Transaction.transaction_type sale = VENTE ->
        held pre < Transaction.quantity sale ->
        Transaction.quantity sale + 1e-9
        < held pre + Transaction.quantity lot ->
        exists lot',
          remaining_lots ((pre ++ lot :: rest) ++ [sale])
          = Ok (lot' :: map lot_of rest)
          /\ _calculate_position_cost ((pre ++ lot :: rest) ++ [sale])
             = Ok (lot_held (lot' :: map lot_of rest),
                   lot_cost (lot' :: map lot_of rest))
          /\ Lot.quantity lot'
             == Transaction.quantity lot
                - (Transaction.quantity sale - held pre)
          /\ Lot.cost lot'
             == Transaction.total_cost lot
                - Transaction.total_cost lot
                  * ((Transaction.quantity sale - held pre)
                     / Transaction.quantity lot)
          /\ Lot.cost lot' / Lot.quantity lot'
             == Transaction.total_cost lot / Transaction.quantity lot
          /\ Lot.quantity lot' <= Transaction.quantity lot
          /\ Lot.cost lot' <= Transaction.total_cost lot).
Proof.
  repeat apply conj.
  - intros pre lot rest r Hpre Hlot Hlo Hhi.
    destruct (update_partial pre Hpre lot rest r Hlot Hlo Hhi)
      as (lot' & Hrun & Hq & Hc & Hred).
    destruct Hred as (t & _ & _ & _ & _ & Hcps & Hqle & Hcle).
    destruct Hlot as (Hpos & _). unfold positive_quantity in Hpos.
    exists lot'. repeat split; auto.
    rewrite Hq. field. lra.
  - intros lots r Hlots. apply update_never_grows. exact Hlots.
  - intros tx pvs lots Htx. simpl. rewrite Htx. reflexivity.
  - intros pre lot rest qs Hpre Hlot Hlo Hhi.
    destruct (sell_loop_partial pre Hpre lot rest qs Hlot Hlo Hhi)
      as (lot' & Hrun & Hq & Hc & Hred).
    destruct Hred as (t & _ & _ & _ & _ & Hcps & Hqle & Hcle).
    destruct Hlot as (Hpos & _).
    exists lot'. repeat split; auto.
    rewrite Hq. field. lra.
  - intros lots qs Hlots.
    destruct (sell_loop_total lots qs) as [out Hrun].
    destruct (sell_loop_sound lots Hlots qs out Hrun) as (_ & k & HF).
    exists out, k. auto.
  - intros tx lots Htx. simpl. rewrite Htx. reflexivity.
  - intros pre lot rest sale Hbuy Hpre Hlot Hcost Hsale Hlo Hhi.
    assert (Hpre' : Forall positive_lot (map lot_of pre)).
    { apply Forall_map. revert Hpre. apply Forall_impl. intros a Ha. exact Ha. }
    assert (Hsound : sound_lot (lot_of lot)) by (split; assumption).
    destruct (sell_loop_partial (map lot_of pre) Hpre' (lot_of lot)
                (map lot_of rest) (Transaction.quantity sale) Hsound)
      as (lot' & Hrun & Hq & Hc & Hred).
    { rewrite lot_held_map. exact Hlo. }
    { rewrite lot_held_map. exact Hhi. }
    rewrite lot_held_map in Hq, Hc.
    destruct Hred as (t & _ & _ & _ & _ & Hcps & Hqle & Hcle).
    assert (Hlots : remaining_lots ((pre ++ lot :: rest) ++ [sale])
                    = Ok (lot' :: map lot_of rest)).
    { unfold remaining_lots.
      rewrite position_loop_app, position_loop_purchases by exact Hbuy.
      simpl. rewrite Hsale, map_app. simpl. rewrite Hrun. reflexivity. }
    exists lot'. split; [exact Hlots|]. split.
    { unfold _calculate_position_cost. rewrite Hlots. reflexivity. }
    simpl in Hq, Hc, Hcps, Hqle, Hcle. auto 10.
Qed.

Lemma C8_partial_sale_keeps_cost_per_share_witness :
  (exists lot',
      _update_remaining_buys [B1; B2] 12 = Ok [lot']
      /\ Transaction.quantity lot' == 3
      /\ Transaction.total_cost lot' / Transaction.quantity lot'
         == Transaction.total_cost B2 / Transaction.quantity B2)
  /\ (exists out k,
        _update_remaining_buys [B1; B2] 12 = Ok out
        /\ Forall2 reduced_tx (skipn k [B1; B2]) out)
  /\ (exists lot',
        sell_loop 12 [Lot.mk 10 1501; Lot.mk 5 801] = Ok [lot']
        /\ Lot.quantity lot' == 3
        /\ Lot.cost lot' / Lot.quantity lot' == 801 / 5)
  /\ (exists out k,
        sell_loop 12 [Lot.mk 10 1501; Lot.mk 5 801] = Ok out
        /\ Forall2 reduced_lot (skipn k [Lot.mk 10 1501; Lot.mk 5 801]) out)
  /\ (exists lot',
        remaining_lots (([B1] ++ B2 :: []) ++ [S]) = Ok (lot' :: map lot_of [])
        /\ _calculate_position_cost (([B1] ++ B2 :: []) ++ [S])
           = Ok (lot_held (lot' :: map lot_of []),
                 lot_cost (lot' :: map lot_of []))
        /\ Lot.quantity lot' == 3
        /\ Lot.cost lot' / Lot.quantity lot'
           == Transaction.total_cost B2 / Transaction.quantity B2).
Proof.
  destruct C8_partial_sale_keeps_cost_per_share
    as (H1 & H2 & _ & H3 & H4 & _ & H5).
  assert (HB2 : open_lot B2).
  { split; [reflexivity | split; [intro H; discriminate H | discriminate]]. }
  assert (HB1 : open_lot B1).
  { split; [reflexivity | split; [intro H; discriminate H | discriminate]]. }
  split; [|split; [|split; [|split]]].
  - destruct (H1 [B1] B2 [] 12) as (lot' & Hrun & _ & _ & Hq & Hcps & _).
    + repeat constructor.
    + exact HB2.
    + reflexivity.
    + reflexivity.
    + exists lot'. split; [exact Hrun|]. split; [|exact Hcps].
      rewrite Hq. reflexivity.
  - apply (H2 [B1; B2] 12).
    constructor; [exact HB1|]. constructor; [exact HB2|]. constructor.
  - destruct (H3 [Lot.mk 10 1501] (Lot.mk 5 801) [] 12)
      as (lot' & Hrun & _ & _ & Hq & Hcps & _).
    + repeat constructor.
    + split; [reflexivity | discriminate].
    + reflexivity.
    + reflexivity.
    + exists lot'. split; [exact Hrun|]. split; [|exact Hcps].
      rewrite Hq. reflexivity.
  - apply (H4 [Lot.mk 10 1501; Lot.mk 5 801] 12).
    repeat constructor; discriminate.
  - destruct (H5 [B1] B2 [] S)
      as (lot' & Hrun & Hpc & Hq & _ & Hcps & _).
    + repeat constructor.
    + repeat constructor.
    + reflexivity.
    + discriminate.
    + reflexivity.
    + reflexivity.
    + reflexivity.
    + exists lot'. split; [exact Hrun|]. split; [exact Hpc|].
      split; [|exact Hcps]. rewrite Hq. reflexivity.
Defined.



(** C10.  Quantity sold, in exact arithmetic.  For open lots of positive
    quantity and a sale of non-negative quantity,
    [calculate_realized_pv_fifo] returns without raising and, on exact
    rationals, its [quantity_sold] is the smaller of the quantity of the
    sale and the quantity held in the lots: a shortfall raises nothing.
    On binary64 the running sum can miss that minimum by a rounding
    (lots of 0.2 and 0.8, sale of 0.9, replayed above).
    With no lot at all, and any sale, the result has [quantity_sold],
    [average_buy_price] and [gain_loss_percent] equal to 0 and a
    [total_gain_loss] equal to the [total_cost] of the sale. *)
Theorem C10_quantity_sold_is_min (lots : list Transaction.t)
    (sell : Transaction.t) :
  Forall positive_quantity lots ->
  0 <= Transaction.quantity sell ->
  (exists r,
      calculate_realized_pv_fifo lots sell = Ok r
      /\ RealizedGainLoss.quantity_sold r
         == Py.min (Transaction.quantity sell) (held lots))
  /\ (forall sell', exists r0,
        calculate_realized_pv_fifo [] sell' = Ok r0
        /\ RealizedGainLoss.quantity_sold r0 == 0
        /\ RealizedGainLoss.average_buy_price r0 == 0
        /\ RealizedGainLoss.gain_loss_percent r0 == 0
        /\ RealizedGainLoss.total_gain_loss r0 == Transaction.total_cost sell').
Proof.
  intros Hlots Hsell. split.
  - destruct (fifo_loop_sold (Transaction.quantity sell) lots Hlots
                (mk_fifo_acc 0 0 [])) as (acc & Hrun & H1 & H2).
    { simpl. exact Hsell. }
    destruct (fifo_result lots sell acc Hrun) as (r & Hr & Hq & _).
    exists r. split; [exact Hr|]. rewrite Hq. simpl in H1, H2.
    destruct (min_spec (Transaction.quantity sell) (held lots))
      as [[Hm ->]|[Hm ->]].
    + rewrite H2; lra.
    + rewrite H1; lra.
  - intro sell'. eexists. split; [reflexivity|]. simpl.
    repeat split; try reflexivity. lra.
Qed.

Lemma C10_quantity_sold_is_min_witness :
  (exists r,
      calculate_realized_pv_fifo [B1; B2] S20 = Ok r
      /\ RealizedGainLoss.quantity_sold r
         == Py.min (Transaction.quantity S20) (held [B1; B2]))
  /\ (forall sell', exists r0,
        calculate_realized_pv_fifo [] sell' = Ok r0
        /\ RealizedGainLoss.quantity_sold r0 == 0
        /\ RealizedGainLoss.average_buy_price r0 == 0
        /\ RealizedGainLoss.gain_loss_percent r0 == 0
        /\ RealizedGainLoss.total_gain_loss r0 == Transaction.total_cost sell').
Proof.
  apply (C10_quantity_sold_is_min [B1; B2] S20).
  - repeat constructor.
  - discriminate.
Defined.

(* ================================================================== *)
(** * Further properties of the code *)
(* ================================================================== *)

(** The statements below cover functions that the previous section does
    not reach, and the way the functions compose.  As before, amounts are
    exact rationals. *)

Import portfolio.
Import portfolio_example.

(* ================================================================== *)
(** * Accounting of the realized gains *)
(* ================================================================== *)

Lemma cost_of_nil : cost_of [] == 0.
Proof. reflexivity. Qed.

Lemma cost_of_cons (tx : Transaction.t) (lots : list Transaction.t) :
  cost_of (tx :: lots) == Transaction.total_cost tx + cost_of lots.
Proof. apply sum_cons. Qed.

Lemma cost_of_app (l1 l2 : list Transaction.t) :
  cost_of (l1 ++ l2) == cost_of l1 + cost_of l2.
Proof. unfold cost_of. rewrite map_app. apply sum_app. Qed.

Lemma filter_sum_perm {A : Type} (f : A -> Q) (p : A -> bool) (xs ys : list A) :
  Permutation xs ys ->
  Py.sum (map f (filter p xs)) == Py.sum (map f (filter p ys)).
Proof.
  intro H. apply sum_perm, Permutation_map.
  induction H as [|x xs' ys' _ IH|x y xs'|xs' ys' zs _ IH1 _ IH2]; simpl.
  - reflexivity.
  - destruct (p x); [constructor|]; exact IH.
  - destruct (p x), (p y); try reflexivity. apply perm_swap.
  - etransitivity; eassumption.
Qed.

Lemma id_new tk cn ty q p d c f n i ca ua :
  Transaction.id (Transaction.new tk cn ty q p d c f n i ca ua) = i.
Proof.
  unfold Transaction.new, Transaction.post_init. simpl.
  destruct (Py.eq c 0); reflexivity.
Qed.

Lemma fifo_loop_stop (q : Q) (lots : list Transaction.t) (acc : fifo_acc) :
  q <= quantity_sold acc -> fifo_loop q lots acc = Ok acc.
Proof.
  intro H. destruct lots as [|c rest]; [reflexivity|]. simpl. unfold Py.ge.
  destruct (le_spec q (quantity_sold acc)); [reflexivity|contradiction].
Qed.

(** One sale seen by both loops: what [fifo_loop] counts as cost of the
    shares sold is what [update_loop] takes out of the lots. *)
Lemma fifo_update_cost (q : Q) (lots : list Transaction.t) :
  Forall positive_quantity lots -> Forall initialised lots ->
  forall acc r rem,
    r == q - quantity_sold acc ->
    Forall positive_quantity rem -> Forall initialised rem ->
    exists acc' out,
      fifo_loop q lots acc = Ok acc'
      /\ update_loop lots r rem = Ok out
      /\ Forall positive_quantity out
      /\ Forall initialised out
      /\ total_buy_cost acc' + cost_of out
         == total_buy_cost acc + cost_of rem + cost_of lots.
Proof.
  intros Hpos; induction Hpos as [|b rest Hb Hrest IH];
    intros Hinit acc r rem Hr Hprem Hirem.
  - exists acc, rem. simpl. repeat split; auto.
    pose proof cost_of_nil. lra.
  - inversion Hinit as [|? ? Hib Hirest]; subst.
    unfold positive_quantity in Hb.
    pose proof (cost_of_cons b rest) as Hcc.
    simpl. unfold Py.ge.
    destruct (le_spec q (quantity_sold acc)) as [Hdone|Hmore].
    + destruct (le_spec r 0) as [_|Hn]; [|lra].
      rewrite update_loop_keep by lra.
      exists acc, ((rem ++ [b]) ++ rest). repeat split.
      * apply Forall_app; split; [apply Forall_app; split; auto|auto].
      * apply Forall_app; split; [apply Forall_app; split; auto|auto].
      * rewrite !cost_of_app. pose proof (cost_of_cons b []).
        pose proof cost_of_nil. lra.
    + destruct (le_spec r 0) as [Hn|_]; [lra|].
      rewrite truediv_ok by lra. simpl.
      unfold Py.gt.
      destruct (lt_spec r (Transaction.quantity b)) as [Hlt|Hge].
      * rewrite !truediv_ok by lra. simpl.
        rewrite update_loop_keep by lra.
        destruct (min_spec (Transaction.quantity b) (q - quantity_sold acc))
          as [[_ Hmin]|[Hle _]]; [|lra].
        rewrite Hmin.
        match goal with
        | |- context [(rem ++ [?t]) ++ rest] => set (lot' := t)
        end.
        assert (Hq' : Transaction.quantity lot' = Transaction.quantity b - r).
        { unfold lot'. apply quantity_new. }
        assert (Hc' : Transaction.total_cost lot'
                      == Transaction.total_cost b * (Transaction.quantity b - r)
                         / Transaction.quantity b).
        { unfold lot'. apply total_cost_new; auto; lra. }
        assert (Hi' : initialised lot').
        { unfold lot', Transaction.new. apply post_init_initialised. }
        match goal with
        | |- context [fifo_loop q rest ?a] => set (acc1 := a)
        end.
        assert (Hstop : fifo_loop q rest acc1 = Ok acc1).
        { apply fifo_loop_stop. unfold acc1. simpl. lra. }
        rewrite Hstop.
        exists acc1, ((rem ++ [lot']) ++ rest). repeat split.
        -- apply Forall_app; split; [apply Forall_app; split; auto|auto].
           constructor; [|constructor]. unfold positive_quantity.
           rewrite Hq'. lra.
        -- apply Forall_app; split; [apply Forall_app; split; auto|auto].
        -- rewrite !cost_of_app. pose proof (cost_of_cons lot' []).
           pose proof cost_of_nil. unfold acc1. simpl.
           assert (Hid : (q - quantity_sold acc)
                           * (Transaction.total_cost b / Transaction.quantity b)
                         + Transaction.total_cost b
                           * (Transaction.quantity b - r)
                           / Transaction.quantity b
                         == Transaction.total_cost b).
           { rewrite <- Hr. field. lra. }
           lra.
      * destruct (min_spec (Transaction.quantity b) (q - quantity_sold acc))
          as [[Hlt' _]|[_ Hmin]]; [lra|].
        rewrite Hmin.
        match goal with
        | |- context [fifo_loop q rest ?a] => set (acc1 := a)
        end.
        destruct (IH Hirest acc1 (r - Transaction.quantity b) rem)
          as (acc' & out & Hf & Hu & Hp & Hi & Hcost); auto.
        { unfold acc1. simpl. lra. }
        exists acc', out. repeat split; auto.
        rewrite Hcost. unfold acc1. simpl.
        assert (Hid : Transaction.quantity b
                      * (Transaction.total_cost b / Transaction.quantity b)
                      == Transaction.total_cost b) by (field; lra).
        lra.
Qed.

Lemma purchases_cost_cons (tx : Transaction.t) (txs : list Transaction.t) :
  purchases_cost (tx :: txs)
  == (if is_achat (Transaction.transaction_type tx)
      then Transaction.total_cost tx else 0) + purchases_cost txs.
Proof.
  unfold purchases_cost. simpl.
  destruct (is_achat (Transaction.transaction_type tx)); simpl.
  - apply sum_cons.
  - lra.
Qed.

Lemma proceeds_cons (tx : Transaction.t) (txs : list Transaction.t) :
  proceeds (tx :: txs)
  == (if is_achat (Transaction.transaction_type tx)
      then 0 else Transaction.total_cost tx) + proceeds txs.
Proof.
  unfold proceeds. simpl.
  destruct (is_achat (Transaction.transaction_type tx)); simpl.
  - lra.
  - apply sum_cons.
Qed.

Lemma realized_snoc (pvs : list RealizedGainLoss.t) (pv : RealizedGainLoss.t) :
  realized (pvs ++ [pv]) == realized pvs + RealizedGainLoss.total_gain_loss pv.
Proof.
  unfold realized. rewrite map_app, sum_app. simpl.
  rewrite sum_cons. assert (Hnil : Py.sum [] == 0) by reflexivity. lra.
Qed.

Lemma replay_loop_cost (txs : list Transaction.t) :
  Forall positive_quantity txs -> Forall initialised txs ->
  forall pvs rem,
    Forall positive_quantity rem -> Forall initialised rem ->
    exists pvs' rem',
      replay_loop txs pvs rem = Ok (pvs', rem')
      /\ realized pvs' + purchases_cost txs + cost_of rem
         == realized pvs + proceeds txs + cost_of rem'.
Proof.
  intros Hpos; induction Hpos as [|tx rest Htx Hrest IH];
    intros Hinit pvs rem Hprem Hirem.
  - exists pvs, rem. split; [reflexivity|].
    unfold purchases_cost, proceeds. simpl.
    assert (Hnil : Py.sum [] == 0) by reflexivity. lra.
  - inversion Hinit as [|? ? Hitx Hirest]; subst.
    pose proof (purchases_cost_cons tx rest) as Hpc.
    pose proof (proceeds_cons tx rest) as Hpr.
    simpl. destruct (Transaction.transaction_type tx) eqn:Ety; simpl in Hpc, Hpr.
    + destruct (IH Hirest pvs (rem ++ [tx])) as (pvs' & rem' & Hrun & Heq).
      { apply Forall_app; split; auto. }
      { apply Forall_app; split; auto. }
      exists pvs', rem'. split; [exact Hrun|].
      rewrite cost_of_app in Heq. pose proof (cost_of_cons tx []).
      pose proof cost_of_nil. lra.
    + destruct (fifo_update_cost (Transaction.quantity tx) rem Hprem Hirem
                  (mk_fifo_acc 0 0 []) (Transaction.quantity tx) [])
        as (acc & out & Hf & Hu & Hp & Hi & Hcost); auto.
      { simpl. lra. }
      destruct (fifo_result rem tx acc Hf) as (r & Hr & _ & Hgain & _).
      rewrite Hr. simpl. unfold _update_remaining_buys. rewrite Hu. simpl.
      destruct (IH Hirest (pvs ++ [r]) out Hp Hi) as (pvs' & rem' & Hrun & Heq).
      exists pvs', rem'. split; [exact Hrun|].
      pose proof (realized_snoc pvs r) as Hsn. rewrite Hgain in Hsn.
      simpl in Hcost. pose proof cost_of_nil. lra.
Qed.

(** X1.  Accounting of the realized gains.  For transactions of positive
    quantity that went through [__post_init__], [calculate_all_realized_pv]
    returns, and the gains it reports add up to the proceeds of the sales
    minus the cost of the shares that left the lots: the cost of all
    purchases less the cost still carried by the lots that remain open.
    No cost is lost or counted twice between [calculate_realized_pv_fifo]
    and [_update_remaining_buys], also when a sale exceeds the holding. *)
Theorem X1_realized_gains_account (txs : list Transaction.t) :
  Forall positive_quantity txs -> Forall initialised txs ->
  exists pvs remaining,
    replay txs = Ok (pvs, remaining)
    /\ calculate_all_realized_pv txs = Ok pvs
    /\ realized pvs == proceeds txs - (purchases_cost txs - cost_of remaining).
Proof.
  intros Hpos Hinit. unfold calculate_all_realized_pv, replay.
  pose proof (sorted_perm Transaction.transaction_date txs) as Hperm.
  destruct (replay_loop_cost (Py.sorted Transaction.transaction_date txs))
    with (pvs := @nil RealizedGainLoss.t) (rem := @nil Transaction.t)
    as (pvs & rem & Hrun & Heq); auto.
  - eapply Permutation_Forall; [symmetry; exact Hperm|exact Hpos].
  - eapply Permutation_Forall; [symmetry; exact Hperm|exact Hinit].
  - exists pvs, rem. rewrite Hrun. repeat split.
    assert (H1 : purchases_cost (Py.sorted Transaction.transaction_date txs)
                 == purchases_cost txs)
      by (apply filter_sum_perm; exact Hperm).
    assert (H2 : proceeds (Py.sorted Transaction.transaction_date txs)
                 == proceeds txs)
      by (apply filter_sum_perm; exact Hperm).
    assert (H3 : realized [] == 0) by reflexivity.
    pose proof cost_of_nil. lra.
Qed.

Lemma X1_realized_gains_account_witness :
  exists pvs remaining,
    replay [S; B2; B1] = Ok (pvs, remaining)
    /\ calculate_all_realized_pv [S; B2; B1] = Ok pvs
    /\ realized pvs
       == proceeds [S; B2; B1]
          - (purchases_cost [S; B2; B1] - cost_of remaining).
Proof.
  apply (X1_realized_gains_account [S; B2; B1]).
  - repeat constructor.
  - repeat apply Forall_cons; try apply Forall_nil;
      apply post_init_initialised.
Defined.

(* ================================================================== *)
(** * First in, first out *)
(* ================================================================== *)

Lemma Forall_firstn {A : Type} (P : A -> Prop) (l : list A) :
  Forall P l -> forall n, Forall P (firstn n l).
Proof.
  induction 1 as [|x l Hx Hl IH]; intros [|n]; simpl; constructor; auto.
Qed.

(** The lots used by a sale are a prefix of the open lots: the shortest
    one that covers the sale, or all of them. *)
Lemma fifo_loop_prefix (q : Q) (lots : list Transaction.t) :
  Forall positive_quantity lots ->
  forall acc,
  exists k acc',
    fifo_loop q lots acc = Ok acc'
    /\ transactions_used acc'
       = transactions_used acc ++ map Transaction.id (firstn k lots)
    /\ (forall j, (j < k)%nat -> quantity_sold acc + held (firstn j lots) < q)
    /\ ((k < List.length lots)%nat ->
        q <= quantity_sold acc + held (firstn k lots)).
Proof.
  induction 1 as [|b rest Hb Hrest IH]; intro acc.
  - exists 0%nat, acc. simpl. rewrite app_nil_r.
    repeat split; auto; intros; lia.
  - unfold positive_quantity in Hb. simpl. unfold Py.ge.
    destruct (le_spec q (quantity_sold acc)) as [Hdone|Hmore].
    + exists 0%nat, acc. simpl. rewrite app_nil_r.
      pose proof held_nil. repeat split; auto; intros; try lia; try lra.
    + rewrite truediv_ok by lra. simpl.
      match goal with
      | |- context [fifo_loop q rest ?a] => set (acc1 := a)
      end.
      destruct (IH acc1) as (k & acc' & Hrun & Hused & Hbefore & Hafter).
      exists (Datatypes.S k), acc'. split; [exact Hrun|].
      assert (Hsold : quantity_sold acc1
                      = quantity_sold acc
                        + Py.min (Transaction.quantity b)
                                 (q - quantity_sold acc)) by reflexivity.
      split; [|split].
      * rewrite Hused. unfold acc1. simpl. rewrite <- app_assoc. reflexivity.
      * intros j Hj. destruct j as [|j].
        -- simpl. pose proof held_nil. lra.
        -- simpl. pose proof (held_cons b (firstn j rest)) as Hc.
           assert (Hjk : (j < k)%nat) by lia.
           pose proof (Hbefore j Hjk) as Hlt. rewrite Hsold in Hlt.
           assert (Hnn : 0 <= held (firstn j rest)).
           { apply held_nonneg, Forall_firstn, Hrest. }
           destruct (min_spec (Transaction.quantity b) (q - quantity_sold acc))
             as [[_ Hmin]|[_ Hmin]]; rewrite Hmin in Hlt; lra.
      * intro Hk. simpl in Hk.
        assert (Hk' : (k < List.length rest)%nat) by lia.
        pose proof (Hafter Hk') as Hle. rewrite Hsold in Hle.
        simpl. pose proof (held_cons b (firstn k rest)) as Hc.
        destruct (min_spec (Transaction.quantity b) (q - quantity_sold acc))
          as [[Hlt Hmin]|[_ Hmin]]; rewrite Hmin in Hle; lra.
Qed.

(** X2.  The oldest lots are sold first.  For lots of positive quantity,
    [calculate_realized_pv_fifo] returns and its [buy_transactions_used]
    are the ids of a prefix of the lots, in their order; this holds on
    binary64 as on exact rationals.  On exact rationals the prefix is the
    shortest one that holds the quantity of the sale, or all the lots when
    they do not hold it; on binary64 the rounding of the running quantity
    can make it one lot longer (see [binary64_fifo_uses_a_third_lot]). *)
Theorem X2_fifo_uses_oldest_lots (lots : list Transaction.t)
    (sell : Transaction.t) (lots64 : list binary64_ledger.Transaction.t)
    (sell64 : binary64_ledger.Transaction.t) :
  Forall positive_quantity lots ->
  Forall binary64_ledger.positive_quantity lots64 ->
  (exists r k,
      calculate_realized_pv_fifo lots sell = Ok r
      /\ RealizedGainLoss.buy_transactions_used r
         = map Transaction.id (firstn k lots)
      /\ (forall j, (j < k)%nat ->
            held (firstn j lots) < Transaction.quantity sell)
      /\ ((k < List.length lots)%nat ->
          Transaction.quantity sell <= held (firstn k lots)))
  /\ (exists r k,
        binary64_ledger.calculate_realized_pv_fifo lots64 sell64 = Ok r
        /\ binary64_ledger.RealizedGainLoss.buy_transactions_used r
           = map binary64_ledger.Transaction.id (firstn k lots64)).
Proof.
  intros Hpos Hpos64. split; [|apply binary64_fifo_prefix; exact Hpos64].
  destruct (fifo_loop_prefix (Transaction.quantity sell) lots Hpos
              (mk_fifo_acc 0 0 []))
    as (k & acc & Hrun & Hused & Hbefore & Hafter).
  simpl in Hused, Hbefore, Hafter.
  unfold calculate_realized_pv_fifo. rewrite Hrun. simpl.
  assert (Havg : exists a,
             (if Py.gt (quantity_sold acc) 0
              then Py.truediv (total_buy_cost acc) (quantity_sold acc)
              else Ok 0) = Ok a).
  { unfold Py.gt. destruct (lt_spec 0 (quantity_sold acc)).
    - rewrite truediv_ok by lra. eauto.
    - eauto. }
  destruct Havg as (a & Ha). rewrite Ha. simpl.
  assert (Hpct : exists p,
             (if Py.gt (total_buy_cost acc) 0
              then r <- Py.truediv
                          (Transaction.total_cost sell - total_buy_cost acc)
                          (total_buy_cost acc) ;; Ok (r * 100)
              else Ok 0) = Ok p).
  { unfold Py.gt. destruct (lt_spec 0 (total_buy_cost acc)).
    - rewrite truediv_ok by lra. simpl. eauto.
    - eauto. }
  destruct Hpct as (p & Hp). rewrite Hp. simpl.
  eexists. exists k. split; [reflexivity|]. simpl.
  split; [exact Hused|]. split.
  - intros j Hj. pose proof (Hbefore j Hj). lra.
  - intro Hk. pose proof (Hafter Hk). lra.
Qed.

Lemma X2_fifo_uses_oldest_lots_witness :
  (exists r k,
      calculate_realized_pv_fifo [B1; B2] S = Ok r
      /\ RealizedGainLoss.buy_transactions_used r
         = map Transaction.id (firstn k [B1; B2])
      /\ (forall j, (j < k)%nat ->
            held (firstn j [B1; B2]) < Transaction.quantity S)
      /\ ((k < List.length [B1; B2])%nat ->
          Transaction.quantity S <= held (firstn k [B1; B2])))
  /\ (exists r k,
        binary64_ledger.calculate_realized_pv_fifo
          [binary64_example.K1; binary64_example.K2; binary64_example.K3]
          binary64_example.KS
        = Ok r
        /\ binary64_ledger.RealizedGainLoss.buy_transactions_used r
           = map binary64_ledger.Transaction.id
                 (firstn k [binary64_example.K1; binary64_example.K2;
                            binary64_example.K3])).
Proof.
  apply (X2_fifo_uses_oldest_lots [B1; B2] S
           [binary64_example.K1; binary64_example.K2; binary64_example.K3]
           binary64_example.KS).
  - repeat constructor.
  - repeat constructor.
Defined.

(** The lots left by a sale are a suffix of the open lots: those after the
    longest prefix that the sale covers in full. *)
Lemma update_loop_suffix (lots : list Transaction.t) :
  Forall positive_quantity lots ->
  forall r rem,
  exists n out,
    update_loop lots r rem = Ok out
    /\ map Transaction.id out
       = map Transaction.id rem ++ map Transaction.id (skipn n lots)
    /\ (n <= List.length lots)%nat
    /\ (0 <= r -> held (firstn n lots) <= r)
    /\ ((n < List.length lots)%nat -> r < held (firstn (Datatypes.S n) lots)).
Proof.
  induction 1 as [|b rest Hb Hrest IH]; intros r rem.
  - exists 0%nat, rem. simpl. rewrite app_nil_r. pose proof held_nil.
    repeat split; auto; intros; try lia; try lra.
  - unfold positive_quantity in Hb. simpl.
    pose proof (held_cons b []) as Hone. pose proof held_nil as Hnil.
    destruct (le_spec r 0) as [Hr|Hr].
    + rewrite update_loop_keep by exact Hr.
      exists 0%nat, ((rem ++ [b]) ++ rest). simpl.
      split; [reflexivity|]. split.
      { rewrite !map_app. simpl. rewrite <- app_assoc. reflexivity. }
      repeat split; intros; try lia; try lra.
    + unfold Py.gt.
      destruct (lt_spec r (Transaction.quantity b)) as [Hlt|Hge].
      * rewrite !truediv_ok by lra. simpl.
        rewrite update_loop_keep by lra.
        eexists 0%nat, _. split; [reflexivity|]. split.
        { rewrite !map_app. simpl. rewrite id_new, <- app_assoc. reflexivity. }
        simpl. repeat split; intros; try lia; try lra.
      * destruct (IH (r - Transaction.quantity b) rem)
          as (n & out & Hrun & Hids & Hn & Hlo & Hhi).
        exists (Datatypes.S n), out. split; [exact Hrun|].
        split; [exact Hids|]. split; [simpl; lia|]. split.
        -- intros _. simpl. pose proof (held_cons b (firstn n rest)).
           assert (0 <= r - Transaction.quantity b) by lra.
           pose proof (Hlo H0). lra.
        -- intro Hk. simpl in Hk.
           assert (Hk' : (n < List.length rest)%nat) by lia.
           pose proof (Hhi Hk') as Hlt.
           change (firstn (Datatypes.S (Datatypes.S n)) (b :: rest))
             with (b :: firstn (Datatypes.S n) rest).
           pose proof (held_cons b (firstn (Datatypes.S n) rest)). lra.
Qed.

(** X3.  The newest lots are kept.  For lots of positive quantity,
    [_update_remaining_buys] returns and the ids of the lots it leaves are
    those of a suffix of the lots, in their order; this holds on binary64
    as on exact rationals.  On exact rationals the suffix is made of the
    lots after the longest prefix that the sale covers in full, the first
    of them being the lot that the sale cuts into when it ends inside a
    lot; on binary64 the rounding of the quantity still to remove can
    move the cut by one lot (see [binary64_update_leaves_a_crumb]). *)
Theorem X3_sale_leaves_newest_lots (lots : list Transaction.t) (q : Q)
    (lots64 : list binary64_ledger.Transaction.t) (q64 : float) :
  Forall positive_quantity lots ->
  Forall binary64_ledger.positive_quantity lots64 ->
  (exists out n,
      _update_remaining_buys lots q = Ok out
      /\ map Transaction.id out = map Transaction.id (skipn n lots)
      /\ (0 <= q -> held (firstn n lots) <= q)
      /\ ((n < List.length lots)%nat ->
          q < held (firstn (Datatypes.S n) lots)))
  /\ (exists out n,
        binary64_ledger._update_remaining_buys lots64 q64 = Ok out
        /\ map binary64_ledger.Transaction.id out
           = map binary64_ledger.Transaction.id (skipn n lots64)).
Proof.
  intros Hpos Hpos64. split; [|apply binary64_update_suffix; exact Hpos64].
  unfold _update_remaining_buys.
  destruct (update_loop_suffix lots Hpos q [])
    as (n & out & Hrun & Hids & _ & Hlo & Hhi).
  exists out, n. auto.
Qed.

Lemma X3_sale_leaves_newest_lots_witness :
  (exists out n,
      _update_remaining_buys [B1; B2] 12 = Ok out
      /\ map Transaction.id out = map Transaction.id (skipn n [B1; B2])
      /\ (0 <= 12 -> held (firstn n [B1; B2]) <= 12)
      /\ ((n < List.length [B1; B2])%nat ->
          12 < held (firstn (Datatypes.S n) [B1; B2])))
  /\ (exists out n,
        binary64_ledger._update_remaining_buys
          [binary64_example.F1; binary64_example.F2] 0.3%float
        = Ok out
        /\ map binary64_ledger.Transaction.id out
           = map binary64_ledger.Transaction.id
                 (skipn n [binary64_example.F1; binary64_example.F2])).
Proof.
  apply (X3_sale_leaves_newest_lots [B1; B2] 12
           [binary64_example.F1; binary64_example.F2]
           0.3%float).
  - repeat constructor.
  - repeat constructor.
Defined.

(* ================================================================== *)
(** * The average buy price *)
(* ================================================================== *)

Lemma priced_sum (lo hi : Q) (lots : list Transaction.t) :
  Forall (priced lo hi) lots ->
  lo * held lots <= cost_of lots /\ cost_of lots <= hi * held lots.
Proof.
  induction 1 as [|b rest [Hlo Hhi] _ [IHlo IHhi]].
  - unfold held, cost_of, Py.sum. simpl. split; lra.
  - rewrite held_cons, cost_of_cons. split; lra.
Qed.

Lemma priced_scale (lo hi q c left : Q) :
  0 < q -> 0 < left -> lo * q <= c -> c <= hi * q ->
  lo * left <= c * left / q /\ c * left / q <= hi * left.
Proof.
  intros Hq Hl Hlo Hhi.
  assert (H1 : lo <= c / q) by (apply Qle_shift_div_l; lra).
  assert (H2 : c / q <= hi) by (apply Qle_shift_div_r; lra).
  assert (E : c * left / q == (c / q) * left) by (field; lra).
  rewrite E. split.
  - apply Qmult_le_compat_r; lra.
  - apply Qmult_le_compat_r; lra.
Qed.

Lemma update_loop_priced (lo hi : Q) (lots : list Transaction.t) :
  Forall positive_quantity lots -> Forall initialised lots ->
  Forall (priced lo hi) lots ->
  forall r rem,
    Forall positive_quantity rem -> Forall initialised rem ->
    Forall (priced lo hi) rem ->
    exists out,
      update_loop lots r rem = Ok out
      /\ Forall positive_quantity out
      /\ Forall initialised out
      /\ Forall (priced lo hi) out.
Proof.
  intros Hpos; induction Hpos as [|b rest Hb Hrest IH];
    intros Hinit Hpr r rem Hprem Hirem Hprrem.
  - exists rem. simpl. auto.
  - inversion Hinit as [|? ? Hib Hirest]; subst.
    inversion Hpr as [|? ? Hpb Hprest]; subst.
    unfold positive_quantity in Hb. simpl.
    destruct (le_spec r 0) as [Hr|Hr].
    + apply IH; auto; apply Forall_app; split; auto.
    + unfold Py.gt.
      destruct (lt_spec r (Transaction.quantity b)) as [Hlt|Hge].
      * rewrite !truediv_ok by lra. simpl.
        match goal with
        | |- context [rem ++ [?t]] => set (lot' := t)
        end.
        assert (Hq' : Transaction.quantity lot' = Transaction.quantity b - r).
        { unfold lot'. apply quantity_new. }
        assert (Hc' : Transaction.total_cost lot'
                      == Transaction.total_cost b * (Transaction.quantity b - r)
                         / Transaction.quantity b).
        { unfold lot'. apply total_cost_new; auto; lra. }
        apply IH; auto; apply Forall_app; split; auto;
          (apply Forall_cons; [|apply Forall_nil]).
        -- unfold positive_quantity. rewrite Hq'. lra.
        -- unfold lot', Transaction.new. apply post_init_initialised.
        -- destruct Hpb as [Hlo Hhi]. unfold priced. rewrite Hq', Hc'.
           apply priced_scale; lra.
      * apply IH; auto.
Qed.

Lemma average_loop_priced (lo hi : Q) (txs : list Transaction.t) :
  Forall positive_quantity txs -> Forall initialised txs ->
  Forall (fun tx => Transaction.transaction_type tx = ACHAT -> priced lo hi tx)
         txs ->
  forall rem,
    Forall positive_quantity rem -> Forall initialised rem ->
    Forall (priced lo hi) rem ->
    exists out,
      average_loop txs rem = Ok out
      /\ Forall positive_quantity out
      /\ Forall (priced lo hi) out.
Proof.
  intros Hpos; induction Hpos as [|tx rest Htx Hrest IH];
    intros Hinit Hpr rem Hprem Hirem Hprrem.
  - exists rem. simpl. auto.
  - inversion Hinit as [|? ? Hitx Hirest]; subst.
    inversion Hpr as [|? ? Hptx Hprest]; subst.
    simpl. destruct (Transaction.transaction_type tx) eqn:Ety.
    + apply IH; auto; apply Forall_app; split; auto.
    + destruct (update_loop_priced lo hi rem Hprem Hirem Hprrem
                  (Transaction.quantity tx) [])
        as (out & Hu & Hp & Hi & Hb); auto.
      unfold _update_remaining_buys. rewrite Hu. simpl.
      apply IH; auto.
Qed.

(** X4.  The average buy price is an average.  For transactions of
    positive quantity that went through [__post_init__], whose purchases
    cost between [lo] and [hi] per share, [calculate_average_buy_price]
    returns; when shares remain after the sales, the result is the cost of
    the remaining lots divided by their quantity and lies between [lo] and
    [hi]; when none remains it is 0. *)
Theorem X4_average_price_between (txs : list Transaction.t) (lo hi : Q) :
  Forall positive_quantity txs -> Forall initialised txs ->
  Forall (fun tx => Transaction.transaction_type tx = ACHAT -> priced lo hi tx)
         txs ->
  exists remaining p,
    average_loop (Py.sorted Transaction.transaction_date txs) [] = Ok remaining
    /\ calculate_average_buy_price txs = Ok p
    /\ (held remaining <= 0 -> p = 0)
    /\ (0 < held remaining ->
        p == cost_of remaining / held remaining /\ lo <= p /\ p <= hi).
Proof.
  intros Hpos Hinit Hpr. unfold calculate_average_buy_price.
  pose proof (sorted_perm Transaction.transaction_date txs) as Hperm.
  destruct (average_loop_priced lo hi
              (Py.sorted Transaction.transaction_date txs))
    with (rem := @nil Transaction.t) as (out & Hrun & Hp & Hb); auto.
  - eapply Permutation_Forall; [symmetry; exact Hperm|exact Hpos].
  - eapply Permutation_Forall; [symmetry; exact Hperm|exact Hinit].
  - eapply Permutation_Forall; [symmetry; exact Hperm|exact Hpr].
  - rewrite Hrun. simpl. fold (held out). fold (cost_of out).
    destruct (priced_sum lo hi out Hb) as [Hlo Hhi].
    destruct (le_spec (held out) 0) as [Hz|Hnz].
    + exists out, 0. repeat split; auto; intros; lra.
    + rewrite truediv_ok by lra.
      exists out, (cost_of out / held out). repeat split; try reflexivity.
      * intros; lra.
      * apply Qle_shift_div_l; lra.
      * apply Qle_shift_div_r; lra.
Qed.

Lemma X4_average_price_between_witness :
  exists remaining p,
    average_loop (Py.sorted Transaction.transaction_date [S; B2; B1]) []
    = Ok remaining
    /\ calculate_average_buy_price [S; B2; B1] = Ok p
    /\ (held remaining <= 0 -> p = 0)
    /\ (0 < held remaining ->
        p == cost_of remaining / held remaining /\ 150 <= p /\ p <= 161).
Proof.
  apply (X4_average_price_between [S; B2; B1] 150 161).
  - repeat constructor.
  - repeat apply Forall_cons; try apply Forall_nil;
      apply post_init_initialised.
  - repeat apply Forall_cons; try apply Forall_nil; intro H;
      try discriminate H; split; discriminate.
Defined.

Lemma replay_loop_purchases (txs : list Transaction.t) :
  Forall (fun tx => Transaction.transaction_type tx = ACHAT) txs ->
  forall pvs rem, replay_loop txs pvs rem = Ok (pvs, rem ++ txs).
Proof.
  induction 1 as [|tx rest Htx _ IH]; intros pvs rem; simpl.
  - rewrite app_nil_r. reflexivity.
  - rewrite Htx, IH, <- app_assoc. reflexivity.
Qed.

Lemma average_loop_purchases (txs : list Transaction.t) :
  Forall (fun tx => Transaction.transaction_type tx = ACHAT) txs ->
  forall rem, average_loop txs rem = Ok (rem ++ txs).
Proof.
  induction 1 as [|tx rest Htx _ IH]; intro rem; simpl.
  - rewrite app_nil_r. reflexivity.
  - rewrite Htx, IH, <- app_assoc. reflexivity.
Qed.

(** X5.  A history of purchases only.  [calculate_all_realized_pv]
    returns the empty list, [_calculate_position_cost] returns the total
    quantity and the total cost of the purchases, and
    [calculate_average_buy_price] returns their quotient (0 when the
    total quantity is not positive): the two ledgers agree. *)
Theorem X5_purchases_only (txs : list Transaction.t) :
  Forall (fun tx => Transaction.transaction_type tx = ACHAT) txs ->
  calculate_all_realized_pv txs = Ok []
  /\ (exists quantity cost,
        _calculate_position_cost txs = Ok (quantity, cost)
        /\ quantity == held txs /\ cost == cost_of txs)
  /\ (exists p,
        calculate_average_buy_price txs = Ok p
        /\ (held txs <= 0 -> p = 0)
        /\ (0 < held txs -> p == cost_of txs / held txs)).
Proof.
  intro Hbuy.
  pose proof (sorted_perm Transaction.transaction_date txs) as Hperm.
  assert (Hsorted : Forall (fun tx => Transaction.transaction_type tx = ACHAT)
                      (Py.sorted Transaction.transaction_date txs)).
  { eapply Permutation_Forall; [symmetry; exact Hperm|exact Hbuy]. }
  assert (Hq : held (Py.sorted Transaction.transaction_date txs) == held txs).
  { apply sum_perm, Permutation_map, Hperm. }
  assert (Hc : cost_of (Py.sorted Transaction.transaction_date txs)
               == cost_of txs).
  { apply sum_perm, Permutation_map, Hperm. }
  split; [|split].
  - unfold calculate_all_realized_pv, replay.
    rewrite replay_loop_purchases by exact Hsorted. reflexivity.
  - unfold _calculate_position_cost, remaining_lots.
    rewrite position_loop_purchases by exact Hbuy. simpl.
    do 2 eexists. split; [reflexivity|].
    fold (lot_held (map lot_of txs)). fold (lot_cost (map lot_of txs)).
    rewrite lot_held_map, lot_cost_map. split; reflexivity.
  - unfold calculate_average_buy_price.
    rewrite average_loop_purchases by exact Hsorted. simpl.
    fold (held (Py.sorted Transaction.transaction_date txs)).
    fold (cost_of (Py.sorted Transaction.transaction_date txs)).
    destruct (le_spec (held (Py.sorted Transaction.transaction_date txs)) 0)
      as [Hz|Hnz].
    + exists 0. repeat split; intros; lra.
    + rewrite truediv_ok by lra. eexists. split; [reflexivity|].
      split; [intros; lra|]. intros _. rewrite Hq, Hc. reflexivity.
Qed.

Lemma X5_purchases_only_witness :
  calculate_all_realized_pv [B2; B1] = Ok []
  /\ (exists quantity cost,
        _calculate_position_cost [B2; B1] = Ok (quantity, cost)
        /\ quantity == held [B2; B1] /\ cost == cost_of [B2; B1])
  /\ (exists p,
        calculate_average_buy_price [B2; B1] = Ok p
        /\ (held [B2; B1] <= 0 -> p = 0)
        /\ (0 < held [B2; B1] -> p == cost_of [B2; B1] / held [B2; B1])).
Proof.
  apply (X5_purchases_only [B2; B1]).
  repeat constructor.
Defined.

(* ================================================================== *)
(** * The order of the input *)
(* ================================================================== *)

Lemma ascii_compare_refl (a : Ascii.ascii) : Ascii.compare a a = Eq.
Proof. unfold Ascii.compare. apply N.compare_refl. Qed.

Lemma ascii_compare_lt_trans (a b c : Ascii.ascii) :
  Ascii.compare a b = Lt -> Ascii.compare b c = Lt -> Ascii.compare a c = Lt.
Proof. unfold Ascii.compare. rewrite !N.compare_lt_iff. apply N.lt_trans. Qed.

Lemma string_compare_lt_trans :
  forall a b c : string,
    String.compare a b = Lt -> String.compare b c = Lt ->
    String.compare a c = Lt.
Proof.
  induction a as [|x a IH]; intros [|y b] [|z c]; simpl;
    try discriminate; auto.
  destruct (Ascii.compare x y) eqn:Exy; try discriminate;
    destruct (Ascii.compare y z) eqn:Eyz; try discriminate; intros H1 H2.
  - apply Ascii.compare_eq_iff in Exy, Eyz. subst.
    rewrite ascii_compare_refl. eapply IH; eassumption.
  - apply Ascii.compare_eq_iff in Exy. subst. rewrite Eyz. reflexivity.
  - apply Ascii.compare_eq_iff in Eyz. subst. rewrite Exy. reflexivity.
  - rewrite (ascii_compare_lt_trans x y z Exy Eyz). reflexivity.
Qed.

Lemma string_leb_cases (a b : string) :
  String.leb a b = true -> a = b \/ String.compare a b = Lt.
Proof.
  unfold String.leb. destruct (String.compare a b) eqn:E; intro H.
  - left. apply String.compare_eq_iff. exact E.
  - right. reflexivity.
  - discriminate.
Qed.

Lemma string_leb_trans (a b c : string) :
  String.leb a b = true -> String.leb b c = true -> String.leb a c = true.
Proof.
  intros H1 H2.
  destruct (string_leb_cases a b H1) as [->|L1]; [exact H2|].
  destruct (string_leb_cases b c H2) as [<-|L2]; [exact H1|].
  unfold String.leb. rewrite (string_compare_lt_trans a b c L1 L2).
  reflexivity.
Qed.

Section SortedUnique.
Context {A : Type} (key : A -> string).

Lemma insert_sorted (x : A) (xs : list A) :
  StronglySorted (key_le key) xs -> StronglySorted (key_le key) (Py.insert key x xs).
Proof.
  induction 1 as [|y ys Hys IH Hy]; simpl.
  - constructor; constructor.
  - destruct (String.leb (key x) (key y)) eqn:E.
    + constructor; [constructor; assumption|].
      constructor; [exact E|].
      eapply Forall_impl; [|exact Hy]. intros z Hz.
      unfold key_le in *. eapply string_leb_trans; eassumption.
    + constructor; [exact IH|].
      assert (Hyx : key_le key y x).
      { unfold key_le. destruct (String.leb_total (key x) (key y)) as [H|H];
          [congruence|exact H]. }
      eapply Permutation_Forall; [symmetry; apply insert_perm|].
      constructor; assumption.
Qed.

Lemma sorted_sorted (xs : list A) : StronglySorted (key_le key) (Py.sorted key xs).
Proof.
  induction xs as [|x xs IH]; simpl; [constructor|].
  apply insert_sorted. exact IH.
Qed.

Lemma key_injective (l : list A) :
  NoDup (map key l) ->
  forall x y, In x l -> In y l -> key x = key y -> x = y.
Proof.
  induction l as [|a l IH]; simpl; intros Hnd x y Hx Hy Hk; [contradiction|].
  inversion Hnd as [|? ? Hna Hnd']; subst.
  destruct Hx as [<-|Hx], Hy as [<-|Hy]; auto.
  - exfalso. apply Hna. rewrite Hk. apply in_map. exact Hy.
  - exfalso. apply Hna. rewrite <- Hk. apply in_map. exact Hx.
Qed.

Lemma sorted_unique (l1 : list A) :
  forall l2,
    StronglySorted (key_le key) l1 -> StronglySorted (key_le key) l2 ->
    Permutation l1 l2 -> NoDup (map key l1) -> l1 = l2.
Proof.
  induction l1 as [|x l1 IH]; intros l2 H1 H2 Hp Hnd.
  - apply Permutation_nil in Hp. subst. reflexivity.
  - destruct l2 as [|y l2].
    { symmetry in Hp. apply Permutation_nil in Hp. discriminate. }
    inversion H1 as [|? ? Hs1 Hx]; subst.
    inversion H2 as [|? ? Hs2 Hy]; subst.
    assert (Hxy : key_le key x y).
    { assert (Hin : In y (x :: l1))
        by (eapply Permutation_in; [symmetry; exact Hp|left; reflexivity]).
      destruct Hin as [<-|Hin].
      - unfold key_le. destruct (String.leb_total (key x) (key x)); assumption.
      - rewrite Forall_forall in Hx. apply Hx, Hin. }
    assert (Hyx : key_le key y x).
    { assert (Hin : In x (y :: l2))
        by (eapply Permutation_in; [exact Hp|left; reflexivity]).
      destruct Hin as [<-|Hin].
      - unfold key_le. destruct (String.leb_total (key y) (key y)); assumption.
      - rewrite Forall_forall in Hy. apply Hy, Hin. }
    assert (Hkey : key x = key y) by (apply String.leb_antisym; assumption).
    assert (Heq : x = y).
    { apply (key_injective (x :: l1) Hnd); [left; reflexivity| |exact Hkey].
      eapply Permutation_in; [symmetry; exact Hp|left; reflexivity]. }
    subst y. f_equal. apply IH; auto.
    + eapply Permutation_cons_inv. exact Hp.
    + inversion Hnd. assumption.
Qed.

Lemma sorted_of_permutation (l1 l2 : list A) :
  Permutation l1 l2 -> NoDup (map key l1) ->
  Py.sorted key l1 = Py.sorted key l2.
Proof.
  intros Hp Hnd. apply sorted_unique; try apply sorted_sorted.
  - etransitivity; [apply sorted_perm|].
    etransitivity; [exact Hp|]. symmetry. apply sorted_perm.
  - eapply Permutation_NoDup; [|exact Hnd].
    apply Permutation_map. symmetry. apply sorted_perm.
Qed.
End SortedUnique.

(** X6.  The order of the input does not matter.  When no two
    transactions have the same date, [calculate_all_realized_pv] and
    [calculate_average_buy_price] give the same result, or raise the same
    exception, on a list and on any rearrangement of it: the sort by
    date fixes the order of processing. *)
Theorem X6_order_of_input_is_irrelevant (txs txs' : list Transaction.t) :
  Permutation txs txs' ->
  NoDup (map Transaction.transaction_date txs) ->
  calculate_all_realized_pv txs = calculate_all_realized_pv txs'
  /\ calculate_average_buy_price txs = calculate_average_buy_price txs'.
Proof.
  intros Hp Hnd.
  unfold calculate_all_realized_pv, replay, calculate_average_buy_price.
  rewrite (sorted_of_permutation Transaction.transaction_date txs txs' Hp Hnd).
  split; reflexivity.
Qed.

Lemma X6_order_of_input_is_irrelevant_witness :
  calculate_all_realized_pv [S; B2; B1] = calculate_all_realized_pv [B1; B2; S]
  /\ calculate_average_buy_price [S; B2; B1]
     = calculate_average_buy_price [B1; B2; S].
Proof.
  apply (X6_order_of_input_is_irrelevant [S; B2; B1] [B1; B2; S]).
  - exact (Permutation_rev [S; B2; B1]).
  - repeat (apply NoDup_cons; [simpl; intuition discriminate|]).
    apply NoDup_nil.
Defined.

(* ================================================================== *)
(** * Selling what is held *)
(* ================================================================== *)

(** X7.  The break-even price breaks even.  For a positive quantity,
    [calculate_break_even_price] returns a price such that buying the
    quantity at [buy_price] with [buy_fees] and selling it at that price
    with [sell_fees] gives, through [calculate_realized_pv_fifo], the whole
    quantity sold, a gain of 0 and a percentage of 0. *)
Theorem X7_break_even_sale (ticker company_name buy_date sell_date : string)
    (buy_price buy_fees sell_fees quantity : Q) (buy_id sell_id : option Z) :
  0 < quantity ->
  exists price r,
    calculate_break_even_price buy_price buy_fees sell_fees quantity = Ok price
    /\ calculate_realized_pv_fifo
         [Transaction.new ticker company_name ACHAT quantity buy_price
                          buy_date 0 buy_fees None buy_id None None]
         (Transaction.new ticker company_name VENTE quantity price
                          sell_date 0 sell_fees None sell_id None None)
       = Ok r
    /\ RealizedGainLoss.quantity_sold r == quantity
    /\ RealizedGainLoss.total_gain_loss r == 0
    /\ RealizedGainLoss.gain_loss_percent r == 0.
Proof.
  intro Hq. unfold calculate_break_even_price.
  destruct (le_spec quantity 0) as [Hle|_]; [lra|].
  rewrite truediv_ok by lra.
  set (price := (buy_price * quantity + buy_fees + sell_fees) / quantity).
  remember (Transaction.new ticker company_name ACHAT quantity buy_price
                            buy_date 0 buy_fees None buy_id None None)
    as buy eqn:Ebuy.
  remember (Transaction.new ticker company_name VENTE quantity price
                            sell_date 0 sell_fees None sell_id None None)
    as sell eqn:Esell.
  assert (Hbq : Transaction.quantity buy = quantity)
    by (rewrite Ebuy; apply quantity_new).
  assert (Hsq : Transaction.quantity sell = quantity)
    by (rewrite Esell; apply quantity_new).
  assert (Hbc : Transaction.total_cost buy == quantity * buy_price + buy_fees).
  { rewrite Ebuy.
    change (quantity * buy_price + buy_fees == quantity * buy_price + buy_fees).
    reflexivity. }
  assert (Hsc : Transaction.total_cost sell == quantity * buy_price + buy_fees).
  { rewrite Esell.
    change (quantity * price - sell_fees == quantity * buy_price + buy_fees).
    unfold price. field. lra. }
  assert (Hrun : exists acc,
             fifo_loop (Transaction.quantity sell) [buy] (mk_fifo_acc 0 0 [])
             = Ok acc
             /\ quantity_sold acc == quantity
             /\ total_buy_cost acc == Transaction.total_cost buy).
  { rewrite Hsq. simpl. unfold Py.ge. rewrite Hbq.
    destruct (le_spec quantity 0) as [Hle|_]; [lra|].
    rewrite truediv_ok by lra. simpl. eexists. split; [reflexivity|]. simpl.
    destruct (min_spec quantity (quantity - 0)) as [[Hlt _]|[_ Hmin]]; [lra|].
    rewrite Hmin. split; [lra|]. field. lra. }
  destruct Hrun as (acc & Hacc & Hsold & Hcost).
  destruct (fifo_result [buy] sell acc Hacc)
    as (r & Hr & Hrq & Hgain & _ & Hpz & _ & Hpp).
  exists price, r. split; [reflexivity|]. fold price. rewrite <- Esell.
  split; [exact Hr|].
  split; [rewrite Hrq; exact Hsold|].
  assert (Hzero : Transaction.total_cost sell - total_buy_cost acc == 0)
    by lra.
  split; [rewrite Hgain; exact Hzero|].
  destruct (Qlt_le_dec 0 (total_buy_cost acc)) as [Hpos|Hnp].
  - rewrite (Hpp Hpos), Hzero. field. lra.
  - rewrite (Hpz Hnp). reflexivity.
Qed.

Lemma X7_break_even_sale_witness :
  exists price r,
    calculate_break_even_price 150 1 1 10 = Ok price
    /\ calculate_realized_pv_fifo
         [Transaction.new "AI.PA" "Air Liquide" ACHAT 10 150
                          "2024-01-01" 0 1 None (Some 1%Z) None None]
         (Transaction.new "AI.PA" "Air Liquide" VENTE 10 price
                          "2024-03-01" 0 1 None (Some 2%Z) None None)
       = Ok r
    /\ RealizedGainLoss.quantity_sold r == 10
    /\ RealizedGainLoss.total_gain_loss r == 0
    /\ RealizedGainLoss.gain_loss_percent r == 0.
Proof.
  apply (X7_break_even_sale "AI.PA" "Air Liquide" "2024-01-01" "2024-03-01"
           150 1 1 10 (Some 1%Z) (Some 2%Z)).
  reflexivity.
Defined.

(** X8.  A validated sale is served in full, in exact arithmetic.  When
    [validate_sell_transaction] accepts the quantity of a sale against the
    quantity held in lots of positive quantity, the quantity is positive
    and not above the holding and, on exact rationals,
    [calculate_realized_pv_fifo] sells exactly that quantity and
    [_update_remaining_buys] leaves the holding less that quantity.  On
    binary64 the quantity sold is that quantity up to a rounding (see
    [binary64_validated_sale_rounds]). *)
Theorem X8_validated_sale_is_covered (str : Q -> string)
    (lots : list Transaction.t) (sell : Transaction.t) :
  Forall positive_quantity lots ->
  validate_sell_transaction str (held lots) (Transaction.quantity sell)
  = (true, "") ->
  0 < Transaction.quantity sell <= held lots
  /\ exists r remaining,
      calculate_realized_pv_fifo lots sell = Ok r
      /\ RealizedGainLoss.quantity_sold r == Transaction.quantity sell
      /\ _update_remaining_buys lots (Transaction.quantity sell) = Ok remaining
      /\ held remaining == held lots - Transaction.quantity sell.
Proof.
  intros Hpos Hval. unfold validate_sell_transaction, Py.gt in Hval.
  destruct (le_spec (Transaction.quantity sell) 0) as [Hle|Hq];
    [discriminate|].
  destruct (lt_spec (held lots) (Transaction.quantity sell)) as [Hlt|Hge];
    [discriminate|].
  split; [lra|].
  destruct (fifo_loop_sold (Transaction.quantity sell) lots Hpos
              (mk_fifo_acc 0 0 [])) as (acc & Hacc & Hall & _);
    [simpl; lra|].
  destruct (fifo_result lots sell acc Hacc) as (r & Hr & Hrq & _).
  destruct (update_remaining_held lots Hpos (Transaction.quantity sell))
    as (out & Hout & _ & Hheld & _); [lra|].
  exists r, out. split; [exact Hr|]. split.
  - rewrite Hrq. apply Hall. simpl. lra.
  - split; [exact Hout|]. apply Hheld. lra.
Qed.

Lemma X8_validated_sale_is_covered_witness :
  0 < Transaction.quantity S <= held [B1; B2]
  /\ exists r remaining,
      calculate_realized_pv_fifo [B1; B2] S = Ok r
      /\ RealizedGainLoss.quantity_sold r == Transaction.quantity S
      /\ _update_remaining_buys [B1; B2] (Transaction.quantity S)
         = Ok remaining
      /\ held remaining == held [B1; B2] - Transaction.quantity S.
Proof.
  apply (X8_validated_sale_is_covered (fun _ => "") [B1; B2] S).
  - repeat constructor.
  - reflexivity.
Defined.

(* ================================================================== *)
(** * The two ledgers *)
(* ================================================================== *)

Lemma lot_cost_cons (l : Lot.t) (lots : list Lot.t) :
  lot_cost (l :: lots) == Lot.cost l + lot_cost lots.
Proof. apply sum_cons. Qed.

Lemma cost_of_nonneg (lots : list Transaction.t) :
  Forall nonneg_cost lots -> 0 <= cost_of lots.
Proof.
  intro H. apply sum_nonneg. apply Forall_map.
  eapply Forall_impl; [|exact H]. auto.
Qed.

(** One sale entered in the two ledgers. *)
Lemma ledgers_after_a_sale (lots : list Transaction.t) :
  Forall open_lot lots ->
  forall r rem,
  exists ul dl,
    update_loop lots r rem = Ok ul
    /\ sell_loop r (map lot_of lots) = Ok dl
    /\ lot_held dl + held rem <= held ul
    /\ held ul <= lot_held dl + held rem + 1e-9
    /\ lot_cost dl + cost_of rem <= cost_of ul.
Proof.
  pose proof tolerance_pos as Htol.
  induction 1 as [|b rest (Hb & Hib & Hcb) Hrest IH]; intros r rem.
  - exists rem, []. simpl. repeat split; auto;
      unfold lot_held, lot_cost, Py.sum; simpl; lra.
  - unfold positive_quantity in Hb. unfold nonneg_cost in Hcb.
    assert (Hqrest : Forall positive_quantity rest).
    { eapply Forall_impl; [|exact Hrest]. intros a (Ha & _). exact Ha. }
    assert (Hcrest : Forall nonneg_cost rest).
    { eapply Forall_impl; [|exact Hrest]. intros a (_ & _ & Ha). exact Ha. }
    pose proof (held_nonneg rest Hqrest) as Hnn.
    pose proof (cost_of_nonneg rest Hcrest) as Hcnn.
    simpl. unfold Py.gt.
    destruct (le_spec r 0) as [Hr|Hr].
    + destruct (lt_spec 0 r) as [Hpos|_]; [lra|].
      rewrite update_loop_keep by exact Hr.
      exists ((rem ++ [b]) ++ rest), (lot_of b :: map lot_of rest).
      split; [reflexivity|]. split; [reflexivity|].
      rewrite lot_held_cons, lot_cost_cons, !held_app, !cost_of_app.
      rewrite lot_held_map, lot_cost_map.
      pose proof (held_cons b []). pose proof held_nil.
      pose proof (cost_of_cons b []). pose proof cost_of_nil.
      simpl. repeat split; lra.
    + destruct (lt_spec 0 r) as [_|Hno]; [|lra].
      destruct (lt_spec r (Transaction.quantity b)) as [Hlt|Hge].
      * rewrite !truediv_ok by lra. simpl.
        rewrite update_loop_keep by lra.
        match goal with
        | |- context [(rem ++ [?t]) ++ rest] => set (lot' := t)
        end.
        assert (Hq' : Transaction.quantity lot' = Transaction.quantity b - r).
        { unfold lot'. apply quantity_new. }
        assert (Hc' : Transaction.total_cost lot'
                      == Transaction.total_cost b * (Transaction.quantity b - r)
                         / Transaction.quantity b).
        { unfold lot'. apply total_cost_new; auto; lra. }
        assert (Hc0 : 0 <= Transaction.total_cost b
                           * (Transaction.quantity b - r)
                           / Transaction.quantity b).
        { apply Qle_shift_div_l; [lra|]. rewrite Qmult_0_l.
          apply Qmult_le_0_compat; lra. }
        pose proof (held_cons lot' []) as Hh1. pose proof held_nil.
        pose proof (cost_of_cons lot' []) as Hc1. pose proof cost_of_nil.
        rewrite Hq' in Hh1.
        destruct (le_spec (Transaction.quantity b) (r + 1e-9)) as [Hnear|Hfar].
        -- (* the ledger of the database drops the lot *)
           assert (Hkeep : sell_loop (r - Transaction.quantity b)
                             (map lot_of rest) = Ok (map lot_of rest)).
           { destruct rest as [|c rest']; [reflexivity|]. simpl. unfold Py.gt.
             destruct (lt_spec 0 (r - Transaction.quantity b)); [lra|].
             reflexivity. }
           rewrite Hkeep.
           exists ((rem ++ [lot']) ++ rest), (map lot_of rest).
           split; [reflexivity|]. split; [reflexivity|].
           rewrite !held_app, !cost_of_app, lot_held_map, lot_cost_map.
           repeat split; lra.
        -- simpl.
           eexists ((rem ++ [lot']) ++ rest), _.
           split; [reflexivity|]. split; [reflexivity|].
           rewrite lot_held_cons, lot_cost_cons, !held_app, !cost_of_app.
           rewrite lot_held_map, lot_cost_map. simpl.
           assert (Hsame : Transaction.total_cost b
                           - Transaction.total_cost b
                             * (r / Transaction.quantity b)
                           == Transaction.total_cost b
                              * (Transaction.quantity b - r)
                              / Transaction.quantity b) by (field; lra).
           repeat split; lra.
      * destruct (le_spec (Transaction.quantity b) (r + 1e-9)) as [_|Hfar];
          [|lra].
        destruct (IH (r - Transaction.quantity b) rem)
          as (ul & dl & Hu & Hd & H1 & H2 & H3).
        exists ul, dl. auto.
Qed.

(** X9.  The two ledgers agree on a sale.  After the same purchases (open
    lots: positive quantity, constructed, cost not negative) and one
    sale, the quantity that [_calculate_position_cost] reports and the
    quantity left by [_update_remaining_buys] differ by at most the
    tolerance 1e-9 of the former, which never reports more shares, nor
    more cost, than the latter keeps: the database drops a lot that the
    sale leaves with 1e-9 share or less, the calculator keeps it. *)
Theorem X9_ledgers_agree_on_a_sale (lots : list Transaction.t)
    (sell : Transaction.t) :
  Forall open_lot lots ->
  Forall (fun tx => Transaction.transaction_type tx = ACHAT) lots ->
  Transaction.transaction_type sell = VENTE ->
  exists remaining quantity cost,
    _update_remaining_buys lots (Transaction.quantity sell) = Ok remaining
    /\ _calculate_position_cost (lots ++ [sell]) = Ok (quantity, cost)
    /\ quantity <= held remaining
    /\ held remaining <= quantity + 1e-9
    /\ cost <= cost_of remaining.
Proof.
  intros Hopen Hbuy Hsell. unfold _update_remaining_buys.
  destruct (ledgers_after_a_sale lots Hopen (Transaction.quantity sell) [])
    as (ul & dl & Hu & Hd & H1 & H2 & H3).
  exists ul, (lot_held dl), (lot_cost dl). split; [exact Hu|]. split.
  - unfold _calculate_position_cost, remaining_lots.
    rewrite position_loop_app, position_loop_purchases by exact Hbuy.
    simpl. rewrite Hsell, Hd. reflexivity.
  - pose proof held_nil. pose proof cost_of_nil. repeat split; lra.
Qed.

Lemma X9_ledgers_agree_on_a_sale_witness :
  exists remaining quantity cost,
    _update_remaining_buys [B1; B2] (Transaction.quantity S) = Ok remaining
    /\ _calculate_position_cost ([B1; B2] ++ [S]) = Ok (quantity, cost)
    /\ quantity <= held remaining
    /\ held remaining <= quantity + 1e-9
    /\ cost <= cost_of remaining.
Proof.
  apply (X9_ledgers_agree_on_a_sale [B1; B2] S).
  - repeat apply Forall_cons; try apply Forall_nil;
      (split; [reflexivity | split; [intro H; discriminate H | discriminate]]).
  - repeat constructor.
  - reflexivity.
Defined.

(* ================================================================== *)
(** * The positions of the database *)
(* ================================================================== *)

Lemma position_cost_total (txs : list Transaction.t) :
  exists quantity cost, _calculate_position_cost txs = Ok (quantity, cost).
Proof.
  unfold _calculate_position_cost, remaining_lots.
  destruct (position_loop_total txs []) as (lots & Hl). rewrite Hl. simpl.
  eauto.
Qed.


Lemma positions_loop_stored (get : string -> list Transaction.t)
    (rows : list (string * string)) :
  forall positions,
    Forall (stored_position get) positions ->
    exists out,
      positions_loop get rows positions = Ok out
      /\ Forall (stored_position get) out
      /\ exists kept,
          map Position.ticker out
          = map Position.ticker positions ++ kept
          /\ incl kept (map fst rows).
Proof.
  induction rows as [|[ticker company_name] rest IH]; intros positions Hst.
  - exists positions. simpl. repeat split; auto.
    exists []. rewrite app_nil_r. split; [reflexivity|]. apply incl_refl.
  - simpl.
    destruct (position_cost_total (get ticker)) as (quantity & cost & Hpc).
    rewrite Hpc. simpl.
    destruct (le_spec quantity 0) as [Hz|Hnz].
    + destruct (IH positions Hst) as (out & Hrun & Hout & kept & Hk & Hincl).
      exists out. repeat split; auto. exists kept. split; [exact Hk|].
      apply incl_tl. exact Hincl.
    + unfold Py.gt. destruct (lt_spec 0 quantity) as [Hpos|Hno]; [|lra].
      rewrite truediv_ok by lra. simpl.
      match goal with
      | |- context [positions ++ [?p]] => set (pos := p)
      end.
      destruct (IH (positions ++ [pos])) as (out & Hrun & Hout & kept & Hk & Hincl).
      { apply Forall_app. split; [exact Hst|].
        apply Forall_cons; [|apply Forall_nil].
        unfold stored_position, pos. simpl.
        repeat split; auto. field. lra. }
      exists out. repeat split; auto. exists (ticker :: kept). split.
      * rewrite Hk, map_app, <- app_assoc. reflexivity.
      * intros x [Hx|Hx]; [left; exact Hx|right; apply Hincl, Hx].
Qed.

(** X10.  The positions of the database.  Whatever the database holds,
    [get_current_positions] returns without raising, and every position it
    returns has a positive quantity, the quantity and cost that
    [_calculate_position_cost] gives for the transactions of its ticker,
    an [average_buy_price] that is [total_invested] divided by the
    quantity, and market fields at 0; its tickers are among those of the
    rows, they are what [get_unique_tickers] returns, and
    [get_total_invested] returns the sum of the [total_invested] of the
    positions.  On exact rationals the [average_buy_price] times the
    quantity is [total_invested]; on binary64 the product can be a
    rounding away (see [binary64_average_times_quantity]). *)
Theorem X10_stored_positions (rows : list (string * string))
    (get_transactions_by_ticker : string -> list Transaction.t) :
  exists positions total,
    get_current_positions rows get_transactions_by_ticker = Ok positions
    /\ Forall (stored_position get_transactions_by_ticker) positions
    /\ incl (map Position.ticker positions) (map fst rows)
    /\ get_unique_tickers rows get_transactions_by_ticker
       = Ok (map Position.ticker positions)
    /\ get_total_invested rows get_transactions_by_ticker = Ok total
    /\ total == Py.sum (map Position.total_invested positions).
Proof.
  unfold get_total_invested, get_unique_tickers, get_current_positions.
  destruct (positions_loop_stored get_transactions_by_ticker rows [])
    as (out & Hrun & Hout & kept & Hk & Hincl); [constructor|].
  rewrite Hrun. simpl. simpl in Hk. rewrite <- Hk in Hincl.
  exists out, (Py.sum (map Position.total_invested out)).
  split; [reflexivity|]. split; [exact Hout|]. split; [exact Hincl|].
  split; [reflexivity|]. split; reflexivity.
Qed.

(** X11.  A position valued at its average buy price shows no gain.  For
    every position that [get_current_positions] returns,
    [update_current_values] at the [average_buy_price] of the position
    gives a [current_value] equal to [total_invested] and an
    [unrealized_pnl] and [unrealized_pnl_percent] of 0. *)
Theorem X11_position_valued_at_cost (rows : list (string * string))
    (get_transactions_by_ticker : string -> list Transaction.t) :
  exists positions,
    get_current_positions rows get_transactions_by_ticker = Ok positions
    /\ Forall (fun position =>
                 exists p,
                   Position.update_current_values
                     position (Position.average_buy_price position) = Ok p
                   /\ Position.current_value p
                      == Position.total_invested position
                   /\ Position.unrealized_pnl p == 0
                   /\ Position.unrealized_pnl_percent p == 0)
              positions.
Proof.
  unfold get_current_positions.
  destruct (positions_loop_stored get_transactions_by_ticker rows [])
    as (out & Hrun & Hout & _); [constructor|].
  exists out. split; [exact Hrun|].
  eapply Forall_impl; [|exact Hout].
  intros position (Hq & _ & Havg & _).
  unfold Position.update_current_values, Py.gt.
  assert (Hv : Position.quantity position * Position.average_buy_price position
               == Position.total_invested position)
    by (rewrite <- Havg; ring).
  destruct (lt_spec 0 (Position.total_invested position)) as [Hpos|Hno].
  - rewrite truediv_ok by lra. simpl. eexists. split; [reflexivity|]. simpl.
    split; [exact Hv|]. split; [lra|]. rewrite Hv. field. lra.
  - simpl. eexists. split; [reflexivity|]. simpl.
    split; [exact Hv|]. split; [lra|reflexivity].
Qed.

(* ================================================================== *)
(** * Returns and yields *)
(* ================================================================== *)

(** X12.  One unrealized gain.  For every position and price,
    [Position.update_current_values], [calculate_unrealized_pnl] and
    [calculate_roi] return without raising and agree: the amount is
    quantity times price minus [total_invested], and the percentage
    stored in the position, the one returned by
    [calculate_unrealized_pnl] and the return on [total_invested] of the
    value quantity times price are the same number. *)
Theorem X12_unrealized_pnl_is_roi (position : Position.t) (current_price : Q) :
  exists p pnl_amount pnl_percent,
    Position.update_current_values position current_price = Ok p
    /\ calculate_unrealized_pnl position current_price
       = Ok (pnl_amount, pnl_percent)
    /\ calculate_roi (Position.total_invested position)
                     (Position.quantity position * current_price)
       = Ok pnl_percent
    /\ Position.current_value p = Position.quantity position * current_price
    /\ Position.unrealized_pnl p = pnl_amount
    /\ Position.unrealized_pnl_percent p = pnl_percent
    /\ pnl_amount
       = Position.quantity position * current_price
         - Position.total_invested position.
Proof.
  unfold Position.update_current_values, calculate_unrealized_pnl,
    calculate_roi, Py.gt.
  destruct (lt_spec 0 (Position.total_invested position)) as [Hpos|Hno];
    destruct (le_spec (Position.total_invested position) 0) as [Hle|Hgt];
    try lra.
  - rewrite truediv_ok by lra. simpl. do 3 eexists. repeat split.
  - simpl. do 3 eexists. repeat split.
Qed.

(** X13.  The performance of the portfolio is a return on investment.
    [calculate_portfolio_performance] returns without raising; its
    ['unrealized_gain_percent'] is [calculate_roi] of the amount invested
    and the current value, its ['total_performance_percent'] is
    [calculate_roi] of the amount invested and the current value plus the
    dividends, and its ['total_gain'] is the unrealized gain plus the
    dividends. *)
Theorem X13_performance_is_roi (total_invested current_value dividends : Q) :
  exists d total unrealized roi_total,
    calculate_portfolio_performance total_invested current_value dividends
    = Ok d
    /\ Py.getitem d "total_performance_percent" = Ok total
    /\ Py.getitem d "unrealized_gain_percent" = Ok unrealized
    /\ calculate_roi total_invested (current_value + dividends) = Ok roi_total
    /\ calculate_roi total_invested current_value = Ok unrealized
    /\ total == roi_total
    /\ Py.getitem d "total_gain"
       = Ok (current_value - total_invested + dividends).
Proof.
  unfold calculate_portfolio_performance, calculate_roi, Py.gt.
  destruct (lt_spec 0 total_invested) as [Hpos|Hno];
    destruct (le_spec total_invested 0) as [Hle|Hgt]; try lra.
  - rewrite !truediv_ok by lra. simpl. do 4 eexists.
    repeat split; try reflexivity. field. lra.
  - simpl. do 4 eexists. repeat split; reflexivity.
Qed.

Lemma weighted_yields_sum (per_share : Position.t -> Q)
    (positions : list Position.t) (yields : list Q) :
  Forall quoted positions ->
  Forall2 (fun p y =>
             calculate_dividend_yield (per_share p) (Position.current_price p)
             = Ok y) positions yields ->
  weighted_yields positions yields
  == Py.sum (map snd (annual_dividends per_share positions)) * 100.
Proof.
  intros Hq Hy. revert Hq.
  induction Hy as [|p y ps ys Hp _ IH]; intro Hq.
  - unfold weighted_yields, Py.sum. simpl. lra.
  - inversion Hq as [|? ? (Hprice & Hval) Hq']; subst.
    unfold weighted_yields in *. simpl. rewrite !sum_cons, (IH Hq'). simpl.
    unfold calculate_dividend_yield in Hp.
    destruct (le_spec (Position.current_price p) 0) as [Hle|_]; [lra|].
    rewrite truediv_ok in Hp by lra. simpl in Hp. inversion Hp; subst.
    rewrite Hval. field. lra.
Qed.

(** X14.  The yield of the portfolio is the weighted mean of the yields.
    For positions of distinct tickers valued at a positive price, with a
    positive total value, and the yearly dividends of each ticker being
    the dividend per share times the quantity held,
    [calculate_portfolio_dividend_yield] returns a yield which, times
    the total value, is the sum of the yields that
    [calculate_dividend_yield] gives for each position times the value
    of the position. *)
Theorem X14_portfolio_yield_is_weighted (per_share : Position.t -> Q)
    (positions : list Position.t) (yields : list Q) :
  NoDup (map Position.ticker positions) ->
  Forall quoted positions ->
  0 < Py.sum (map Position.current_value positions) ->
  Forall2 (fun p y =>
             calculate_dividend_yield (per_share p) (Position.current_price p)
             = Ok y) positions yields ->
  exists y,
    calculate_portfolio_dividend_yield
      positions (annual_dividends per_share positions) = Ok y
    /\ y * Py.sum (map Position.current_value positions)
       == weighted_yields positions yields.
Proof.
  intros _ Hq Hv Hy. unfold calculate_portfolio_dividend_yield.
  destruct (le_spec (Py.sum (map Position.current_value positions)) 0)
    as [Hle|_]; [lra|].
  rewrite truediv_ok by lra. simpl. eexists. split; [reflexivity|].
  rewrite (weighted_yields_sum per_share positions yields Hq Hy).
  field. lra.
Qed.

Lemma X14_portfolio_yield_is_weighted_witness :
  exists y,
    calculate_portfolio_dividend_yield
      [P1; P2] (annual_dividends (fun _ => 3) [P1; P2]) = Ok y
    /\ y * Py.sum (map Position.current_value [P1; P2])
       == weighted_yields [P1; P2] [3 / 160 * 100; 3 / 650 * 100].
Proof.
  apply (X14_portfolio_yield_is_weighted (fun _ => 3) [P1; P2]
           [3 / 160 * 100; 3 / 650 * 100]).
  - repeat (apply NoDup_cons; [simpl; intuition discriminate|]).
    apply NoDup_nil.
  - repeat apply Forall_cons; try apply Forall_nil; split; reflexivity.
  - reflexivity.
  - repeat apply Forall2_cons; try apply Forall2_nil; reflexivity.
Defined.

(* ================================================================== *)
(** * The snapshot of the portfolio *)
(* ================================================================== *)

Lemma positions_data_loop_spec (total_value : Q) (positions : list Position.t) :
  forall acc,
  exists data,
    positions_data_loop positions total_value acc = Ok (acc ++ data)
    /\ Forall2 (entry_of total_value) positions data
    /\ (0 < total_value ->
        weights data
        == Py.sum (map Position.current_value positions) / total_value * 100).
Proof.
  induction positions as [|p rest IH]; intro acc.
  - exists []. simpl. rewrite app_nil_r. split; [reflexivity|].
    split; [constructor|].
    intro Hv. unfold weights, Py.sum. simpl. field. lra.
  - simpl. unfold Py.gt.
    destruct (lt_spec 0 total_value) as [Hv|Hv].
    + rewrite truediv_ok by lra. simpl.
      match goal with
      | |- context [acc ++ [?e]] => set (d := e)
      end.
      destruct (IH (acc ++ [d])) as (data & Hrun & Hall & Hsum).
      exists (d :: data). rewrite Hrun, <- app_assoc. split; [reflexivity|].
      split.
      * constructor; [|exact Hall].
        unfold entry_of, d, calculate_position_weight. simpl.
        destruct (le_spec total_value 0); [lra|].
        rewrite truediv_ok by lra. repeat split.
      * intros _. unfold weights. simpl. rewrite !sum_cons.
        fold (weights data). rewrite (Hsum Hv). simpl. field. lra.
    + simpl.
      match goal with
      | |- context [acc ++ [?e]] => set (d := e)
      end.
      destruct (IH (acc ++ [d])) as (data & Hrun & Hall & Hsum).
      exists (d :: data). rewrite Hrun, <- app_assoc. split; [reflexivity|].
      split.
      * constructor; [|exact Hall].
        unfold entry_of, d, calculate_position_weight. simpl.
        destruct (le_spec total_value 0); [|lra]. repeat split.
      * intro. lra.
Qed.

(** X15.  The weights of a snapshot.  For positions whose values add up to
    a positive total, [get_portfolio_snapshot] returns; it has one entry
    per position, in order, whose weight is what
    [calculate_position_weight] gives for the position and the total
    value, and the weights add up to 100. *)
Theorem X15_snapshot_weights (positions : list Position.t) (dividend_income : Q)
    (now : string) :
  0 < Py.sum (map Position.current_value positions) ->
  exists s,
    get_portfolio_snapshot positions dividend_income now = Ok s
    /\ PortfolioSnapshot.current_value s
       = Py.sum (map Position.current_value positions)
    /\ Forall2 (entry_of (PortfolioSnapshot.current_value s))
               positions (PortfolioSnapshot.positions s)
    /\ weights (PortfolioSnapshot.positions s) == 100.
Proof.
  intro Hv. unfold get_portfolio_snapshot.
  assert (Hpct : exists pct,
             (if Py.gt (Py.sum (map Position.total_invested positions)) 0
              then r <- Py.truediv
                          (get_realized_gains_total
                           + Py.sum (map Position.unrealized_pnl positions))
                          (Py.sum (map Position.total_invested positions)) ;;
                   Ok (r * 100)
              else Ok 0) = Ok pct).
  { unfold Py.gt.
    destruct (lt_spec 0 (Py.sum (map Position.total_invested positions))).
    - rewrite truediv_ok by lra. simpl. eauto.
    - eauto. }
  destruct Hpct as (pct & Hpct). rewrite Hpct. cbn [Py.bind].
  destruct (positions_data_loop_spec
              (Py.sum (map Position.current_value positions)) positions [])
    as (data & Hrun & Hall & Hsum).
  rewrite Hrun. cbn [Py.bind]. eexists. split; [reflexivity|]. simpl.
  split; [reflexivity|]. split; [exact Hall|].
  rewrite (Hsum Hv). field. lra.
Qed.

Lemma X15_snapshot_weights_witness :
  exists s,
    get_portfolio_snapshot [P1; P2] 0 "2024-03-01 12:00:00" = Ok s
    /\ PortfolioSnapshot.current_value s
       = Py.sum (map Position.current_value [P1; P2])
    /\ Forall2 (entry_of (PortfolioSnapshot.current_value s))
               [P1; P2] (PortfolioSnapshot.positions s)
    /\ weights (PortfolioSnapshot.positions s) == 100.
Proof.
  apply (X15_snapshot_weights [P1; P2] 0 "2024-03-01 12:00:00").
  reflexivity.
Defined.

Lemma valued_sum (positions : list Position.t) :
  Forall valued positions ->
  Py.sum (map Position.unrealized_pnl positions)
  == Py.sum (map Position.current_value positions)
     - Py.sum (map Position.total_invested positions).
Proof.
  induction 1 as [|p rest Hp _ IH]; simpl.
  - unfold Py.sum. simpl. lra.
  - rewrite !sum_cons, IH. unfold valued in Hp. lra.
Qed.

(** X16.  The gain of a snapshot.  For positions whose unrealized gain is
    their value minus their cost, as [update_current_values] leaves them,
    [get_portfolio_snapshot] returns; its [realized_gains] are 0 whatever
    was sold, its [total_gain_loss] is its [current_value] minus its
    [total_invested], and its [total_gain_loss_percent] is [calculate_roi]
    of these two. *)
Theorem X16_snapshot_gain_is_value_minus_cost (positions : list Position.t)
    (dividend_income : Q) (now : string) :
  Forall valued positions ->
  exists s roi,
    get_portfolio_snapshot positions dividend_income now = Ok s
    /\ PortfolioSnapshot.realized_gains s == 0
    /\ PortfolioSnapshot.total_gain_loss s
       == PortfolioSnapshot.current_value s
          - PortfolioSnapshot.total_invested s
    /\ calculate_roi (PortfolioSnapshot.total_invested s)
                     (PortfolioSnapshot.current_value s) = Ok roi
    /\ PortfolioSnapshot.total_gain_loss_percent s == roi.
Proof.
  intro Hval. pose proof (valued_sum positions Hval) as Hsum.
  unfold get_portfolio_snapshot.
  set (ti := Py.sum (map Position.total_invested positions)) in *.
  set (cv := Py.sum (map Position.current_value positions)) in *.
  set (pnl := Py.sum (map Position.unrealized_pnl positions)) in *.
  assert (Hr : get_realized_gains_total == 0) by reflexivity.
  destruct (positions_data_loop_spec cv positions [])
    as (data & Hrun & _ & _).
  assert (Hroi : exists roi,
             calculate_roi ti cv = Ok roi
             /\ (0 < ti -> roi == (cv - ti) / ti * 100)
             /\ (ti <= 0 -> roi == 0)).
  { unfold calculate_roi. destruct (le_spec ti 0) as [Hle|Hgt].
    - exists 0. repeat split; intros; lra.
    - rewrite truediv_ok by lra. eexists. split; [reflexivity|].
      split; intros; [reflexivity|lra]. }
  destruct Hroi as (roi & Hroi & Hpos_roi & Hzero_roi).
  unfold Py.gt.
  destruct (lt_spec 0 ti) as [Hpos|Hno].
  - rewrite !truediv_ok by lra. cbn [Py.bind]. rewrite Hrun. cbn [Py.bind].
    eexists. exists roi. split; [reflexivity|]. simpl.
    split; [exact Hr|]. split; [lra|]. split; [exact Hroi|].
    rewrite (Hpos_roi Hpos), Hr, Hsum. field. lra.
  - cbn [Py.bind]. rewrite Hrun. cbn [Py.bind].
    eexists. exists roi. split; [reflexivity|]. simpl.
    split; [exact Hr|]. split; [lra|]. split; [exact Hroi|].
    rewrite Hzero_roi by lra. reflexivity.
Qed.

Lemma X16_snapshot_gain_is_value_minus_cost_witness :
  exists s roi,
    get_portfolio_snapshot [P1; P2] 0 "2024-03-01 12:00:00" = Ok s
    /\ PortfolioSnapshot.realized_gains s == 0
    /\ PortfolioSnapshot.total_gain_loss s
       == PortfolioSnapshot.current_value s
          - PortfolioSnapshot.total_invested s
    /\ calculate_roi (PortfolioSnapshot.total_invested s)
                     (PortfolioSnapshot.current_value s) = Ok roi
    /\ PortfolioSnapshot.total_gain_loss_percent s == roi.
Proof.
  apply (X16_snapshot_gain_is_value_minus_cost [P1; P2] 0
           "2024-03-01 12:00:00").
  repeat apply Forall_cons; try apply Forall_nil; reflexivity.
Defined.

(* ================================================================== *)
(** * The two tax regimes *)
(* ================================================================== *)

(** X17.  The effective rate of the progressive regime.  For a gross
    dividend other than 0, [calculate_progressive_tax_dividend] returns;
    its ['taux_effectif'] is 0.6 times the marginal rate plus 17.2,
    whatever the amount; under both regimes tax plus net is the gross
    amount; the tax of [calculate_pfu_dividend] is 30% of the gross
    amount, and the progressive tax exceeds it by 0.6% of the gross
    amount per point of marginal rate above 64/3. *)
Theorem X17_progressive_effective_rate (g m : Q) :
  ~ g == 0 ->
  exists r rate,
    calculate_progressive_tax_dividend g m = Ok r
    /\ Py.getitem (TaxResult.breakdown r) "taux_effectif" = Ok rate
    /\ rate == 0.6 * m + 17.2
    /\ TaxResult.tax_amount r + TaxResult.net_amount r == g
    /\ TaxResult.tax_amount (calculate_pfu_dividend g)
       + TaxResult.net_amount (calculate_pfu_dividend g) == g
    /\ TaxResult.tax_amount (calculate_pfu_dividend g) == 0.30 * g
    /\ TaxResult.tax_amount r - TaxResult.tax_amount (calculate_pfu_dividend g)
       == g * 0.006 * (m - 64 / 3).
Proof.
  intro Hg. unfold calculate_progressive_tax_dividend.
  rewrite truediv_ok by exact Hg. simpl.
  do 2 eexists. split; [reflexivity|]. split; [reflexivity|].
  unfold config.DIVIDEND_ALLOWANCE_RATE, config.SOCIAL_TAX_RATE,
    config.INCOME_TAX_RATE.
  repeat split; simpl; try lra; try (field; exact Hg); field.
Qed.

Lemma X17_progressive_effective_rate_witness :
  exists r rate,
    calculate_progressive_tax_dividend 5000 30 = Ok r
    /\ Py.getitem (TaxResult.breakdown r) "taux_effectif" = Ok rate
    /\ rate == 0.6 * 30 + 17.2
    /\ TaxResult.tax_amount r + TaxResult.net_amount r == 5000
    /\ TaxResult.tax_amount (calculate_pfu_dividend 5000)
       + TaxResult.net_amount (calculate_pfu_dividend 5000) == 5000
    /\ TaxResult.tax_amount (calculate_pfu_dividend 5000) == 0.30 * 5000
    /\ TaxResult.tax_amount r
       - TaxResult.tax_amount (calculate_pfu_dividend 5000)
       == 5000 * 0.006 * (30 - 64 / 3).
Proof.
  apply (X17_progressive_effective_rate 5000 30).
  discriminate.
Defined.

(** X18.  The recommendation of the annual summary.  For positive
    dividends and a marginal rate, [calculate_annual_tax_summary] returns;
    the PFU tax is 30% of the gross total (dividends plus net gains) and
    PFU tax plus PFU net is that total; the difference between the two
    regimes is 0.6% of the dividends per point of marginal rate below
    64/3, whatever the gains and losses; and ['meilleure_option'] is 'PFU'
    when the marginal rate is above 64/3, 'Barème' otherwise. *)
Theorem X18_summary_recommendation (d g l m : Q) :
  0 < d ->
  exists s pfu_tax pfu_net difference,
    calculate_annual_tax_summary d g l (Some m) = Ok s
    /\ item2 s "pfu" "total_impot" = Ok (Num pfu_tax)
    /\ item2 s "pfu" "total_net" = Ok (Num pfu_net)
    /\ pfu_tax == 0.30 * (d + Py.max 0 (g - l))
    /\ pfu_tax + pfu_net == d + Py.max 0 (g - l)
    /\ item2 s "comparaison" "difference" = Ok (Num difference)
    /\ difference == d * 0.006 * (64 / 3 - m)
    /\ (64 / 3 < m ->
        item2 s "comparaison" "meilleure_option" = Ok (Str "PFU"))
    /\ (m <= 64 / 3 ->
        item2 s "comparaison" "meilleure_option" = Ok (Str "Barème")).
Proof.
  intro Hd. unfold calculate_annual_tax_summary.
  unfold calculate_progressive_tax_dividend.
  rewrite truediv_ok by lra. simpl.
  set (n := Py.max 0 (g - l)).
  do 4 eexists. split; [reflexivity|]. unfold item2. simpl.
  split; [reflexivity|]. split; [reflexivity|].
  unfold config.DIVIDEND_ALLOWANCE_RATE, config.SOCIAL_TAX_RATE,
    config.INCOME_TAX_RATE.
  split; [lra|]. split; [lra|]. split; [reflexivity|]. split; [field|].
  assert (E : d * (1 - 0.40) * (m / 100) == 0.006 * (d * m)) by field.
  split; intro Hm;
    match goal with
    | |- context [Py.lt ?a ?b] => destruct (lt_spec a b) as [Hlt|Hge]
    end; try reflexivity; exfalso.
  - change (64 / 3) with (64 # 3) in Hm.
    assert (P : d * (64 # 3) < d * m) by (apply Qmult_lt_l; lra).
    apply Hge. lra.
  - change (64 / 3) with (64 # 3) in Hm.
    assert (P : d * m <= d * (64 # 3)) by (apply Qmult_le_l; lra).
    lra.
Qed.

Lemma X18_summary_recommendation_witness :
  exists s pfu_tax pfu_net difference,
    calculate_annual_tax_summary 5000 100 500 (Some 30) = Ok s
    /\ item2 s "pfu" "total_impot" = Ok (Num pfu_tax)
    /\ item2 s "pfu" "total_net" = Ok (Num pfu_net)
    /\ pfu_tax == 0.30 * (5000 + Py.max 0 (100 - 500))
    /\ pfu_tax + pfu_net == 5000 + Py.max 0 (100 - 500)
    /\ item2 s "comparaison" "difference" = Ok (Num difference)
    /\ difference == 5000 * 0.006 * (64 / 3 - 30)
    /\ (64 / 3 < 30 ->
        item2 s "comparaison" "meilleure_option" = Ok (Str "PFU"))
    /\ (30 <= 64 / 3 ->
        item2 s "comparaison" "meilleure_option" = Ok (Str "Barème")).
Proof.
  apply (X18_summary_recommendation 5000 100 500 30).
  reflexivity.
Defined.

(** X19.  The figures of the IFU.  [calculate_ifu_data] returns without
    raising; ['case_2BH'] is the gains minus the losses, or 0 when the
    losses exceed the gains; the total of the flat levy is 30% and the
    deductible CSG 6.8% of the French dividends, the foreign dividends and
    these net gains together; ['case_6DE'] is 6.8% of the French
    dividends; and the total of the flat levy is the PFU tax that
    [calculate_annual_tax_summary] reports for the same year. *)
Theorem X19_ifu_totals (dividends_fr dividends_foreign gains losses : Q) :
  exists v s total montant case_6DE pfu_tax,
    calculate_ifu_data dividends_fr dividends_foreign gains losses = Ok v
    /\ item v "case_2BH" = Ok (Num (Py.max 0 (gains - losses)))
    /\ 0 <= Py.max 0 (gains - losses)
    /\ item2 v "prelevement_forfaitaire" "total" = Ok (Num total)
    /\ total
       == 0.30 * (dividends_fr + dividends_foreign
                  + Py.max 0 (gains - losses))
    /\ item2 v "csg_deductible" "montant" = Ok (Num montant)
    /\ montant
       == 0.068 * (dividends_fr + dividends_foreign
                   + Py.max 0 (gains - losses))
    /\ item2 v "csg_deductible" "case_6DE" = Ok (Num case_6DE)
    /\ case_6DE == 0.068 * dividends_fr
    /\ calculate_annual_tax_summary (dividends_fr + dividends_foreign)
                                    gains losses None = Ok s
    /\ item2 s "pfu" "total_impot" = Ok (Num pfu_tax)
    /\ pfu_tax == total.
Proof.
  unfold calculate_ifu_data, calculate_annual_tax_summary. simpl.
  set (n := Py.max 0 (gains - losses)).
  assert (Hn : 0 <= n).
  { unfold n. destruct (max0_spec (gains - losses)) as [[H E]|[H E]];
      rewrite E; lra. }
  do 6 eexists. split; [reflexivity|]. unfold item2. simpl.
  split; [reflexivity|]. split; [exact Hn|]. split; [reflexivity|].
  unfold config.CSG_DEDUCTIBLE_RATE, config.SOCIAL_TAX_RATE,
    config.INCOME_TAX_RATE.
  split; [lra|]. split; [reflexivity|]. split; [lra|].
  split; [reflexivity|]. split; [lra|]. split; [reflexivity|].
  split; [reflexivity|]. lra.
Qed.

(* ================================================================== *)
(** * The bracket and the estimate *)
(* ================================================================== *)

Lemma first_bracket_in_table (x : Q) :
  match first_bracket brackets x with
  | Some r => In r bracket_labels
  | None => True
  end.
Proof.
  unfold brackets, first_bracket, bracket_labels.
  repeat match goal with
         | |- context [if ?c then _ else _] => destruct c
         end; simpl; auto 10.
Qed.

Lemma bracket_in_table (income parts : Q) :
  ~ parts == 0 ->
  exists rate name,
    calculate_tax_bracket income parts = Ok (rate, name)
    /\ In (rate, name) bracket_labels.
Proof.
  intro Hp. unfold calculate_tax_bracket. rewrite truediv_ok by exact Hp.
  unfold Py.bind. pose proof (first_bracket_in_table (income / parts)) as H.
  destruct (first_bracket brackets (income / parts)) as [[rate name]|].
  - exists rate, name. split; [reflexivity|exact H].
  - exists 45%Z, "45%". split; [reflexivity|]. simpl. auto 10.
Qed.

(** X20.  A negative income.  When the income per part is negative (and
    the number of parts is not 0), no bracket of the table matches and
    [calculate_tax_bracket] returns the rate and label of its last line,
    (45, "45%"). *)
Theorem X20_bracket_of_negative_income (income parts : Q) :
  ~ parts == 0 -> income / parts < 0 ->
  calculate_tax_bracket income parts = Ok (45%Z, "45%").
Proof.
  intros Hp Hneg. unfold calculate_tax_bracket.
  rewrite truediv_ok by exact Hp. simpl.
  destruct (le_spec 0 (income / parts)) as [H|_]; [lra|]. simpl.
  destruct (le_spec 11295 (income / parts)) as [H|_]; [lra|]. simpl.
  destruct (le_spec 28798 (income / parts)) as [H|_]; [lra|]. simpl.
  destruct (le_spec 82342 (income / parts)) as [H|_]; [lra|]. simpl.
  destruct (le_spec 177107 (income / parts)) as [H|_]; [lra|]. reflexivity.
Qed.

Lemma X20_bracket_of_negative_income_witness :
  calculate_tax_bracket (-1000) 1 = Ok (45%Z, "45%").
Proof.
  apply (X20_bracket_of_negative_income (-1000) 1).
  - discriminate.
  - reflexivity.
Defined.

Lemma bracket_raises (income parts : Q) (e : Py.exn) :
  calculate_tax_bracket income parts = Raise e -> e = ZeroDivisionError.
Proof.
  unfold calculate_tax_bracket, Py.truediv.
  destruct (Py.eq parts 0); unfold Py.bind.
  - intro H. inversion H. reflexivity.
  - destruct (first_bracket brackets (income / parts)); discriminate.
Qed.

(** X21.  No estimate without dividends.  Whatever the income, the gains
    and the number of parts, [estimate_total_tax] raises
    [ZeroDivisionError] when the dividends are 0: it always passes a
    marginal rate to [calculate_annual_tax_summary]. *)
Theorem X21_estimate_fails_without_dividends (income gains parts : Q) :
  estimate_total_tax income 0 gains parts = Raise ZeroDivisionError.
Proof.
  unfold estimate_total_tax.
  destruct (calculate_tax_bracket income parts) as [[rate name]|e] eqn:Hb.
  - cbn [Py.bind fst snd].
    assert (H : calculate_annual_tax_summary 0 gains 0
                  (Some (inject_Z rate)) = Raise ZeroDivisionError).
    { apply summary_raises_iff. split; [reflexivity|discriminate]. }
    rewrite H. reflexivity.
  - simpl. rewrite (bracket_raises income parts e Hb). reflexivity.
Qed.

Lemma summary_option (d g l m : Q) :
  0 < d ->
  exists s,
    calculate_annual_tax_summary d g l (Some m) = Ok s
    /\ ((64 # 3) < m ->
        item2 s "comparaison" "meilleure_option" = Ok (Str "PFU"))
    /\ (m <= (64 # 3) ->
        item2 s "comparaison" "meilleure_option" = Ok (Str "Barème")).
Proof.
  intro Hd. unfold calculate_annual_tax_summary.
  unfold calculate_progressive_tax_dividend.
  rewrite truediv_ok by lra. simpl.
  set (n := Py.max 0 (g - l)).
  eexists. split; [reflexivity|]. unfold item2. simpl.
  unfold config.DIVIDEND_ALLOWANCE_RATE, config.SOCIAL_TAX_RATE,
    config.INCOME_TAX_RATE.
  assert (E : d * (1 - 0.40) * (m / 100) == 0.006 * (d * m)) by field.
  split; intro Hm;
    match goal with
    | |- context [Py.lt ?a ?b] => destruct (lt_spec a b) as [Hlt|Hge]
    end; try reflexivity; exfalso.
  - assert (P : d * (64 # 3) < d * m) by (apply Qmult_lt_l; lra).
    apply Hge. lra.
  - assert (P : d * m <= d * (64 # 3)) by (apply Qmult_le_l; lra).
    lra.
Qed.

(** X22.  The estimate recommends by bracket.  For a number of parts other
    than 0 and positive dividends, [estimate_total_tax] returns; its
    ['tmi'] and ['tranche'] are the rate and label that
    [calculate_tax_bracket] gives, one of the five lines of the table;
    its ['fiscal_summary'] is the annual summary at that rate with no
    losses, and the regime it recommends is 'PFU' in the brackets of 30%,
    41% and 45% and 'Barème' in those of 0% and 11%. *)
Theorem X22_estimate_recommends_by_bracket (income d g parts : Q) :
  ~ parts == 0 -> 0 < d ->
  exists rate name v s,
    calculate_tax_bracket income parts = Ok (rate, name)
    /\ In (rate, name) bracket_labels
    /\ estimate_total_tax income d g parts = Ok v
    /\ item v "tmi" = Ok (Num (inject_Z rate))
    /\ item v "tranche" = Ok (Str name)
    /\ item v "fiscal_summary" = Ok s
    /\ calculate_annual_tax_summary d g 0 (Some (inject_Z rate)) = Ok s
    /\ item2 s "comparaison" "meilleure_option"
       = Ok (Str (if (30 <=? rate)%Z then "PFU" else "Barème")).
Proof.
  intros Hp Hd.
  destruct (bracket_in_table income parts Hp) as (rate & name & Hb & Hin).
  destruct (summary_option d g 0 (inject_Z rate) Hd) as (s & Hs & Hhi & Hlo).
  exists rate, name. unfold estimate_total_tax. rewrite Hb.
  cbn [Py.bind fst snd]. rewrite Hs. cbn [Py.bind]. eexists. exists s.
  split; [reflexivity|]. split; [exact Hin|]. split; [reflexivity|].
  split; [reflexivity|]. split; [reflexivity|]. split; [reflexivity|].
  split; [reflexivity|].
  simpl in Hin.
  destruct Hin as [H|[H|[H|[H|[H|[]]]]]]; inversion H; subst; simpl;
    (apply Hhi; reflexivity) || (apply Hlo; discriminate).
Qed.

Lemma X22_estimate_recommends_by_bracket_witness :
  exists rate name v s,
    calculate_tax_bracket 50000 2 = Ok (rate, name)
    /\ In (rate, name) bracket_labels
    /\ estimate_total_tax 50000 5000 0 2 = Ok v
    /\ item v "tmi" = Ok (Num (inject_Z rate))
    /\ item v "tranche" = Ok (Str name)
    /\ item v "fiscal_summary" = Ok s
    /\ calculate_annual_tax_summary 5000 0 0 (Some (inject_Z rate)) = Ok s
    /\ item2 s "comparaison" "meilleure_option"
       = Ok (Str (if (30 <=? rate)%Z then "PFU" else "Barème")).
Proof.
  apply (X22_estimate_recommends_by_bracket 50000 5000 0 2).
  - discriminate.
  - reflexivity.
Defined.

(* ================================================================== *)
(** * The gain shown on a sale row *)
(* ================================================================== *)

Lemma tab_insert_perm (x : Transaction.t) (xs : list Transaction.t) :
  Permutation (transactions_tab.insert x xs) (x :: xs).
Proof.
  induction xs as [|y ys IH]; simpl; [reflexivity|].
  destruct (transactions_tab.tuple_le _ _); [reflexivity|].
  rewrite IH. apply perm_swap.
Qed.

Lemma tab_sorted_perm (xs : list Transaction.t) :
  Permutation (transactions_tab.sorted xs) xs.
Proof.
  induction xs as [|x xs IH]; simpl; [reflexivity|].
  rewrite tab_insert_perm. constructor. exact IH.
Qed.

Lemma realized_pnl_loop_found (pre : list Transaction.t) :
  Forall positive_quantity pre ->
  forall sale_tx s post pvs lots,
    Forall (other_sale sale_tx) pre ->
    Transaction.transaction_type s = VENTE ->
    transactions_tab.id_eq (Transaction.id s) (Transaction.id sale_tx) = true ->
    Forall positive_quantity lots ->
    exists pvs' remaining r,
      replay_loop pre pvs lots = Ok (pvs', remaining)
      /\ Forall positive_quantity remaining
      /\ calculate_realized_pv_fifo remaining sale_tx = Ok r
      /\ transactions_tab.realized_pnl_loop (pre ++ s :: post) sale_tx lots
         = inl (RealizedGainLoss.total_gain_loss r,
                RealizedGainLoss.gain_loss_percent r).
Proof.
  induction 1 as [|tx pre Htx Hpre IH];
    intros sale_tx s post pvs lots Hother Hs Hid Hlots.
  - destruct (fifo_loop_prefix (Transaction.quantity sale_tx) lots Hlots
                (mk_fifo_acc 0 0 [])) as (k & acc & Hacc & _).
    destruct (fifo_result lots sale_tx acc Hacc) as (r & Hr & _).
    exists pvs, lots, r. simpl. rewrite Hs, Hid, Hr. auto.
  - inversion Hother as [|? ? Ho Hother']; subst.
    simpl. destruct (Transaction.transaction_type tx) eqn:Ety.
    + apply IH; auto. apply Forall_app. split; auto.
    + rewrite (Ho Ety).
      destruct (fifo_loop_prefix (Transaction.quantity tx) lots Hlots
                  (mk_fifo_acc 0 0 [])) as (k & acc & Hacc & _).
      destruct (fifo_result lots tx acc Hacc) as (r0 & Hr0 & _).
      rewrite Hr0. simpl.
      destruct (update_remaining_held lots Hlots (Transaction.quantity tx))
        as (out & Hout & Hpos & _).
      { unfold positive_quantity in Htx. lra. }
      rewrite Hout. simpl. apply IH; auto.
Qed.

(** X23.  The gain shown on a sale row.  When the history of the ticker,
    in the order of [(date, id)], has the sale at some place, after
    transactions of positive quantity none of which is a sale of the same
    id, [_calculate_realized_pnl] returns the gain and the percentage that
    [calculate_realized_pv_fifo] computes for the sale against the lots
    that the replay of the earlier transactions leaves open. *)
Theorem X23_gain_of_a_sale_row
    (get_transactions_by_ticker : string -> list Transaction.t)
    (sale_tx s : Transaction.t) (pre post : list Transaction.t) :
  transactions_tab.sorted
    (get_transactions_by_ticker (Transaction.ticker sale_tx))
  = pre ++ s :: post ->
  Transaction.transaction_type s = VENTE ->
  transactions_tab.id_eq (Transaction.id s) (Transaction.id sale_tx) = true ->
  Forall (other_sale sale_tx) pre ->
  Forall positive_quantity pre ->
  exists pvs remaining r,
    replay_loop pre [] [] = Ok (pvs, remaining)
    /\ calculate_realized_pv_fifo remaining sale_tx = Ok r
    /\ transactions_tab._calculate_realized_pnl
         get_transactions_by_ticker sale_tx
       = inl (RealizedGainLoss.total_gain_loss r,
              RealizedGainLoss.gain_loss_percent r).
Proof.
  intros Hsorted Hs Hid Hother Hpos.
  destruct (realized_pnl_loop_found pre Hpos sale_tx s post [] [])
    as (pvs & remaining & r & Hrun & _ & Hr & Hloop); auto.
  exists pvs, remaining, r. split; [exact Hrun|]. split; [exact Hr|].
  unfold transactions_tab._calculate_realized_pnl. rewrite Hsorted.
  exact Hloop.
Qed.

Lemma X23_gain_of_a_sale_row_witness :
  exists pvs remaining r,
    replay_loop [B1; B2] [] [] = Ok (pvs, remaining)
    /\ calculate_realized_pv_fifo remaining S = Ok r
    /\ transactions_tab._calculate_realized_pnl (fun _ => [S; B2; B1]) S
       = inl (RealizedGainLoss.total_gain_loss r,
              RealizedGainLoss.gain_loss_percent r).
Proof.
  apply (X23_gain_of_a_sale_row (fun _ => [S; B2; B1]) S S [B1; B2] []).
  - reflexivity.
  - reflexivity.
  - reflexivity.
  - repeat apply Forall_cons; try apply Forall_nil; intro H; discriminate H.
  - repeat constructor.
Defined.

Lemma realized_pnl_loop_missing (txs : list Transaction.t) :
  Forall positive_quantity txs ->
  forall sale_tx lots,
    Forall (other_sale sale_tx) txs ->
    Forall positive_quantity lots ->
    transactions_tab.realized_pnl_loop txs sale_tx lots
    = inr (transactions_tab.ValueError
             "Transaction de vente introuvable pour le calcul du P&L").
Proof.
  induction 1 as [|tx txs Htx Htxs IH]; intros sale_tx lots Hother Hlots.
  - reflexivity.
  - inversion Hother as [|? ? Ho Hother']; subst.
    simpl. destruct (Transaction.transaction_type tx) eqn:Ety.
    + apply IH; auto. apply Forall_app. split; auto.
    + rewrite (Ho Ety).
      destruct (update_remaining_held lots Hlots (Transaction.quantity tx))
        as (out & Hout & Hpos & _).
      { unfold positive_quantity in Htx. lra. }
      rewrite Hout. apply IH; auto.
Qed.

(** X24.  A sale that is not in the history.  When the history of the
    ticker has transactions of positive quantity and no sale of the id
    asked for, [_calculate_realized_pnl] raises its [ValueError], and no
    other exception. *)
Theorem X24_sale_row_not_found
    (get_transactions_by_ticker : string -> list Transaction.t)
    (sale_tx : Transaction.t) :
  Forall positive_quantity
         (get_transactions_by_ticker (Transaction.ticker sale_tx)) ->
  Forall (other_sale sale_tx)
         (get_transactions_by_ticker (Transaction.ticker sale_tx)) ->
  transactions_tab._calculate_realized_pnl get_transactions_by_ticker sale_tx
  = inr (transactions_tab.ValueError
           "Transaction de vente introuvable pour le calcul du P&L").
Proof.
  intros Hpos Hother. unfold transactions_tab._calculate_realized_pnl.
  apply realized_pnl_loop_missing; auto.
  - eapply Permutation_Forall; [symmetry; apply tab_sorted_perm|exact Hpos].
  - eapply Permutation_Forall; [symmetry; apply tab_sorted_perm|exact Hother].
Qed.

Lemma X24_sale_row_not_found_witness :
  transactions_tab._calculate_realized_pnl (fun _ => [S; B2; B1]) S20
  = inr (transactions_tab.ValueError
           "Transaction de vente introuvable pour le calcul du P&L").
Proof.
  apply (X24_sale_row_not_found (fun _ => [S; B2; B1]) S20).
  - repeat constructor.
  - repeat apply Forall_cons; try apply Forall_nil; intro H;
      try discriminate H; reflexivity.
Defined.
